(** * MariaDB backend protocol module (mysql_backend.cc): a shallow embedding

    The development follows
    [server/modules/protocol/MySQL/mariadbbackend/mysql_backend.cc].
    Bytes are integers in [0, 255]; a buffer is the list of its bytes together
    with its type tags; the backend DCB, its protocol object and its session
    are records; side effects on the outside world (socket writes, freed
    buffers, fake events, router call-backs, posted tasks) are appended to a
    trace that is threaded through every function together with the DCB.

    Functions that live outside this file of the module (helpers of
    mysql_common.cc, modutil.cc, buffer.cc, the authenticators, the router)
    are either fields of the environment record [Env], when only their result
    matters, or small definitions marked as modelled from the specification. *)

From Stdlib Require Import ZArith List Bool Lia Ascii DecimalString.
From Stdlib Require String.
Import ListNotations.
Import String.StringSyntax.
Delimit Scope string_scope with string.
Local Open Scope Z_scope.

(* ================================================================== *)
(** * Bytes, strings and the packet header *)
(* ================================================================== *)

Abbreviation uint8 := Z (only parsing).

(** The cast [(uint8_t) v]. *)
Definition to_uint8 (v : Z) : uint8 := Z.land v 255.

(** [d[i]]; reading past the end of the array is undefined in C, the model
    reads 0 there. *)
Definition byte_at (d : list uint8) (i : nat) : uint8 := nth i d 0.

Definition bytes_of_string (s : String.string) : list uint8 :=
  map (fun a => Z.of_N (N_of_ascii a)) (String.list_ascii_of_string s).

(** A C string is modelled by the bytes before its terminating NUL. *)
Definition strlen (s : list uint8) : nat := length s.

(** [strcmp(p, s) == 0] for a pointer [p] into a byte array: the bytes of [p]
    up to the first NUL are those of [s]. *)
Fixpoint c_string_at (p : list uint8) : list uint8 :=
  match p with
  | [] => []
  | b :: rest => if b =? 0 then [] else b :: c_string_at rest
  end.

Fixpoint bytes_eqb (a b : list uint8) : bool :=
  match a, b with
  | [], [] => true
  | x :: a', y :: b' => (x =? y) && bytes_eqb a' b'
  | _, _ => false
  end.

(** Modelled from the spec: the header macros of mysql.hh, which is not part
    of the source tree.  A packet starts with a 3-byte little-endian payload
    length and a 1-byte sequence number; the first payload byte is the
    command (or reply) byte. *)
Definition MYSQL_HEADER_LEN : nat := 4.
Definition MYSQL_PACKET_LENGTH_MAX : Z := 16777215.   (* 0x00ffffff *)

(** Modelled from the spec: the little-endian accessors [gw_mysql_get_byte2],
    [gw_mysql_get_byte3], [gw_mysql_set_byte2], [gw_mysql_set_byte3] and the
    field macros built on them (mysql.hh, not in the source tree). *)
Definition gw_mysql_get_byte2 (d : list uint8) : Z :=
  Z.lor (byte_at d 0) (Z.shiftl (byte_at d 1) 8).

Definition gw_mysql_get_byte3 (d : list uint8) : Z :=
  Z.lor (byte_at d 0)
        (Z.lor (Z.shiftl (byte_at d 1) 8) (Z.shiftl (byte_at d 2) 16)).

Definition gw_mysql_set_byte2 (v : Z) : list uint8 :=
  [Z.land v 255; Z.land (Z.shiftr v 8) 255].

Definition gw_mysql_set_byte3 (v : Z) : list uint8 :=
  [Z.land v 255; Z.land (Z.shiftr v 8) 255; Z.land (Z.shiftr v 16) 255].

Definition MYSQL_GET_PAYLOAD_LEN (d : list uint8) : Z := gw_mysql_get_byte3 d.
Definition MYSQL_GET_PACKET_NO (d : list uint8) : uint8 := byte_at d 3.
Definition MYSQL_GET_COMMAND (d : list uint8) : uint8 := byte_at d 4.
Definition MYSQL_GET_ERRCODE (d : list uint8) : Z :=
  gw_mysql_get_byte2 (skipn 5 d).

(** Modelled from the spec: the command and reply bytes and the sizes of
    mysql.hh (section 6 of the specification); an EOF packet is at most
    nine bytes long, header included. *)
Definition MXS_COM_QUIT : Z := 1.
Definition MXS_COM_QUERY : Z := 3.
Definition MXS_COM_CHANGE_USER : Z := 17.          (* 0x11 *)
Definition MXS_COM_STMT_PREPARE : Z := 22.         (* 0x16 *)
Definition MXS_COM_STMT_EXECUTE : Z := 23.         (* 0x17 *)
Definition MXS_COM_STMT_FETCH : Z := 28.           (* 0x1c *)
Definition MYSQL_REPLY_OK : Z := 0.
Definition MYSQL_REPLY_ERR : Z := 255.
Definition MYSQL_REPLY_AUTHSWITCHREQUEST : Z := 254.
Definition MYSQL_EOF_PACKET_LEN : nat := 9.        (* header + 5 *)

Definition GW_MYSQL_SCRAMBLE_SIZE : nat := 20.
Definition MYSQL_SCRAMBLE_LEN : nat := 20.
Definition DEFAULT_MYSQL_AUTH_PLUGIN : String.string :=
  "mysql_native_password"%string.

(** Modelled from the spec: the server error codes tested by the module
    (mysqld_error.h, not in the source tree; ER_HOST_IS_BLOCKED is the
    ERR 1129 of scenario 4). *)
Definition ER_HOST_IS_BLOCKED : Z := 1129.
Definition ER_ACCESS_DENIED_ERROR : Z := 1045.
Definition ER_DBACCESS_DENIED_ERROR : Z := 1044.
Definition ER_ACCESS_DENIED_NO_PASSWORD_ERROR : Z := 1698.

(* ================================================================== *)
(** * Buffers *)
(* ================================================================== *)

Inductive gwbuf_type_t :=
| GWBUF_TYPE_IGNORABLE
| GWBUF_TYPE_COLLECT_RESULT
| GWBUF_TYPE_RESULT
| GWBUF_TYPE_TRACK_STATE.

Definition gwbuf_type_eqb (a b : gwbuf_type_t) : bool :=
  match a, b with
  | GWBUF_TYPE_IGNORABLE, GWBUF_TYPE_IGNORABLE
  | GWBUF_TYPE_COLLECT_RESULT, GWBUF_TYPE_COLLECT_RESULT
  | GWBUF_TYPE_RESULT, GWBUF_TYPE_RESULT
  | GWBUF_TYPE_TRACK_STATE, GWBUF_TYPE_TRACK_STATE => true
  | _, _ => false
  end.

(** A buffer chain is modelled by its bytes and the set of its type bits.
    [GWBUF_DATA] is the start of the bytes: the module only dereferences
    packet headers, which lie at the start of the first segment.  A [GWBUF*]
    is an [option GWBUF], [None] being the null pointer. *)
Record GWBUF := mkGWBUF {
  gwbuf_data : list uint8;
  gwbuf_type : list gwbuf_type_t
}.

Definition GWBUF_DATA (b : GWBUF) : list uint8 := gwbuf_data b.
Definition gwbuf_length (b : GWBUF) : nat := length (gwbuf_data b).

Definition gwbuf_has_type (b : GWBUF) (t : gwbuf_type_t) : bool :=
  existsb (gwbuf_type_eqb t) (gwbuf_type b).

(** [gwbuf_set_type(b, t)]: or the bit into the type word. *)
Definition gwbuf_set_type (b : GWBUF) (t : gwbuf_type_t) : GWBUF :=
  if gwbuf_has_type b t then b
  else mkGWBUF (gwbuf_data b) (t :: gwbuf_type b).

Definition GWBUF_SHOULD_COLLECT_RESULT (b : GWBUF) : bool :=
  gwbuf_has_type b GWBUF_TYPE_COLLECT_RESULT.
Definition GWBUF_SHOULD_TRACK_STATE (b : GWBUF) : bool :=
  gwbuf_has_type b GWBUF_TYPE_TRACK_STATE.
Definition GWBUF_IS_IGNORABLE (b : GWBUF) : bool :=
  gwbuf_has_type b GWBUF_TYPE_IGNORABLE.

(** [gwbuf_alloc(n)] followed by [memset(data, 0, n)]. *)
Definition gwbuf_alloc_zeroed (n : nat) : GWBUF := mkGWBUF (repeat 0 n) [].

(** Modelled from the spec: [gwbuf_append] of buffer.cc (not in the source
    tree).  Appending to the null chain gives the tail; otherwise the bytes
    are concatenated and the head keeps its tags. *)
Definition gwbuf_append (head : option GWBUF) (tail : GWBUF) : GWBUF :=
  match head with
  | None => tail
  | Some h => mkGWBUF (gwbuf_data h ++ gwbuf_data tail) (gwbuf_type h)
  end.

(** [mxs_mysql_get_command(buffer)]: the byte at offset 4 of the chain. *)
Definition mxs_mysql_get_command (b : GWBUF) : uint8 :=
  MYSQL_GET_COMMAND (gwbuf_data b).

(** Pointer writes into an allocated array: [memcpy(buf + off, src, |src|)]
    and [buf[off] = v]. *)
Definition store (buf : list uint8) (off : nat) (src : list uint8)
  : list uint8 :=
  firstn off buf ++ src ++ skipn (off + length src) buf.

Definition store_byte (buf : list uint8) (off : nat) (v : uint8)
  : list uint8 :=
  store buf off [v].

(* ================================================================== *)
(** * Protocol object, session and DCB *)
(* ================================================================== *)

Inductive mxs_auth_state_t :=
| MXS_AUTH_STATE_INIT
| MXS_AUTH_STATE_PENDING_CONNECT
| MXS_AUTH_STATE_CONNECTED
| MXS_AUTH_STATE_MESSAGE_READ
| MXS_AUTH_STATE_RESPONSE_SENT
| MXS_AUTH_STATE_FAILED
| MXS_AUTH_STATE_HANDSHAKE_FAILED
| MXS_AUTH_STATE_COMPLETE.

Definition auth_state_eqb (a b : mxs_auth_state_t) : bool :=
  match a, b with
  | MXS_AUTH_STATE_INIT, MXS_AUTH_STATE_INIT
  | MXS_AUTH_STATE_PENDING_CONNECT, MXS_AUTH_STATE_PENDING_CONNECT
  | MXS_AUTH_STATE_CONNECTED, MXS_AUTH_STATE_CONNECTED
  | MXS_AUTH_STATE_MESSAGE_READ, MXS_AUTH_STATE_MESSAGE_READ
  | MXS_AUTH_STATE_RESPONSE_SENT, MXS_AUTH_STATE_RESPONSE_SENT
  | MXS_AUTH_STATE_FAILED, MXS_AUTH_STATE_FAILED
  | MXS_AUTH_STATE_HANDSHAKE_FAILED, MXS_AUTH_STATE_HANDSHAKE_FAILED
  | MXS_AUTH_STATE_COMPLETE, MXS_AUTH_STATE_COMPLETE => true
  | _, _ => false
  end.

(** The backend [MySQLProtocol] object. *)
Record MySQLProtocol := mkProtocol {
  protocol_auth_state : mxs_auth_state_t;
  current_command : Z;
  large_query : bool;
  collect_result : bool;
  track_state : bool;
  changing_user : bool;
  ignore_replies : Z;
  stored_query : option GWBUF;
  charset : Z;
  scramble : list uint8
}.

(** [MYSQL_session]: the credential snapshot kept on the client DCB. *)
Record MYSQL_session := mkMYSQL_session {
  user : list uint8;
  db : list uint8;
  client_sha1 : list uint8;
  mses_changing_user : bool
}.

Inductive dcb_state_t :=
| DCB_STATE_UNDEFINED
| DCB_STATE_ALLOC
| DCB_STATE_POLLING
| DCB_STATE_LISTENING
| DCB_STATE_DISCONNECTED
| DCB_STATE_NOPOLLING.

Definition dcb_state_eqb (a b : dcb_state_t) : bool :=
  match a, b with
  | DCB_STATE_UNDEFINED, DCB_STATE_UNDEFINED
  | DCB_STATE_ALLOC, DCB_STATE_ALLOC
  | DCB_STATE_POLLING, DCB_STATE_POLLING
  | DCB_STATE_LISTENING, DCB_STATE_LISTENING
  | DCB_STATE_DISCONNECTED, DCB_STATE_DISCONNECTED
  | DCB_STATE_NOPOLLING, DCB_STATE_NOPOLLING => true
  | _, _ => false
  end.

Inductive dcb_role_t := ROLE_CLIENT | ROLE_BACKEND | ROLE_INTERNAL.

Inductive mxs_session_state_t :=
| SESSION_STATE_CREATED
| SESSION_STATE_STARTED
| SESSION_STATE_STOPPING
| SESSION_STATE_FAILED
| SESSION_STATE_FREE.

Inductive session_close_t :=
| SESSION_CLOSE_NONE
| SESSION_CLOSE_HANDLEERROR_FAILED.

Inductive ssl_state_t :=
| SSL_HANDSHAKE_UNKNOWN
| SSL_HANDSHAKE_REQUIRED
| SSL_HANDSHAKE_DONE
| SSL_ESTABLISHED
| SSL_HANDSHAKE_FAILED.

(** Routing capability types.  The capability word of a service is modelled
    by the predicate [rcap_type_required(capabilities, t)] itself. *)
Inductive rcap_type_t :=
| RCAP_TYPE_STMT_INPUT
| RCAP_TYPE_PACKET_OUTPUT
| RCAP_TYPE_STMT_OUTPUT
| RCAP_TYPE_CONTIGUOUS_OUTPUT
| RCAP_TYPE_RESULTSET_OUTPUT
| RCAP_TYPE_SESSION_STATE_TRACKING
| RCAP_TYPE_NO_RSESSION.

Definition capabilities_t := rcap_type_t -> bool.

Definition rcap_type_required (caps : capabilities_t) (t : rcap_type_t)
  : bool := caps t.

(** The client DCB as the backend module sees it. *)
Record CLIENT_DCB := mkClientDCB {
  client_state : dcb_state_t;
  client_role : dcb_role_t;
  client_protocol : option MySQLProtocol;
  client_data : MYSQL_session
}.

Record MXS_SESSION := mkSession {
  ses_state : mxs_session_state_t;
  client_dcb : option CLIENT_DCB;
  service_capabilities : capabilities_t;   (* service_get_capabilities *)
  router_session : bool;                   (* router_session != NULL *)
  load_active : bool;                      (* session_is_load_active *)
  close_reason : session_close_t
}.

Record SERVER := mkServer {
  persistent_conns_enabled : bool;
  proxy_protocol : bool
}.

(** The backend DCB.  [session] is null while the DCB sits in the persistent
    pool. *)
Record DCB := mkDCB {
  persistentstart : Z;
  was_persistent : bool;
  state : dcb_state_t;
  readq : option GWBUF;
  writeq : option GWBUF;
  delayq : option GWBUF;
  ssl_state : ssl_state_t;
  dcb_errhandle_called : bool;
  is_fake_event : bool;
  server : SERVER;
  session : option MXS_SESSION;
  protocol : MySQLProtocol
}.

(** ** Field updates *)

Definition set_auth_state (p : MySQLProtocol) (v : mxs_auth_state_t) :=
  mkProtocol v (current_command p) (large_query p) (collect_result p)
    (track_state p) (changing_user p) (ignore_replies p) (stored_query p)
    (charset p) (scramble p).
Definition set_current_command (p : MySQLProtocol) (v : Z) :=
  mkProtocol (protocol_auth_state p) v (large_query p) (collect_result p)
    (track_state p) (changing_user p) (ignore_replies p) (stored_query p)
    (charset p) (scramble p).
Definition set_large_query (p : MySQLProtocol) (v : bool) :=
  mkProtocol (protocol_auth_state p) (current_command p) v (collect_result p)
    (track_state p) (changing_user p) (ignore_replies p) (stored_query p)
    (charset p) (scramble p).
Definition set_collect_result (p : MySQLProtocol) (v : bool) :=
  mkProtocol (protocol_auth_state p) (current_command p) (large_query p) v
    (track_state p) (changing_user p) (ignore_replies p) (stored_query p)
    (charset p) (scramble p).
Definition set_track_state (p : MySQLProtocol) (v : bool) :=
  mkProtocol (protocol_auth_state p) (current_command p) (large_query p)
    (collect_result p) v (changing_user p) (ignore_replies p) (stored_query p)
    (charset p) (scramble p).
Definition set_changing_user (p : MySQLProtocol) (v : bool) :=
  mkProtocol (protocol_auth_state p) (current_command p) (large_query p)
    (collect_result p) (track_state p) v (ignore_replies p) (stored_query p)
    (charset p) (scramble p).
Definition set_ignore_replies (p : MySQLProtocol) (v : Z) :=
  mkProtocol (protocol_auth_state p) (current_command p) (large_query p)
    (collect_result p) (track_state p) (changing_user p) v (stored_query p)
    (charset p) (scramble p).
Definition set_stored_query (p : MySQLProtocol) (v : option GWBUF) :=
  mkProtocol (protocol_auth_state p) (current_command p) (large_query p)
    (collect_result p) (track_state p) (changing_user p) (ignore_replies p) v
    (charset p) (scramble p).

Definition set_mses_changing_user (m : MYSQL_session) (v : bool) :=
  mkMYSQL_session (user m) (db m) (client_sha1 m) v.
Definition set_client_data (c : CLIENT_DCB) (v : MYSQL_session) :=
  mkClientDCB (client_state c) (client_role c) (client_protocol c) v.
Definition set_client_dcb (s : MXS_SESSION) (v : option CLIENT_DCB) :=
  mkSession (ses_state s) v (service_capabilities s) (router_session s)
    (load_active s) (close_reason s).
Definition set_close_reason (s : MXS_SESSION) (v : session_close_t) :=
  mkSession (ses_state s) (client_dcb s) (service_capabilities s)
    (router_session s) (load_active s) v.

Definition set_was_persistent (d : DCB) (v : bool) :=
  mkDCB (persistentstart d) v (state d) (readq d) (writeq d) (delayq d)
    (ssl_state d) (dcb_errhandle_called d) (is_fake_event d) (server d)
    (session d) (protocol d).
Definition set_readq (d : DCB) (v : option GWBUF) :=
  mkDCB (persistentstart d) (was_persistent d) (state d) v (writeq d)
    (delayq d) (ssl_state d) (dcb_errhandle_called d) (is_fake_event d)
    (server d) (session d) (protocol d).
Definition set_delayq (d : DCB) (v : option GWBUF) :=
  mkDCB (persistentstart d) (was_persistent d) (state d) (readq d) (writeq d)
    v (ssl_state d) (dcb_errhandle_called d) (is_fake_event d) (server d)
    (session d) (protocol d).
Definition set_errhandle_called (d : DCB) (v : bool) :=
  mkDCB (persistentstart d) (was_persistent d) (state d) (readq d) (writeq d)
    (delayq d) (ssl_state d) v (is_fake_event d) (server d) (session d)
    (protocol d).
Definition set_session (d : DCB) (v : option MXS_SESSION) :=
  mkDCB (persistentstart d) (was_persistent d) (state d) (readq d) (writeq d)
    (delayq d) (ssl_state d) (dcb_errhandle_called d) (is_fake_event d)
    (server d) v (protocol d).
Definition set_protocol (d : DCB) (v : MySQLProtocol) :=
  mkDCB (persistentstart d) (was_persistent d) (state d) (readq d) (writeq d)
    (delayq d) (ssl_state d) (dcb_errhandle_called d) (is_fake_event d)
    (server d) (session d) v.

(* ================================================================== *)
(** * The outside world *)
(* ================================================================== *)

Inductive dcb_id := THE_BACKEND_DCB | THE_CLIENT_DCB.

Inductive mxs_error_action_t := ERRACT_NEW_CONNECTION | ERRACT_REPLY_CLIENT.

Inductive mxs_auth_rc :=
| MXS_AUTH_SUCCEEDED
| MXS_AUTH_FAILED
| MXS_AUTH_INCOMPLETE
| MXS_AUTH_SSL_INCOMPLETE.

(** What a call leaves behind outside the DCB, in the order it happens. *)
Inductive event :=
| EvWrite (b : GWBUF)              (* dcb_write took [b] for the socket *)
| EvFree (b : GWBUF)               (* gwbuf_free of a non-null buffer *)
| EvFakeHangup (target : dcb_id)   (* poll_fake_hangup_event *)
| EvHandleError (errbuf : GWBUF) (action : mxs_error_action_t)
                                   (* router->handleError *)
| EvClientReply (stmt : option GWBUF)   (* router->clientReply *)
| EvRefreshUsers                   (* service_refresh_users(dcb->service) *)
| EvMainWorkerSetMaintenance       (* main_worker->execute of the task
                                      set_server_status(server, SERVER_MAINT) *)
| EvNativePasswordResponse (reply : GWBUF)
                                   (* send_mysql_native_password_response *)
| EvSessionTrackInfo (b : GWBUF)   (* mxs_mysql_get_session_track_info *)
| EvAuthExtract (b : GWBUF)        (* dcb->authfunc.extract *)
| EvAuthenticate                   (* dcb->authfunc.authenticate *)
| EvReadHandshake (b : GWBUF)      (* gw_read_backend_handshake *)
| EvSendBackendAuth.               (* gw_send_backend_auth *)

(** What the socket holds when it is read. *)
Inductive socket_input :=
| SockError
| SockBytes (bs : list uint8).

Record World := mkWorld {
  w_dcb : DCB;
  w_trace : list event;
  w_socket : socket_input
}.

Definition emit (e : event) (w : World) : World :=
  mkWorld (w_dcb w) (w_trace w ++ [e]) (w_socket w).
Definition with_dcb (w : World) (d : DCB) : World :=
  mkWorld d (w_trace w) (w_socket w).
Definition upd_dcb (f : DCB -> DCB) (w : World) : World :=
  with_dcb w (f (w_dcb w)).
Definition upd_proto (f : MySQLProtocol -> MySQLProtocol) (w : World)
  : World :=
  upd_dcb (fun d => set_protocol d (f (protocol d))) w.
Definition w_proto (w : World) : MySQLProtocol := protocol (w_dcb w).

(** [gwbuf_free(p)]: a no-op on the null pointer. *)
Definition gwbuf_free (p : option GWBUF) (w : World) : World :=
  match p with
  | None => w
  | Some b => emit (EvFree b) w
  end.

Definition poll_fake_hangup_event (t : dcb_id) (w : World) : World :=
  emit (EvFakeHangup t) w.

(** The parts of the program and of its environment that the module calls
    and that are not in the source tree; only their results are used. *)
Record Env := mkEnv {
  (** [gw_sha1_str]: the SHA-1 digest, 20 bytes. *)
  sha1 : list uint8 -> list uint8;
  sha1_length : forall x, length (sha1 x) = 20%nat;
  (** the macros [MYSQL_IS_COM_QUIT] and [MYSQL_IS_CHANGE_USER] of mysql.hh *)
  MYSQL_IS_COM_QUIT : list uint8 -> bool;
  MYSQL_IS_CHANGE_USER : list uint8 -> bool;
  (** whether [dcb_write] takes the buffer (returns non-zero) *)
  dcb_write_ok : GWBUF -> bool;
  (** whether [send_mysql_native_password_response] succeeds *)
  native_password_response_ok : GWBUF -> bool;
  (** [*succp] after the router's [handleError], and whether that handler
      records on the DCB that the error handler was called *)
  handleError_succp : GWBUF -> mxs_error_action_t -> bool;
  handleError_marks_dcb : bool;
  (** whether [gwbuf_make_contiguous] could allocate *)
  gwbuf_make_contiguous_ok : GWBUF -> bool;
  (** result-set inspection helpers of mysql_common.cc and modutil.cc *)
  mxs_mysql_is_result_set : GWBUF -> bool;
  modutil_count_signal_packets : GWBUF -> Z * bool;   (* count, more *)
  mxs_mysql_is_prep_stmt_ok : GWBUF -> bool;
  (** the authenticator and the handshake helpers *)
  authfunc_extract : GWBUF -> bool;
  authfunc_authenticate : mxs_auth_rc;
  gw_read_backend_handshake : GWBUF -> bool;
  gw_send_backend_auth : mxs_auth_state_t;
  (** [gw_getsockerrno(dcb->fd)]: what the socket answers when it is asked
      for its pending error after the events so far, so that two calls at
      different moments may differ; and [mxs_strerror] *)
  gw_getsockerrno : list event -> Z;
  mxs_strerror : Z -> String.string
}.

(** [dcb_write(dcb, buf)]: hands the buffer to the socket or its write
    queue; returns 0 when it cannot. *)
Definition dcb_write (E : Env) (buf : GWBUF) (w : World) : Z * World :=
  if dcb_write_ok E buf then (1, emit (EvWrite buf) w) else (0, w).

(* ================================================================== *)
(** * COM_CHANGE_USER packet construction *)
(* ================================================================== *)

(** Modelled from the spec: [null_client_sha1] of mysql.hh (not in the
    source tree), the all-zero digest that stands for "no password". *)
Definition null_client_sha1 : list uint8 := repeat 0 MYSQL_SCRAMBLE_LEN.

(** [memcmp(a, b, n) != 0]. *)
Definition memcmp_differs (a b : list uint8) (n : nat) : bool :=
  negb (bytes_eqb (firstn n a) (firstn n b)).

(** Modelled from the spec: [gw_str_xor(out, in1, in2, len)] of utils.cc
    (not in the source tree), the bytewise exclusive or of two arrays. *)
Fixpoint gw_str_xor (in1 in2 : list uint8) (len : nat) : list uint8 :=
  match len, in1, in2 with
  | S n, a :: r1, b :: r2 => Z.lxor a b :: gw_str_xor r1 r2 n
  | _, _, _ => []
  end.

(** [gw_sha1_2_str(in1, len1, in2, len2, out)]: the digest of the two
    arrays put end to end. *)
Definition gw_sha1_2_str (E : Env) (in1 : list uint8) (len1 : nat)
  (in2 : list uint8) (len2 : nat) : list uint8 :=
  sha1 E (firstn len1 in1 ++ firstn len2 in2).

Definition gw_sha1_str (E : Env) (in1 : list uint8) (len1 : nat)
  : list uint8 :=
  sha1 E (firstn len1 in1).

Definition gw_create_change_user_packet (E : Env) (mses : MYSQL_session)
  (proto : MySQLProtocol) : GWBUF :=
  let l_db := db mses in
  let l_user := user mses in
  let pwd := client_sha1 mses in
  let curr_db := if (0 <? strlen l_db)%nat then Some l_db else None in
  let curr_passwd :=
    if memcmp_differs pwd null_client_sha1 MYSQL_SCRAMBLE_LEN
    then Some pwd else None in
  (* get charset the client sent and use it for connection auth *)
  let l_charset := charset proto in
  let plugin := bytes_of_string DEFAULT_MYSQL_AUTH_PLUGIN in
  (* 1 byte COMMAND *)
  let bytes := 1%nat in
  (* add the user and a terminating char *)
  let bytes := (bytes + strlen l_user)%nat in
  let bytes := (bytes + 1)%nat in
  let bytes :=
    match curr_passwd with
    | Some _ => (bytes + GW_MYSQL_SCRAMBLE_SIZE)%nat
    | None => bytes
    end in
  (* 1 byte for scramble_len *)
  let bytes := (bytes + 1)%nat in
  (* db name and terminating char *)
  let bytes :=
    match curr_db with
    | Some d => (bytes + strlen d)%nat
    | None => bytes
    end in
  let bytes := (bytes + 1)%nat in
  (* the charset *)
  let bytes := (bytes + 2)%nat in
  let bytes := (bytes + strlen plugin)%nat in
  let bytes := (bytes + 1)%nat in
  (* the packet header *)
  let bytes := (bytes + 4)%nat in
  let buffer := gwbuf_alloc_zeroed bytes in
  (* the COM_CHANGE_USER is a session command: the result must be collected *)
  let buffer := gwbuf_set_type buffer GWBUF_TYPE_COLLECT_RESULT in
  let buf := GWBUF_DATA buffer in
  (* set packet number to 0 *)
  let buf := store_byte buf 3 0 in
  let payload := 4%nat in
  (* set the command COM_CHANGE_USER 0x11 *)
  let buf := store_byte buf payload 17 in
  let payload := (payload + 1)%nat in
  let buf := store buf payload l_user in
  let payload := (payload + strlen l_user)%nat in
  let payload := (payload + 1)%nat in
  let '(buf, payload) :=
    match curr_passwd with
    | Some _ =>
        (* hash1 is SHA1(real_password) *)
        let hash1 := firstn GW_MYSQL_SCRAMBLE_SIZE pwd in
        (* hash2 is SHA1(SHA1(real_password)) *)
        let hash2 := gw_sha1_str E hash1 GW_MYSQL_SCRAMBLE_SIZE in
        (* new_sha is SHA1(CONCAT(scramble, hash2)) *)
        let new_sha :=
          gw_sha1_2_str E (scramble proto) GW_MYSQL_SCRAMBLE_SIZE
                        hash2 GW_MYSQL_SCRAMBLE_SIZE in
        (* compute the xor in client_scramble *)
        let client_scramble :=
          gw_str_xor new_sha hash1 GW_MYSQL_SCRAMBLE_SIZE in
        (* set the auth-length *)
        let buf := store_byte buf payload (Z.of_nat GW_MYSQL_SCRAMBLE_SIZE) in
        let payload := (payload + 1)%nat in
        (* copy the 20 bytes scramble data *)
        let buf := store buf payload client_scramble in
        (buf, (payload + GW_MYSQL_SCRAMBLE_SIZE)%nat)
    | None =>
        (* skip the auth-length and leave the byte as NULL *)
        (buf, (payload + 1)%nat)
    end in
  (* if the db is not NULL append it *)
  let '(buf, payload) :=
    match curr_db with
    | Some d => (store buf payload d, (payload + strlen d)%nat)
    | None => (buf, payload)
    end in
  let payload := (payload + 1)%nat in
  (* set the charset, 2 bytes *)
  let buf := store_byte buf payload (to_uint8 l_charset) in
  let payload := (payload + 1)%nat in
  let buf := store_byte buf payload 0 in
  let payload := (payload + 1)%nat in
  let buf := store buf payload plugin in
  (* put here the payload size: bytes to write - 4 bytes packet header *)
  let buf := store buf 0 (gw_mysql_set_byte3 (Z.of_nat bytes - 4)) in
  mkGWBUF buf (gwbuf_type buffer).

(** ** The layout the specification gives for the payload, field by field:
    command; user name and NUL; scramble length; the scramble when a
    password is set and a NUL otherwise; schema and NUL; charset; plugin
    name and NUL.  [spec_] definitions follow the words of the
    specification and are compared with the code below. *)

Definition password_is_set (mses : MYSQL_session) : bool :=
  memcmp_differs (client_sha1 mses) null_client_sha1 MYSQL_SCRAMBLE_LEN.

(** xor(sha1(password), sha1(scramble || sha1(sha1(password)))), where the
    session holds sha1(password). *)
Definition spec_scramble (E : Env) (sha1_password scr : list uint8)
  : list uint8 :=
  gw_str_xor sha1_password (sha1 E (scr ++ sha1 E sha1_password)) 20.

Definition spec_charset_le16 (cs : Z) : list uint8 :=
  [Z.land cs 255; Z.land (Z.shiftr cs 8) 255].

Definition spec_change_user_payload (E : Env) (mses : MYSQL_session)
  (proto : MySQLProtocol) : list uint8 :=
  [17]
  ++ (user mses ++ [0])
  ++ [if password_is_set mses then 20 else 0]
  ++ (if password_is_set mses
      then spec_scramble E (client_sha1 mses) (scramble proto)
      else [0])
  ++ (db mses ++ [0])
  ++ spec_charset_le16 (charset proto)
  ++ (bytes_of_string DEFAULT_MYSQL_AUTH_PLUGIN ++ [0]).

(** The payload the code produces: no byte follows a zero scramble length,
    and the charset field is the low byte of the charset followed by zero. *)
Definition change_user_payload (E : Env) (mses : MYSQL_session)
  (proto : MySQLProtocol) : list uint8 :=
  [17]
  ++ (user mses ++ [0])
  ++ (if password_is_set mses
      then 20 :: spec_scramble E (client_sha1 mses) (scramble proto)
      else [0])
  ++ (db mses ++ [0])
  ++ [Z.land (charset proto) 255; 0]
  ++ (bytes_of_string DEFAULT_MYSQL_AUTH_PLUGIN ++ [0]).

(** Environments for evaluating the definitions on concrete inputs: the
    digest is a stand-in (the first 20 bytes of the input, zero padded), the
    two macros test the command byte, and the parameters say whether socket
    writes succeed, whether the router's error handler marks the DCB and
    agrees to go on, and what the socket error number is.  The theorems
    below hold for every environment. *)
Definition pad20 (x : list uint8) : list uint8 :=
  map (fun i => nth i x 0) (seq 0 20).

Definition is_command (c : Z) (d : list uint8) : bool :=
  MYSQL_GET_COMMAND d =? c.

Definition make_env (write_ok marks succp : bool) (sockerr : Z) : Env :=
  {| sha1 := pad20;
     sha1_length := fun _ => eq_refl;
     MYSQL_IS_COM_QUIT := is_command MXS_COM_QUIT;
     MYSQL_IS_CHANGE_USER := is_command MXS_COM_CHANGE_USER;
     dcb_write_ok := fun _ => write_ok;
     native_password_response_ok := fun _ => true;
     handleError_succp := fun _ _ => succp;
     handleError_marks_dcb := marks;
     gwbuf_make_contiguous_ok := fun _ => true;
     mxs_mysql_is_result_set := fun _ => false;
     modutil_count_signal_packets := fun _ => (0, false);
     mxs_mysql_is_prep_stmt_ok := fun _ => false;
     authfunc_extract := fun _ => true;
     authfunc_authenticate := MXS_AUTH_SUCCEEDED;
     gw_read_backend_handshake := fun _ => true;
     gw_send_backend_auth := MXS_AUTH_STATE_RESPONSE_SENT;
     gw_getsockerrno := fun _ => sockerr;
     mxs_strerror := fun _ => "Connection reset by peer"%string |}.

Definition sample_env : Env := make_env true false true 0.

Definition sample_protocol : MySQLProtocol :=
  {| protocol_auth_state := MXS_AUTH_STATE_COMPLETE;
     current_command := 0;
     large_query := false;
     collect_result := false;
     track_state := false;
     changing_user := false;
     ignore_replies := 0;
     stored_query := None;
     charset := 8;
     scramble := map Z.of_nat (seq 1 20) |}.

(** The same protocol object with another charset (collation id). *)
Definition sample_protocol_with_charset (cs : Z) : MySQLProtocol :=
  mkProtocol (protocol_auth_state sample_protocol)
    (current_command sample_protocol) (large_query sample_protocol)
    (collect_result sample_protocol) (track_state sample_protocol)
    (changing_user sample_protocol) (ignore_replies sample_protocol)
    (stored_query sample_protocol) cs (scramble sample_protocol).

(** user "u", no password, schema "d" *)
Definition sample_mses_nopw : MYSQL_session :=
  {| user := [117]; db := [100]; client_sha1 := repeat 0 20;
     mses_changing_user := false |}.

(** user "u2", a password digest, schema "d2" *)
Definition sample_mses_pw : MYSQL_session :=
  {| user := [117; 50]; db := [100; 50];
     client_sha1 := map Z.of_nat (seq 101 20);
     mses_changing_user := false |}.

(* ================================================================== *)
(** * The write path *)
(* ================================================================== *)

(** Dereferencing a null [session] or [client_dcb] pointer is undefined
    behaviour; functions that do so without a test return [None] there.
    [mxb_assert] is compiled out of release builds and is not modelled as a
    step; where an assertion matters it is given as a predicate.  The
    counter [ignore_replies] is a C [int]; it is modelled without overflow. *)

Definition session_is_load_active (s : MXS_SESSION) : bool := load_active s.

Definition prepare_for_write (d : DCB) (buffer : GWBUF) : DCB :=
  let proto := protocol d in
  let proto :=
    (* the DCB's session is null while it is in the persistent pool *)
    match session d with
    | Some s =>
        let capabilities := service_capabilities s in
        if rcap_type_required capabilities RCAP_TYPE_STMT_INPUT then
          let data := GWBUF_DATA buffer in
          let proto :=
            if negb (large_query proto) && negb (session_is_load_active s)
            then set_current_command proto (MYSQL_GET_COMMAND data)
            else proto in
          (* a large query: skip the command byte of the next packet *)
          set_large_query proto
            (MYSQL_GET_PAYLOAD_LEN data =? MYSQL_PACKET_LENGTH_MAX)
        else
          match client_dcb s with
          | Some c =>
              match client_protocol c with
              | Some client_proto =>
                  set_current_command proto (current_command client_proto)
              | None => proto
              end
          | None => proto
          end
    | None => proto
    end in
  let proto :=
    if GWBUF_SHOULD_COLLECT_RESULT buffer
    then set_collect_result proto true
    else proto in
  let proto := set_track_state proto (GWBUF_SHOULD_TRACK_STATE buffer) in
  set_protocol d proto.

Definition backend_set_delayqueue (d : DCB) (queue : GWBUF) : DCB :=
  set_delayq d (Some (gwbuf_append (delayq d) queue)).

Definition gw_MySQLWrite_backend (E : Env) (queue : GWBUF) (w : World)
  : option (Z * World) :=
  let backend_protocol := w_proto w in
  if was_persistent (w_dcb w) then
    let w := upd_dcb (fun d => set_was_persistent d false) w in
    let w := upd_proto (fun p => set_ignore_replies p 0) w in
    if negb (dcb_state_eqb (state (w_dcb w)) DCB_STATE_POLLING)
       || negb (auth_state_eqb (protocol_auth_state (w_proto w))
                               MXS_AUTH_STATE_COMPLETE)
    then
      (* DCB and protocol state do not qualify for pooling *)
      Some (0, gwbuf_free (Some queue) w)
    else
      (* a DCB just taken out of the pool: send a COM_CHANGE_USER to reset
         the session state; the old stored query is freed, the pointer is
         not cleared *)
      let w :=
        match stored_query (w_proto w) with
        | Some q => gwbuf_free (Some q) w
        | None => w
        end in
      if MYSQL_IS_COM_QUIT E (GWBUF_DATA queue) then
        (* closed before the first write: the COM_QUIT is ignored and the
           DCB goes back to the pool *)
        Some (1, gwbuf_free (Some queue) w)
      else
        match session (w_dcb w) with
        | None => None
        | Some s =>
            match client_dcb s with
            | None => None
            | Some c =>
                let buf :=
                  gw_create_change_user_packet E (client_data c) (w_proto w) in
                let '(written, w) := dcb_write E buf w in
                if negb (written =? 0) then
                  let w :=
                    upd_proto
                      (fun p => set_ignore_replies p (ignore_replies p + 1))
                      w in
                  let w :=
                    upd_proto (fun p => set_stored_query p (Some queue)) w in
                  Some (1, w)
                else
                  Some (0, gwbuf_free (Some queue) w)
            end
        end
  else if 0 <? ignore_replies backend_protocol then
    if MYSQL_IS_COM_QUIT E (GWBUF_DATA queue) then
      (* COM_CHANGE_USER already sent but the session is closing *)
      let w := gwbuf_free (Some queue) w in
      let w := poll_fake_hangup_event THE_BACKEND_DCB w in
      Some (0, w)
    else
      (* still waiting for the reply: append to the stored query *)
      let w :=
        upd_proto
          (fun p =>
             set_stored_query p (Some (gwbuf_append (stored_query p) queue)))
          w in
      Some (1, w)
  else
    match protocol_auth_state backend_protocol with
    | MXS_AUTH_STATE_HANDSHAKE_FAILED
    | MXS_AUTH_STATE_FAILED =>
        match session (w_dcb w) with
        | None => None      (* dcb->session->state is read for the log *)
        | Some _ => Some (0, gwbuf_free (Some queue) w)
        end
    | MXS_AUTH_STATE_COMPLETE =>
        let cmd := mxs_mysql_get_command queue in
        let w := upd_dcb (fun d => prepare_for_write d queue) w in
        if (cmd =? MXS_COM_QUIT)
           && persistent_conns_enabled (server (w_dcb w))
        then
          (* keep pooled connections alive: ignore the COM_QUIT *)
          Some (1, gwbuf_free (Some queue) w)
        else
          let w :=
            if GWBUF_IS_IGNORABLE queue
            then upd_proto
                   (fun p => set_ignore_replies p (ignore_replies p + 1)) w
            else w in
          Some (dcb_write E queue w)
    | _ =>
        (* store data until authentication is complete *)
        let w := upd_dcb (fun d => prepare_for_write d queue) w in
        let w := upd_dcb (fun d => backend_set_delayqueue d queue) w in
        Some (1, w)
    end.

Definition is_null {A} (p : option A) : bool :=
  match p with None => true | Some _ => false end.

Definition gw_connection_established (d : DCB) : bool :=
  let proto := protocol d in
  auth_state_eqb (protocol_auth_state proto) MXS_AUTH_STATE_COMPLETE
  && (ignore_replies proto =? 0)
  && is_null (stored_query proto).

(* ================================================================== *)
(** * Prepared-statement responses *)
(* ================================================================== *)

Record MXS_PS_RESPONSE := mkPsResponse {
  ps_id : Z;
  ps_columns : Z;
  ps_parameters : Z;
  ps_warnings : Z
}.

Definition gw_mysql_get_byte4 (d : list uint8) : Z :=
  Z.lor (byte_at d 0)
    (Z.lor (Z.shiftl (byte_at d 1) 8)
       (Z.lor (Z.shiftl (byte_at d 2) 16) (Z.shiftl (byte_at d 3) 24))).

(** Modelled from the spec: [mxs_mysql_extract_ps_response] of
    mysql_common.cc (not in the source tree), which reads the column-count
    and parameter-count fields of a COM_STMT_PREPARE OK reply: after the
    header and the status byte come the statement id (4 bytes), the column
    count (2), the parameter count (2), a filler (1) and the warning count
    (2).  It fails when the buffer is too short for these fields. *)
Definition mxs_mysql_extract_ps_response (buffer : GWBUF)
  : option MXS_PS_RESPONSE :=
  let d := gwbuf_data buffer in
  if (16 <=? length d)%nat then
    Some (mkPsResponse (gw_mysql_get_byte4 (skipn 5 d))
                       (gw_mysql_get_byte2 (skipn 9 d))
                       (gw_mysql_get_byte2 (skipn 11 d))
                       (gw_mysql_get_byte2 (skipn 14 d)))
  else None.

(** Modelled from the spec: [modutil_count_packets] of modutil.cc (not in
    the source tree): walks the buffer header by header and counts the
    packets that start in it.  Every step skips at least four bytes, so the
    length of the buffer bounds the number of steps. *)
Fixpoint count_packets_from (fuel : nat) (d : list uint8) : Z :=
  match fuel with
  | O => 0
  | S fuel' =>
      if (3 <=? length d)%nat
      then 1 + count_packets_from fuel'
                 (skipn (Z.to_nat (gw_mysql_get_byte3 d) + MYSQL_HEADER_LEN) d)
      else 0
  end.

Definition modutil_count_packets (buffer : GWBUF) : Z :=
  count_packets_from (S (gwbuf_length buffer)) (gwbuf_data buffer).

Definition complete_ps_response (buffer : GWBUF) : bool :=
  match mxs_mysql_extract_ps_response buffer with
  | Some resp =>
      let expected_packets := 1 in
      let expected_packets :=
        if 0 <? ps_columns resp
        then (* column definition packets plus one for the EOF *)
          expected_packets + (ps_columns resp + 1)
        else expected_packets in
      let expected_packets :=
        if 0 <? ps_parameters resp
        then (* parameter definition packets plus one for the EOF *)
          expected_packets + (ps_parameters resp + 1)
        else expected_packets in
      let n_packets := modutil_count_packets buffer in
      n_packets =? expected_packets
  | None => false
  end.

(** The count the specification gives: the header OK, the column
    definitions and one EOF, the parameter definitions and one EOF. *)
Definition spec_expected_packets (columns parameters : Z) : Z :=
  1 + (columns + 1) + (parameters + 1).

(** The count the code compares with: a group and its EOF are counted only
    when the group is not empty. *)
Definition expected_ps_packets (columns parameters : Z) : Z :=
  1 + (if 0 <? columns then columns + 1 else 0)
    + (if 0 <? parameters then parameters + 1 else 0).

(* ================================================================== *)
(** * Errors *)
(* ================================================================== *)

Definition is_error_response (buffer : GWBUF) : bool :=
  (5 <=? gwbuf_length buffer)%nat
  && (byte_at (gwbuf_data buffer) MYSQL_HEADER_LEN =? MYSQL_REPLY_ERR).

(** [handle_error_response].  The message text is copied for the log with
    [char bufstr[len]; memcpy(bufstr, data + 7, len - 3)], where [len] is the
    payload length of type [size_t]: with a payload of fewer than 3 bytes
    [len - 3] wraps around and the copy runs far beyond both arrays, which
    is undefined ([None]).  Its callers hand it whole packets, so that with
    3 bytes or more the copy stays inside the buffer. *)
Definition handle_error_response (buffer : GWBUF) (w : World)
  : option World :=
  let data := GWBUF_DATA buffer in
  let len := MYSQL_GET_PAYLOAD_LEN data in
  let errcode := MYSQL_GET_ERRCODE data in
  if len <? 3 then None
  else if errcode =? ER_HOST_IS_BLOCKED then
    (* put the server into maintenance mode, from the main worker *)
    Some (emit EvMainWorkerSetMaintenance w)
  else if (errcode =? ER_ACCESS_DENIED_ERROR)
          || (errcode =? ER_DBACCESS_DENIED_ERROR)
          || (errcode =? ER_ACCESS_DENIED_NO_PASSWORD_ERROR)
  then
    (* authentication failed, reload users *)
    Some (emit EvRefreshUsers w)
  else Some w.

(** [get_detailed_error(dcb)]; it asks the socket for its pending error at
    the moment of the call, so it is given the world and not only the DCB. *)
Definition get_detailed_error (E : Env) (w : World) : String.string :=
  let err := gw_getsockerrno E (w_trace w) in
  if negb (err =? 0) then
    String.append " ("
      (String.append (NilZero.string_of_int (Z.to_int err))
         (String.append ", " (String.append (mxs_strerror E err) ")")))
  else if is_fake_event (w_dcb w) then
    (* fake events should not have TCP socket errors *)
    " (Generated event)"%string
  else ""%string.

(** Modelled from the spec: [mysql_create_custom_error(packet_number,
    affected_rows, msg)] of mysql_common.cc (not in the source tree), which
    builds a MariaDB error packet: header with the payload length and the
    given sequence number, the ERR marker 0xff, a 2-byte error code, the
    SQL state marker and state, and the message.  The code and state are
    the ones MaxScale uses for its own errors (2003, HY000); no property
    below depends on their values. *)
Definition custom_error_code : Z := 2003.
Definition custom_error_state : list uint8 := bytes_of_string "#HY000"%string.

Definition mysql_create_custom_error (packet_number : Z)
  (affected_rows : Z) (msg : String.string) : GWBUF :=
  let payload :=
    [MYSQL_REPLY_ERR] ++ gw_mysql_set_byte2 custom_error_code
    ++ custom_error_state ++ bytes_of_string msg in
  mkGWBUF (gw_mysql_set_byte3 (Z.of_nat (length payload))
           ++ [to_uint8 packet_number] ++ payload) [].


Definition do_handle_error (E : Env) (action : mxs_error_action_t)
  (errmsg : String.string) (w : World) : option World :=
  match session (w_dcb w) with
  | None => None
  | Some session0 =>
      let errbuf :=
        mysql_create_custom_error 1 0
          (String.append errmsg (get_detailed_error E w)) in
      (* router->handleError(router_instance, rsession, errbuf, dcb,
                             action, &succp) *)
      let w := emit (EvHandleError errbuf action) w in
      let w :=
        upd_dcb
          (fun d =>
             set_errhandle_called d
               (dcb_errhandle_called d || handleError_marks_dcb E)) w in
      let succp := handleError_succp E errbuf action in
      let w := gwbuf_free (Some errbuf) w in
      (* if the error handler fails the routing session cannot continue *)
      if negb succp then
        let w :=
          upd_dcb
            (fun d =>
               set_session d
                 (Some (set_close_reason session0
                          SESSION_CLOSE_HANDLEERROR_FAILED))) w in
        Some (poll_fake_hangup_event THE_CLIENT_DCB w)
      else Some w
  end.

Definition gw_reply_on_error (E : Env) (w : World) : option World :=
  do_handle_error E ERRACT_REPLY_CLIENT
    "Authentication with backend failed. Session will be closed."%string w.

(* ================================================================== *)
(** * Framing helpers used by the read path *)
(* ================================================================== *)

(** A non-null [GWBUF*] never points to an empty chain. *)
Definition mk_buf (d : list uint8) (t : list gwbuf_type_t) : option GWBUF :=
  match d with
  | [] => None
  | _ => Some (mkGWBUF d t)
  end.

Definition MYSQL_GET_PACKET_LEN (d : list uint8) : nat :=
  (Z.to_nat (MYSQL_GET_PAYLOAD_LEN d) + MYSQL_HEADER_LEN)%nat.

(** The buffer starts with a whole packet: a header and as many payload
    bytes as the header announces. *)
Definition has_complete_packet (d : list uint8) : bool :=
  (MYSQL_HEADER_LEN <=? length d)%nat
  && (MYSQL_GET_PACKET_LEN d <=? length d)%nat.

(** Modelled from the spec: [gwbuf_split] of buffer.cc (not in the source
    tree): the first [n] bytes become a chain of their own, the rest stays
    (null when nothing is left); tags propagate to both halves. *)
Definition gwbuf_split (b : GWBUF) (n : nat) : GWBUF * option GWBUF :=
  (mkGWBUF (firstn n (gwbuf_data b)) (gwbuf_type b),
   mk_buf (skipn n (gwbuf_data b)) (gwbuf_type b)).

(** Modelled from the spec: [modutil_get_next_MySQL_packet(&readbuf)] of
    modutil.cc (not in the source tree), the spec's
    [extract_next_packet(chain) -> packet, residue]: splits the first
    complete packet off; returns null and leaves the buffer alone when the
    buffer does not start with a complete packet. *)
Definition modutil_get_next_MySQL_packet (p_readbuf : option GWBUF)
  : option GWBUF * option GWBUF :=
  match p_readbuf with
  | None => (None, None)
  | Some b =>
      if has_complete_packet (gwbuf_data b) then
        let '(packet, rest) :=
          gwbuf_split b (MYSQL_GET_PACKET_LEN (gwbuf_data b)) in
        (Some packet, rest)
      else (None, Some b)
  end.

(** Number of bytes taken by the complete packets at the head of [d]. *)
Fixpoint complete_packets_len (fuel : nat) (d : list uint8) : nat :=
  match fuel with
  | O => 0
  | S fuel' =>
      if has_complete_packet d
      then (MYSQL_GET_PACKET_LEN d
            + complete_packets_len fuel'
                (skipn (MYSQL_GET_PACKET_LEN d) d))%nat
      else 0
  end.

(** Modelled from the spec: [modutil_get_complete_packets(&readbuf)] of
    modutil.cc (not in the source tree), the spec's
    [extract_complete_packets(chain) -> chain_of_complete, chain_of_residue].
    Every packet takes at least four bytes, so the length of the buffer
    bounds the walk. *)
Definition modutil_get_complete_packets (p_readbuf : option GWBUF)
  : option GWBUF * option GWBUF :=
  match p_readbuf with
  | None => (None, None)
  | Some b =>
      let d := gwbuf_data b in
      if (length d <? 3)%nat then (None, Some b)
      else
        let total := complete_packets_len (length d) d in
        if (total =? length d)%nat then (Some b, None)
        else if (total =? 0)%nat then (None, Some b)
        else
          let '(complete, rest) := gwbuf_split b total in
          (Some complete, rest)
  end.

(** Modelled from the spec: [dcb_read(dcb, &head, 0)] of dcb.cc (not in the
    source tree): what is left in the read queue comes first, then the
    bytes the socket holds; returns the number of bytes, or -1 on a socket
    error. *)
Definition dcb_read (w : World) : Z * option GWBUF * World :=
  match w_socket w with
  | SockError => (-1, None, w)
  | SockBytes bs =>
      let old :=
        match readq (w_dcb w) with
        | Some q => q
        | None => mkGWBUF [] []
        end in
      let data := gwbuf_data old ++ bs in
      let w := upd_dcb (fun d => set_readq d None) w in
      let w := mkWorld (w_dcb w) (w_trace w) (SockBytes []) in
      (Z.of_nat (length data), mk_buf data (gwbuf_type old), w)
  end.

Definition dcb_readq_set (buf : option GWBUF) (w : World) : World :=
  upd_dcb (fun d => set_readq d buf) w.

Definition dcb_readq_prepend (buf : GWBUF) (w : World) : World :=
  upd_dcb
    (fun d =>
       set_readq d
         (Some match readq d with
               | Some q => gwbuf_append (Some buf) q
               | None => buf
               end)) w.

Definition dcb_readq_append (buf : GWBUF) (w : World) : World :=
  upd_dcb (fun d => set_readq d (Some (gwbuf_append (readq d) buf))) w.

(** [gwbuf_make_contiguous]: null when the allocation fails. *)
Definition gwbuf_make_contiguous (E : Env) (b : GWBUF) : option GWBUF :=
  if gwbuf_make_contiguous_ok E b then Some b else None.

(* ================================================================== *)
(** * The read path *)
(* ================================================================== *)

Definition session_state_is_started (s : mxs_session_state_t) : bool :=
  match s with SESSION_STATE_STARTED => true | _ => false end.

Definition session_ok_to_route (s : MXS_SESSION) : bool :=
  match client_dcb s with
  | Some c =>
      if session_state_is_started (ses_state s)
         && dcb_state_eqb (client_state c) DCB_STATE_POLLING
         && (router_session s
             || rcap_type_required (service_capabilities s)
                                   RCAP_TYPE_NO_RSESSION)
      then
        match client_protocol c with
        | Some client_protocol0 =>
            auth_state_eqb (protocol_auth_state client_protocol0)
                           MXS_AUTH_STATE_COMPLETE
        | None =>
            match client_role c with
            | ROLE_INTERNAL => true
            | _ => false
            end
        end
      else false
  | None => false
  end.

Definition expecting_text_result (proto : MySQLProtocol) : bool :=
  (current_command proto =? MXS_COM_QUERY)
  || (current_command proto =? MXS_COM_STMT_EXECUTE)
  || (current_command proto =? MXS_COM_STMT_FETCH).

Definition expecting_ps_response (proto : MySQLProtocol) : bool :=
  current_command proto =? MXS_COM_STMT_PREPARE.

Definition collecting_resultset (proto : MySQLProtocol)
  (capabilities : capabilities_t) : bool :=
  rcap_type_required capabilities RCAP_TYPE_RESULTSET_OUTPUT
  || collect_result proto.

Definition auth_change_requested (buf : GWBUF) : bool :=
  (mxs_mysql_get_command buf =? MYSQL_REPLY_AUTHSWITCHREQUEST)
  && (MYSQL_EOF_PACKET_LEN <? gwbuf_length buf)%nat.

(** [handle_auth_change_response]: when the server asks to switch to the
    plugin already in use it is only handing out a new scramble, which
    [send_mysql_native_password_response] answers. *)
Definition handle_auth_change_response (E : Env) (reply : GWBUF) (w : World)
  : bool * World :=
  if bytes_eqb (c_string_at (skipn 5 (GWBUF_DATA reply)))
               (bytes_of_string DEFAULT_MYSQL_AUTH_PLUGIN)
  then (native_password_response_ok E reply,
        emit (EvNativePasswordResponse reply) w)
  else (false, w).

(** A step of a function either returns from it or goes on. *)
Inductive flow (A : Type) :=
| Return (rc : Z) (w : World)
| Continue (a : A) (w : World).
Arguments Return {A} rc w.
Arguments Continue {A} a w.

(** gw_read_and_write, first part: split the complete packets off, make the
    buffer contiguous and decide whether a collected result is complete.
    Goes on with the read buffer and [result_collected]. *)
Definition read_frame_and_collect (E : Env) (capabilities : capabilities_t)
  (read_buffer : GWBUF) (w : World) : flow (GWBUF * bool) :=
  let proto := w_proto w in
  if rcap_type_required capabilities RCAP_TYPE_PACKET_OUTPUT
     || rcap_type_required capabilities RCAP_TYPE_STMT_OUTPUT
     || rcap_type_required capabilities RCAP_TYPE_CONTIGUOUS_OUTPUT
     || collect_result proto
     || negb (ignore_replies proto =? 0)
  then
    let '(tmp, residue) := modutil_get_complete_packets (Some read_buffer) in
    (* put any residue into the read queue *)
    let w := dcb_readq_set residue w in
    match tmp with
    | None => Return 0 w      (* no complete packets *)
    | Some tmp =>
        let w :=
          if rcap_type_required capabilities RCAP_TYPE_SESSION_STATE_TRACKING
             && negb (expecting_ps_response proto)
             && track_state proto
          then emit (EvSessionTrackInfo tmp) w
          else w in
        let read_buffer := tmp in
        if rcap_type_required capabilities RCAP_TYPE_CONTIGUOUS_OUTPUT
           || collect_result proto
           || negb (ignore_replies proto =? 0)
        then
          match gwbuf_make_contiguous E read_buffer with
          | None =>
              (* failed to make the buffer contiguous *)
              let w := gwbuf_free (Some read_buffer) w in
              Return 0 (poll_fake_hangup_event THE_BACKEND_DCB w)
          | Some read_buffer =>
              if collecting_resultset proto capabilities then
                if expecting_text_result proto then
                  if mxs_mysql_is_result_set E read_buffer
                     && (let '(eof_cnt, more) :=
                           modutil_count_signal_packets E read_buffer in
                         more || negb (Z.rem eof_cnt 2 =? 0))
                  then Return 0 (dcb_readq_prepend read_buffer w)
                  else
                    (* collected the complete result *)
                    Continue (read_buffer, true)
                      (upd_proto (fun p => set_collect_result p false) w)
                else if expecting_ps_response proto
                        && mxs_mysql_is_prep_stmt_ok E read_buffer
                        && negb (complete_ps_response read_buffer)
                then Return 0 (dcb_readq_prepend read_buffer w)
                else
                  Continue (read_buffer, true)
                    (upd_proto (fun p => set_collect_result p false) w)
              else Continue (read_buffer, false) w
          end
        else Continue (read_buffer, false) w
    end
  else Continue (read_buffer, false) w.

(** gw_read_and_write, second part: the reply to a COM_CHANGE_USER the
    client itself sent.  [None] when the client DCB is dereferenced and is
    null, and when the sequence byte is written into a buffer of fewer than
    four bytes, past its end. *)
Definition read_changing_user (E : Env) (read_buffer : GWBUF) (w : World)
  : option (flow GWBUF) :=
  if changing_user (w_proto w) then
    let '(answered, w') :=
      if auth_change_requested read_buffer
      then handle_auth_change_response E read_buffer w
      else (false, w) in
    if answered then
      Some (Return 0 (gwbuf_free (Some read_buffer) w'))
    else if (gwbuf_length read_buffer <? 4)%nat then None
    else
      (* always return a sequence of 3 for the final response to a
         COM_CHANGE_USER *)
      let read_buffer :=
        mkGWBUF (store_byte (gwbuf_data read_buffer) 3 3)
                (gwbuf_type read_buffer) in
      let w := upd_proto (fun p => set_changing_user p false) w' in
      match session (w_dcb w) with
      | None => None
      | Some s =>
          match client_dcb s with
          | None => None
          | Some c =>
              let c :=
                set_client_data c
                  (set_mses_changing_user (client_data c) false) in
              let w :=
                upd_dcb
                  (fun d => set_session d (Some (set_client_dcb s (Some c))))
                  w in
              Some (Continue read_buffer w)
          end
      end
  else Some (Continue read_buffer w).

(** The loop [while (read_buffer) { gwbuf_free(reply); reply = next }] of
    the drain: skip to the last packet.  The loop does not end when the
    buffer is not null and does not start with a complete packet; [None]
    stands for that. *)
Fixpoint skip_to_last_packet (fuel : nat) (reply read_buffer : option GWBUF)
  (w : World) : option (option GWBUF * World) :=
  match read_buffer with
  | None => Some (reply, w)
  | Some _ =>
      match fuel with
      | O => None
      | S fuel' =>
          let w := gwbuf_free reply w in
          let '(reply, read_buffer) :=
            modutil_get_next_MySQL_packet read_buffer in
          skip_to_last_packet fuel' reply read_buffer w
      end
  end.

(** gw_read_and_write, third part, the decision: [reply] is the last packet
    of the read and [query] the stored query taken out of the protocol
    object. *)
Definition ignored_reply_outcome (E : Env) (query : option GWBUF)
  (reply : GWBUF) (w : World) : option (Z * World) :=
  let result := MYSQL_GET_COMMAND (GWBUF_DATA reply) in
  let rval := 0 in
  if result =? MYSQL_REPLY_OK then
    (* response to COM_CHANGE_USER is OK, writing stored query *)
    match query with
    | Some q =>
        match gw_MySQLWrite_backend E q w with
        | Some (rval, w) => Some (rval, gwbuf_free (Some reply) w)
        | None => None
        end
    | None => Some (1, gwbuf_free (Some reply) w)
    end
  else if auth_change_requested reply then
    let '(answered, w) := handle_auth_change_response E reply w in
    if answered then
      (* store the query until the result of the switch is known *)
      let w := upd_proto (fun p => set_stored_query p query) w in
      let w :=
        upd_proto (fun p => set_ignore_replies p (ignore_replies p + 1)) w in
      Some (rval, gwbuf_free (Some reply) w)
    else
      (* a change to something other than the default auth plugin *)
      let w := gwbuf_free query w in
      let w := poll_fake_hangup_event THE_BACKEND_DCB w in
      Some (rval, gwbuf_free (Some reply) w)
  else
    match (if result =? MYSQL_REPLY_ERR
           then handle_error_response reply w
           else Some w (* unknown response: logged *)) with
    | None => None
    | Some w =>
        let w := gwbuf_free query w in
        let w := poll_fake_hangup_event THE_BACKEND_DCB w in
        Some (rval, gwbuf_free (Some reply) w)
    end.

(** gw_read_and_write, third part: the reply to a command whose reply is to
    be ignored is in the buffer. *)
Definition read_ignore_replies (E : Env) (read_buffer : GWBUF) (w : World)
  : option (Z * World) :=
  let query := stored_query (w_proto w) in
  let w := upd_proto (fun p => set_stored_query p None) w in
  let w := upd_proto (fun p => set_ignore_replies p (ignore_replies p - 1)) w in
  let '(reply, rest) := modutil_get_next_MySQL_packet (Some read_buffer) in
  match skip_to_last_packet (gwbuf_length read_buffer) reply rest w with
  | None => None
  | Some (None, _) => None          (* reply is dereferenced *)
  | Some (Some reply, w) => ignored_reply_outcome E query reply w
  end.

(** gw_read_and_write, last part: the [do ... while (read_buffer)] loop that
    hands the statements to the router's [clientReply].  Buffers are not
    split into segments here, so the statement split off for a
    statement-output router is already contiguous.  The loop does not end
    when a statement-output router is given a buffer that does not start
    with a complete packet; [None] stands for that. *)
Fixpoint read_route_replies (fuel : nat) (capabilities : capabilities_t)
  (result_collected : bool) (read_buffer : option GWBUF) (return_code : Z)
  (w : World) : option (Z * World) :=
  match fuel with
  | O => None
  | S fuel' =>
      let '(stmt, read_buffer) :=
        if result_collected then
          (option_map (fun b => gwbuf_set_type b GWBUF_TYPE_RESULT)
                      read_buffer, None)
        else if rcap_type_required capabilities RCAP_TYPE_STMT_OUTPUT
                && negb (rcap_type_required capabilities
                                            RCAP_TYPE_RESULTSET_OUTPUT)
        then modutil_get_next_MySQL_packet read_buffer
        else (read_buffer, None) in
      match session (w_dcb w) with
      | None => None
      | Some s =>
          let '(return_code, w) :=
            if session_ok_to_route s then
              let stmt :=
                if result_collected
                then option_map
                       (fun b => gwbuf_set_type b GWBUF_TYPE_RESULT) stmt
                else stmt in
              (1, emit (EvClientReply stmt) w)
            else
              (* session is closing; replying to client is not possible *)
              (return_code, gwbuf_free stmt w) in
          match read_buffer with
          | None => Some (return_code, w)
          | Some _ =>
              read_route_replies fuel' capabilities result_collected
                read_buffer return_code w
          end
      end
  end.

Definition gw_read_and_write (E : Env) (w : World) : option (Z * World) :=
  match session (w_dcb w) with
  | None => None
  | Some session0 =>
      (* read available backend data *)
      let '(return_code, read_buffer, w) := dcb_read w in
      if return_code <? 0 then
        match do_handle_error E ERRACT_NEW_CONNECTION
                "Read from backend failed"%string w with
        | Some w => Some (0, w)
        | None => None
        end
      else
        match read_buffer with
        | None => Some (return_code, w)      (* nbytes_read == 0 *)
        | Some read_buffer =>
            (* ask what type of output the router/filter chain expects *)
            let capabilities := service_capabilities session0 in
            match read_frame_and_collect E capabilities read_buffer w with
            | Return rc w => Some (rc, w)
            | Continue (read_buffer, result_collected) w =>
                match read_changing_user E read_buffer w with
                | None => None
                | Some (Return rc w) => Some (rc, w)
                | Some (Continue read_buffer w) =>
                    if 0 <? ignore_replies (w_proto w) then
                      read_ignore_replies E read_buffer w
                    else
                      read_route_replies (S (gwbuf_length read_buffer))
                        capabilities result_collected (Some read_buffer)
                        return_code w
                end
            end
        end
  end.

(** Modelled from the spec: [read_complete_packet(dcb, &readbuf)] of
    mysql_common.cc (not in the source tree): reads the socket, hands back
    the complete packets and leaves the rest in the read queue; false on a
    socket error. *)
Definition read_complete_packet (w : World) : bool * option GWBUF * World :=
  let '(rc, localbuf, w) := dcb_read w in
  if 0 <=? rc then
    let '(packets, localbuf) := modutil_get_complete_packets localbuf in
    let w :=
      match localbuf with
      | Some l => dcb_readq_append l w
      | None => w
      end in
    (true, packets, w)
  else (false, None, w).

Definition handle_server_response (E : Env) (buffer : GWBUF) (w : World)
  : mxs_auth_state_t * World :=
  let rval :=
    if auth_state_eqb (protocol_auth_state (w_proto w))
                      MXS_AUTH_STATE_CONNECTED
    then MXS_AUTH_STATE_HANDSHAKE_FAILED
    else MXS_AUTH_STATE_FAILED in
  let w := emit (EvAuthExtract buffer) w in
  if authfunc_extract E buffer then
    let w := emit EvAuthenticate w in
    match authfunc_authenticate E with
    | MXS_AUTH_INCOMPLETE
    | MXS_AUTH_SSL_INCOMPLETE => (MXS_AUTH_STATE_RESPONSE_SENT, w)
    | MXS_AUTH_SUCCEEDED => (MXS_AUTH_STATE_COMPLETE, w)
    | _ => (rval, w)
    end
  else (rval, w).

(** [backend_write_delayqueue]; [gw_get_shared_session_auth_info] hands out
    the credential snapshot of the session's client DCB. *)
Definition backend_write_delayqueue (E : Env) (buffer : GWBUF) (w : World)
  : option (Z * World) :=
  let recreated :=
    if MYSQL_IS_CHANGE_USER E (GWBUF_DATA buffer) then
      (* recreate the COM_CHANGE_USER packet with the scramble the backend
         sent to us *)
      match session (w_dcb w) with
      | None => None
      | Some s =>
          match client_dcb s with
          | None => None
          | Some c =>
              Some (gw_create_change_user_packet E (client_data c)
                      (w_proto w),
                    gwbuf_free (Some buffer) w)
          end
      end
    else Some (buffer, w) in
  match recreated with
  | None => None
  | Some (buffer, w) =>
      let '(rc, w) :=
        if MYSQL_IS_COM_QUIT E (GWBUF_DATA buffer)
           && persistent_conns_enabled (server (w_dcb w))
        then (1, gwbuf_free (Some buffer) w)
        else dcb_write E buffer w in
      if rc =? 0 then
        match do_handle_error E ERRACT_NEW_CONNECTION
                "Lost connection to backend server while writing delay queue."%string
                w with
        | Some w => Some (rc, w)
        | None => None
        end
      else Some (rc, w)
  end.

Definition auth_state_of (w : World) : mxs_auth_state_t :=
  protocol_auth_state (w_proto w).

Definition ssl_is_established (s : ssl_state_t) : bool :=
  match s with SSL_ESTABLISHED => true | _ => false end.

(** gw_read_backend_event, the branch taken before authentication is
    complete, once a complete response from the server is in [readbuf]. *)
Definition read_auth_response (E : Env) (readbuf : GWBUF) (w : World)
  : option (Z * World) :=
  match (if is_error_response readbuf then
           (* the server responded with an error *)
           let w :=
             upd_proto (fun p => set_auth_state p MXS_AUTH_STATE_FAILED) w in
           handle_error_response readbuf w
         else Some w) with
  | None => None
  | Some w =>
    let w :=
      if auth_state_eqb (auth_state_of w) MXS_AUTH_STATE_CONNECTED then
        (* read the server handshake and send the standard response *)
        let w := emit (EvReadHandshake readbuf) w in
        if gw_read_backend_handshake E readbuf then
          let w := emit EvSendBackendAuth w in
          upd_proto (fun p => set_auth_state p (gw_send_backend_auth E)) w
        else upd_proto (fun p => set_auth_state p MXS_AUTH_STATE_FAILED) w
      else if auth_state_eqb (auth_state_of w) MXS_AUTH_STATE_RESPONSE_SENT
      then
        let '(st, w) := handle_server_response E readbuf w in
        upd_proto (fun p => set_auth_state p st) w
      else w in
    let result :=
      if auth_state_eqb (auth_state_of w) MXS_AUTH_STATE_COMPLETE then
        (* authentication completed successfully *)
        let localq := delayq (w_dcb w) in
        let w := upd_dcb (fun d => set_delayq d None) w in
        match localq with
        | Some localq =>
            (* send the queued commands to the backend *)
            let w := upd_dcb (fun d => prepare_for_write d localq) w in
            backend_write_delayqueue E localq w
        | None => Some (0, w)
        end
      else if auth_state_eqb (auth_state_of w) MXS_AUTH_STATE_FAILED
              || auth_state_eqb (auth_state_of w)
                                MXS_AUTH_STATE_HANDSHAKE_FAILED
      then
        (* authentication failed *)
        match gw_reply_on_error E w with
        | Some w => Some (0, w)
        | None => None
        end
      else Some (0, w) in
    match result with
    | Some (rc, w) => Some (rc, gwbuf_free (Some readbuf) w)
    | None => None
    end
  end.

(** The read entry point of the module.  [MXS_ABORT_IF_NULL] stops the
    process; [None] stands for that as well. *)
Definition gw_read_backend_event (E : Env) (w : World) : option (Z * World) :=
  if negb (persistentstart (w_dcb w) =? 0) then
    (* a read event on a DCB in the persistent pool is treated as an error *)
    Some (0, poll_fake_hangup_event THE_BACKEND_DCB w)
  else if auth_state_eqb (auth_state_of w) MXS_AUTH_STATE_COMPLETE then
    gw_read_and_write E w
  else
    let '(ok, readbuf, w) := read_complete_packet w in
    if negb ok then
      let w := upd_proto (fun p => set_auth_state p MXS_AUTH_STATE_FAILED) w in
      match gw_reply_on_error E w with
      | Some w => Some (0, w)
      | None => None
      end
    else
      match readbuf with
      | Some readbuf =>
          (* we have a complete response from the server *)
          match gwbuf_make_contiguous E readbuf with
          | None => None
          | Some readbuf => read_auth_response E readbuf w
          end
      | None =>
          if auth_state_eqb (auth_state_of w) MXS_AUTH_STATE_CONNECTED
             && ssl_is_established (ssl_state (w_dcb w))
          then
            let w := emit EvSendBackendAuth w in
            Some (0, upd_proto
                       (fun p => set_auth_state p (gw_send_backend_auth E)) w)
          else Some (0, w)
      end.

(* ================================================================== *)
(** * Observations on traces *)
(* ================================================================== *)

(** The buffers handed upward to the router's [clientReply]. *)
Fixpoint client_replies (tr : list event) : list (option GWBUF) :=
  match tr with
  | [] => []
  | EvClientReply stmt :: rest => stmt :: client_replies rest
  | _ :: rest => client_replies rest
  end.

(** The buffers given to the socket. *)
Fixpoint socket_writes (tr : list event) : list GWBUF :=
  match tr with
  | [] => []
  | EvWrite b :: rest => b :: socket_writes rest
  | _ :: rest => socket_writes rest
  end.

(** The notifications of the router's error handler. *)
Fixpoint error_notifications (tr : list event)
  : list (GWBUF * mxs_error_action_t) :=
  match tr with
  | [] => []
  | EvHandleError b a :: rest => (b, a) :: error_notifications rest
  | _ :: rest => error_notifications rest
  end.

(* ================================================================== *)
(** * Concrete inputs *)
(* ================================================================== *)

Definition caps_none : capabilities_t := fun _ => false.

Definition caps_stmt : capabilities_t :=
  fun t =>
    match t with
    | RCAP_TYPE_STMT_INPUT | RCAP_TYPE_STMT_OUTPUT => true
    | _ => false
    end.

Definition sample_client_protocol : MySQLProtocol :=
  set_current_command sample_protocol MXS_COM_STMT_PREPARE.

Definition sample_client : CLIENT_DCB :=
  {| client_state := DCB_STATE_POLLING;
     client_role := ROLE_CLIENT;
     client_protocol := Some sample_client_protocol;
     client_data := sample_mses_pw |}.

Definition sample_session (caps : capabilities_t) : MXS_SESSION :=
  {| ses_state := SESSION_STATE_STARTED;
     client_dcb := Some sample_client;
     service_capabilities := caps;
     router_session := true;
     load_active := false;
     close_reason := SESSION_CLOSE_NONE |}.

Definition sample_server : SERVER :=
  {| persistent_conns_enabled := true; proxy_protocol := false |}.

Definition sample_dcb (caps : capabilities_t) : DCB :=
  {| persistentstart := 0;
     was_persistent := false;
     state := DCB_STATE_POLLING;
     readq := None;
     writeq := None;
     delayq := None;
     ssl_state := SSL_HANDSHAKE_UNKNOWN;
     dcb_errhandle_called := false;
     is_fake_event := false;
     server := sample_server;
     session := Some (sample_session caps);
     protocol := sample_protocol |}.

Definition sample_world (caps : capabilities_t) (input : list uint8)
  : World :=
  {| w_dcb := sample_dcb caps; w_trace := []; w_socket := SockBytes input |}.

(** COM_QUERY "SHOW DATABASES", COM_QUIT, and an OK reply with sequence 1. *)
Definition show_databases : GWBUF :=
  mkGWBUF ([15; 0; 0; 0; 3] ++ bytes_of_string "SHOW DATABASES"%string) [].
Definition com_quit : GWBUF := mkGWBUF [1; 0; 0; 0; 1] [].
Definition ok_reply : list uint8 := [7; 0; 0; 1; 0; 0; 0; 2; 0; 0; 0].

(** A DCB just adopted from the pool by a session. *)
Definition adopted_world : World :=
  upd_dcb (fun d => set_was_persistent d true) (sample_world caps_stmt []).

(** A DCB waiting for the reply to its COM_CHANGE_USER, with the client's
    first request parked; the socket holds [input]. *)
Definition awaiting_world (parked : option GWBUF) (input : list uint8)
  : World :=
  upd_proto
    (fun p => set_stored_query (set_ignore_replies p 1) parked)
    (sample_world caps_stmt input).

(** A DCB sitting in the persistent pool: no session, pool-start set. *)
Definition pooled_world (input : list uint8) : World :=
  upd_dcb
    (fun d =>
       mkDCB 1700000000 false (state d) (readq d) (writeq d) (delayq d)
         (ssl_state d) (dcb_errhandle_called d) (is_fake_event d) (server d)
         None (protocol d))
    (sample_world caps_stmt input).

(** A COM_QUERY that fills a maximum-size packet (payload 2^24-1: the
    command byte and 16777214 bytes of text) and its continuation packet
    with a payload of 100 bytes. *)
Definition large_com_query : GWBUF :=
  mkGWBUF ([255; 255; 255; 0; 3] ++ repeat 97 (Z.to_nat 16777214)) [].
Definition continuation_100 : GWBUF :=
  mkGWBUF ([100; 0; 0; 1] ++ repeat 97 100) [].

(** A COM_STMT_PREPARE OK reply for a statement without columns and
    parameters: statement id 1, both counts 0.  The whole response is this
    one packet. *)
Definition ps_ok_no_columns : GWBUF :=
  mkGWBUF [12; 0; 0; 1; 0; 1; 0; 0; 0; 0; 0; 0; 0; 0; 0; 0] [].

(** A COM_STMT_PREPARE OK reply announcing one column and one parameter,
    followed by the parameter definition, an EOF, the column definition and
    an EOF (definitions abridged to one byte). *)
Definition ps_ok_one_each : GWBUF :=
  mkGWBUF ([12; 0; 0; 1; 0; 1; 0; 0; 0; 1; 0; 1; 0; 0; 0; 0]
           ++ [1; 0; 0; 2; 3] ++ [5; 0; 0; 3; 254; 0; 0; 2; 0]
           ++ [1; 0; 0; 4; 3] ++ [5; 0; 0; 5; 254; 0; 0; 2; 0]) [].

(** An ERR packet with the given error code and SQL state 42000. *)
Definition err_packet (seq code : Z) : list uint8 :=
  [9; 0; 0; seq; 255] ++ gw_mysql_set_byte2 code
  ++ bytes_of_string "#42000"%string.

(** The error codes of the access-denied family the module reacts to. *)
Definition is_access_denied (errcode : Z) : Prop :=
  errcode = ER_ACCESS_DENIED_ERROR
  \/ errcode = ER_DBACCESS_DENIED_ERROR
  \/ errcode = ER_ACCESS_DENIED_NO_PASSWORD_ERROR.

(** A backend DCB whose handshake is under way; the socket holds [input]. *)
Definition connecting_world (input : list uint8) : World :=
  upd_proto (fun p => set_auth_state p MXS_AUTH_STATE_CONNECTED)
            (sample_world caps_stmt input).

(** Two invocations of the error funnel in a row. *)
Definition do_handle_error_twice (E : Env) (action : mxs_error_action_t)
  (errmsg : String.string) (w : World) : option World :=
  match do_handle_error E action errmsg w with
  | Some w1 => do_handle_error E action errmsg w1
  | None => None
  end.

(* ================================================================== *)
(** * Vocabulary for the statements about the read path *)
(* ================================================================== *)

(** [p] is one whole packet: a header and exactly the payload it
    announces. *)
Definition is_whole_packet (p : list uint8) : bool :=
  (MYSQL_HEADER_LEN <=? length p)%nat
  && (MYSQL_GET_PACKET_LEN p =? length p)%nat.

(** The condition under which gw_read_and_write puts a collected result
    back into the read queue and waits for more. *)
Definition collection_defers (E : Env) (proto : MySQLProtocol)
  (capabilities : capabilities_t) (read_buffer : GWBUF) : bool :=
  collecting_resultset proto capabilities
  && (if expecting_text_result proto then
        mxs_mysql_is_result_set E read_buffer
        && (let '(eof_cnt, more) :=
              modutil_count_signal_packets E read_buffer in
            more || negb (Z.rem eof_cnt 2 =? 0))
      else
        expecting_ps_response proto
        && mxs_mysql_is_prep_stmt_ok E read_buffer
        && negb (complete_ps_response read_buffer)).

(** Bytes and tags of what is left in the read queue. *)
Definition readq_bytes (d : DCB) : list uint8 :=
  match readq d with
  | Some q => gwbuf_data q
  | None => []
  end.
Definition readq_tags (d : DCB) : list gwbuf_type_t :=
  match readq d with
  | Some q => gwbuf_type q
  | None => []
  end.

(** The world in which the decision on an ignored reply is taken, once a
    read has delivered the packets [others] and a last one on top of the
    residue [residue]: the residue is in the read queue, a collected result
    is no longer awaited, the stored query has been taken out, the counter
    has been decremented, and the packets before the last have been
    freed. *)
Definition drained_world (w : World) (capabilities : capabilities_t)
  (complete : GWBUF) (residue : option GWBUF) (others : list GWBUF)
  : World :=
  let proto := w_proto w in
  let track :=
    if rcap_type_required capabilities RCAP_TYPE_SESSION_STATE_TRACKING
       && negb (expecting_ps_response proto)
       && track_state proto
    then [EvSessionTrackInfo complete]
    else [] in
  let proto' :=
    set_ignore_replies
      (set_stored_query
         (if collecting_resultset proto capabilities
          then set_collect_result proto false
          else proto)
         None)
      (ignore_replies proto - 1) in
  mkWorld (set_protocol (set_readq (w_dcb w) residue) proto')
          (w_trace w ++ track ++ map EvFree others)
          (SockBytes []).

Definition auth_switch_other : list uint8 :=
  [29; 0; 0; 1; 254] ++ bytes_of_string "client_ed25519"%string ++ [0]
  ++ repeat 90 12 ++ [0].

(** The world in which an ERR 1129 has just arrived during the handshake. *)
Definition blocked_host_world : World :=
  connecting_world (err_packet 0 ER_HOST_IS_BLOCKED).

(** The trace after [gwbuf_free] of each buffer of a list, in order. *)
Definition free_all (bs : list GWBUF) (w : World) : World :=
  mkWorld (w_dcb w) (w_trace w ++ map EvFree bs) (w_socket w).

(* ================================================================== *)
(** * The other entry points of the module *)
(* ================================================================== *)

(** Effects of these entry points that the trace has no event for are
    returned beside the return code. *)

Definition gw_auth_is_complete (d : DCB) : bool :=
  match protocol_auth_state (protocol d) with
  | MXS_AUTH_STATE_FAILED
  | MXS_AUTH_STATE_HANDSHAKE_FAILED
  | MXS_AUTH_STATE_COMPLETE => true
  | _ => false
  end.

Definition session_state_is_stopping (s : mxs_session_state_t) : bool :=
  match s with SESSION_STATE_STOPPING => true | _ => false end.

(** [gw_error_backend_event]: the handler of EPOLLERR.  The boolean tells
    whether [dcb_close] was called on the DCB. *)
Definition gw_error_backend_event (E : Env) (w : World)
  : option (Z * bool * World) :=
  match session (w_dcb w) with
  | None =>
      (* not a persistent connection: something is wrong (logged) *)
      Some (1, true, w)
  | Some session0 =>
      if negb (dcb_state_eqb (state (w_dcb w)) DCB_STATE_POLLING)
         || negb (session_state_is_started (ses_state session0))
      then Some (1, false, w)            (* the socket error is logged *)
      else
        match do_handle_error E ERRACT_NEW_CONNECTION
                "Lost connection to backend server: network error"%string
                w with
        | Some w => Some (1, false, w)
        | None => None
        end
  end.

(** [gw_backend_hangup]: the handler of EPOLLHUP. *)
Definition gw_backend_hangup (E : Env) (w : World) : option (Z * World) :=
  if persistentstart (w_dcb w) =? 0 then
    match session (w_dcb w) with
    | None => None
    | Some session0 =>
        if negb (session_state_is_started (ses_state session0)) then
          (* logged unless the session is stopping *)
          Some (1, w)
        else
          match do_handle_error E ERRACT_NEW_CONNECTION
                  "Lost connection to backend server: connection closed by peer"%string
                  w with
          | Some w => Some (1, w)
          | None => None
          end
    end
  else Some (1, w).

(** ** The proxy-protocol header *)

Inductive sa_family_t :=
| AF_INET
| AF_INET6
| AF_OTHER (family : Z).

(** A [sockaddr_storage], seen through the calls made on it: its family,
    what [inet_ntop] makes of its address (the text, or the errno of the
    failure) and [ntohs] of its port. *)
Record sockaddr_storage := mkSockaddr {
  ss_family : sa_family_t;
  sa_ntop : String.string + Z;
  sa_port : Z
}.

Record AddressInfo := mkAddressInfo {
  ai_success : bool;
  ai_addr : String.string;
  ai_port : Z;
  ai_error_msg : String.string
}.

Definition decimal (n : Z) : String.string :=
  NilZero.string_of_int (Z.to_int n).

Definition get_ip_string_and_port (E : Env) (sa : sockaddr_storage)
  : AddressInfo :=
  let errmsg_fmt := "'inet_ntop' failed. Error: '"%string in
  match ss_family sa with
  | AF_INET | AF_INET6 =>
      match sa_ntop sa with
      | inl text => mkAddressInfo true text (sa_port sa) ""%string
      | inr errno =>
          mkAddressInfo false ""%string 0
            (String.append errmsg_fmt
               (String.append (mxs_strerror E errno) "'"%string))
      end
  | AF_OTHER family =>
      mkAddressInfo false ""%string 0
        (String.append "Unrecognized socket address family "%string
           (String.append (decimal family) "."%string))
  end.

Definition is_ip_family (f : sa_family_t) : bool :=
  match f with AF_INET | AF_INET6 => true | AF_OTHER _ => false end.

Definition sa_family_eqb (a b : sa_family_t) : bool :=
  match a, b with
  | AF_INET, AF_INET | AF_INET6, AF_INET6 => true
  | AF_OTHER x, AF_OTHER y => x =? y
  | _, _ => false
  end.

(** What the sockets of a backend DCB report: the address of the client
    filled in by accept(), the result of getpeername() on the backend
    socket (none when it fails), and whether the header buffer could be
    allocated. *)
Record NetView := mkNetView {
  client_ip : sockaddr_storage;
  getpeername_result : option sockaddr_storage;
  header_alloc_ok : bool
}.

Definition PROXY_HEADER_SIZE : nat := 108.

Definition CRLF : String.string :=
  String.String "013" (String.String "010" String.EmptyString).

(** The text [snprintf] produces for the header. *)
Definition proxy_header_text (cli_addr_fam srv_addr_fam : sa_family_t)
  (client_res server_res : AddressInfo) : String.string :=
  let ports :=
    String.append " "%string
      (String.append (decimal (ai_port client_res))
         (String.append " "%string
            (String.append (decimal (ai_port server_res))
               CRLF))) in
  if is_ip_family cli_addr_fam && is_ip_family srv_addr_fam then
    if sa_family_eqb cli_addr_fam srv_addr_fam then
      let family_str :=
        match cli_addr_fam with
        | AF_INET => "TCP4"%string
        | _ => "TCP6"%string
        end in
      String.append "PROXY "%string
        (String.append family_str
           (String.append " "%string
              (String.append (ai_addr client_res)
                 (String.append " "%string
                    (String.append (ai_addr server_res) ports)))))
    else
      match cli_addr_fam with
      | AF_INET =>
          (* server conn is already ipv6 *)
          String.append "PROXY TCP6 ::ffff:"%string
            (String.append (ai_addr client_res)
               (String.append " "%string
                  (String.append (ai_addr server_res) ports)))
      | _ =>
          (* client conn is already ipv6 *)
          String.append "PROXY TCP6 "%string
            (String.append (ai_addr client_res)
               (String.append " ::ffff:"%string
                  (String.append (ai_addr server_res) ports)))
      end
  else
    String.append "PROXY UNKNOWN"%string CRLF.

(** [gw_send_proxy_protocol_header]; [None] when the session or its client
    DCB is null. *)
Definition gw_send_proxy_protocol_header (E : Env) (net : NetView)
  (w : World) : option (bool * World) :=
  match session (w_dcb w) with
  | None => None
  | Some s =>
      match client_dcb s with
      | None => None
      | Some _ =>
          let client_addr := client_ip net in
          match getpeername_result net with
          | None => Some (false, w)      (* getpeername() failed: logged *)
          | Some server_addr =>
              let client_res := get_ip_string_and_port E client_addr in
              let server_res := get_ip_string_and_port E server_addr in
              if ai_success client_res && ai_success server_res then
                let proxy_header :=
                  proxy_header_text (ss_family client_addr)
                    (ss_family server_addr) client_res server_res in
                let ret := String.length proxy_header in
                if (PROXY_HEADER_SIZE <=? ret)%nat then
                  Some (false, w)        (* proxy header printing error *)
                else if header_alloc_ok net then
                  let headerbuf :=
                    mkGWBUF (bytes_of_string proxy_header) [] in
                  let '(written, w) := dcb_write E headerbuf w in
                  if negb (written =? 0) then Some (true, w)
                  else Some (false, gwbuf_free (Some headerbuf) w)
                else Some (false, w)
              else Some (false, w)       (* address not convertible *)
          end
      end
  end.

(** ** The writable event *)

Inductive write_event_action :=
| WEA_nothing
| WEA_client_error (errbuf : GWBUF)   (* mysql_send_custom_error to the
                                         client DCB *)
| WEA_drain_writeq.                   (* dcb_drain_writeq *)

(** [gw_write_backend_event]: the handler of EPOLLOUT. *)
Definition gw_write_backend_event (E : Env) (net : NetView) (w : World)
  : option (Z * write_event_action * World) :=
  if negb (dcb_state_eqb (state (w_dcb w)) DCB_STATE_POLLING) then
    (* do not write to the backend if it is not in the poll set anymore *)
    match writeq (w_dcb w) with
    | Some q =>
        if MYSQL_IS_COM_QUIT E (GWBUF_DATA q) then Some (0, WEA_nothing, w)
        else
          match session (w_dcb w) with
          | None => None
          | Some s =>
              match client_dcb s with
              | None => None
              | Some _ =>
                  Some (0,
                        WEA_client_error
                          (mysql_create_custom_error 1 0
                             "Writing to backend failed due invalid Maxscale state."%string),
                        w)
              end
          end
    | None => Some (1, WEA_nothing, w)
    end
  else
    match protocol_auth_state (w_proto w) with
    | MXS_AUTH_STATE_PENDING_CONNECT =>
        let w :=
          upd_proto (fun p => set_auth_state p MXS_AUTH_STATE_CONNECTED) w in
        if proxy_protocol (server (w_dcb w)) then
          match gw_send_proxy_protocol_header E net w with
          | None => None
          | Some (sent, w) =>
              Some (if sent then 1 else 0, WEA_nothing, w)
          end
        else Some (1, WEA_nothing, w)
    | _ => Some (1, WEA_drain_writeq, w)
    end.

(** ** Connecting *)

(** What the operating system answers while connecting: the descriptors
    [open_unix_socket] and [open_network_socket] return (-1 on failure),
    the value of [connect] and whether errno is EINPROGRESS after it. *)
Record ConnectOS := mkConnectOS {
  open_unix_socket_result : Z;
  open_network_socket_result : Z;
  connect_result : Z;
  errno_is_EINPROGRESS : bool
}.

Inductive os_event :=
| OsOpenUnixSocket
| OsOpenNetworkSocket
| OsConnect (so : Z)
| OsClose (so : Z).

Definition host_is_path (host : String.string) : bool :=
  match host with
  | String.String c _ => Ascii.eqb c "/"%char
  | String.EmptyString => false
  end.

(** [gw_do_connect_to_backend(host, port, &fd)]: the return value, the
    value of [*fd] afterwards, and the calls made. *)
Definition gw_do_connect_to_backend (os : ConnectOS) (host : String.string)
  (fd : Z) : Z * Z * list os_event :=
  let rv := -1 in
  let '(so, opened) :=
    if host_is_path host
    then (open_unix_socket_result os, [OsOpenUnixSocket])
    else (open_network_socket_result os, [OsOpenNetworkSocket]) in
  if so =? -1 then (rv, fd, opened)
  else
    let rv := connect_result os in
    if negb (rv =? 0) && negb (errno_is_EINPROGRESS os) then
      (rv, fd, opened ++ [OsConnect so; OsClose so])
    else
      let rv := if negb (rv =? 0) then 1 else rv in
      (rv, so, opened ++ [OsConnect so]).

(** The capability words the backend protocol object takes over from the
    client protocol object; they are not fields of [MySQLProtocol] here. *)
Record CapabilityWords := mkCapabilityWords {
  client_capabilities : Z;
  extra_capabilities : Z
}.

(** [gw_create_backend_connection].  [fresh] is the object
    [mysql_protocol_init] returns (none when it cannot allocate),
    [fresh_caps] and [client_caps] the capability words of that object and
    of the client protocol object, [default_caps] the constant
    GW_MYSQL_CAPABILITIES_CLIENT.  Returns the descriptor, the calls made
    and the capability words of the new protocol object. *)
Definition gw_create_backend_connection (E : Env) (os : ConnectOS)
  (net : NetView) (host : String.string) (fresh : option MySQLProtocol)
  (fresh_caps client_caps : CapabilityWords) (default_caps : Z) (w : World)
  : option (Z * list os_event * CapabilityWords * World) :=
  let fd := -1 in
  match fresh with
  | None => Some (fd, [], fresh_caps, w)
  | Some proto =>
      match session (w_dcb w) with
      | None => None
      | Some s =>
          match client_dcb s with
          | None => None
          | Some c =>
              (* copy client flags to backend protocol *)
              let '(proto, caps) :=
                match client_protocol c with
                | Some client =>
                    (mkProtocol (protocol_auth_state proto)
                       (current_command proto) (large_query proto)
                       (collect_result proto) (track_state proto)
                       (changing_user proto) (ignore_replies proto)
                       (stored_query proto) (charset client)
                       (scramble proto),
                     client_caps)
                | None =>
                    (mkProtocol (protocol_auth_state proto)
                       (current_command proto) (large_query proto)
                       (collect_result proto) (track_state proto)
                       (changing_user proto) (ignore_replies proto)
                       (stored_query proto) 8 (scramble proto),
                     mkCapabilityWords default_caps
                       (extra_capabilities fresh_caps))
                end in
              let '(rv, fd, calls) := gw_do_connect_to_backend os host fd in
              (* assign protocol with backend_dcb *)
              let w := upd_dcb (fun d => set_protocol d proto) w in
              if rv =? 0 then
                let w :=
                  upd_proto
                    (fun p => set_auth_state p MXS_AUTH_STATE_CONNECTED) w in
                if proxy_protocol (server (w_dcb w)) then
                  match gw_send_proxy_protocol_header E net w with
                  | Some (_, w) => Some (fd, calls, caps, w)
                  | None => None
                  end
                else Some (fd, calls, caps, w)
              else if rv =? 1 then
                let w :=
                  upd_proto
                    (fun p =>
                       set_auth_state p MXS_AUTH_STATE_PENDING_CONNECT) w in
                Some (fd, calls, caps, w)
              else
                (* failure: the state keeps its initial value *)
                Some (fd, calls, caps, w)
          end
      end
  end.

(** ** COM_CHANGE_USER from the client *)

Definition set_charset (p : MySQLProtocol) (v : Z) :=
  mkProtocol (protocol_auth_state p) (current_command p) (large_query p)
    (collect_result p) (track_state p) (changing_user p) (ignore_replies p)
    (stored_query p) v (scramble p).
Definition set_mses_db (m : MYSQL_session) (v : list uint8) :=
  mkMYSQL_session (user m) v (client_sha1 m) (mses_changing_user m).

(** A write through [current_session], the [MYSQL_session] of the client
    DCB of the session of the backend DCB. *)
Definition upd_mses (f : MYSQL_session -> MYSQL_session) (w : World)
  : World :=
  upd_dcb
    (fun d =>
       match session d with
       | Some s =>
           match client_dcb s with
           | Some c =>
               set_session d
                 (Some (set_client_dcb s
                          (Some (set_client_data c (f (client_data c))))))
           | None => d
           end
       | None => d
       end) w.

(** What [gw_change_user] needs from outside the file: the two length
    limits of mysql.hh, whether the token can be allocated, the
    [reauthenticate] entry of the client authenticator (null when it has
    none; its arguments are whether the users were reloaded before the call,
    the user name, the token and its length, the scramble of the client
    protocol and the contents of the output buffer, its results the return
    value and the output buffer), the return value of
    [service_refresh_users], and [create_auth_fail_str] (user name, whether
    a password was given, the authentication result; null when it cannot
    allocate). *)
Record AuthEnv := mkAuthEnv {
  MYSQL_USER_MAXLEN : nat;
  MYSQL_DATABASE_MAXLEN : nat;
  auth_token_alloc_ok : bool;
  reauthenticate :
    option (bool -> list uint8 -> list uint8 -> Z -> list uint8 ->
            list uint8 -> Z * list uint8);
  service_refresh_users : Z;
  create_auth_fail_str : list uint8 -> bool -> Z -> option String.string
}.

(** The fields [gw_change_user] reads from the packet of the client, in the
    order it reads them.  A string that is not terminated inside the buffer
    ends with the buffer. *)
Record change_user_request := mkChangeUserRequest {
  cu_username : list uint8;
  cu_auth_token_len : Z;
  cu_auth_token : list uint8;
  cu_database : list uint8;
  cu_charset : option Z        (* the value copied over the charset, if any *)
}.

Definition read_change_user_request (A : AuthEnv) (data : list uint8)
  : change_user_request :=
  (* now get the user, after 4 bytes header and 1 byte command *)
  let client_auth_packet := skipn 5 data in
  let len := strlen (c_string_at client_auth_packet) in
  let username := firstn (MYSQL_USER_MAXLEN A) (c_string_at client_auth_packet) in
  let client_auth_packet := skipn (len + 1) client_auth_packet in
  (* get the auth token len *)
  let auth_token_len := byte_at client_auth_packet 0 in
  let client_auth_packet := skipn 1 client_auth_packet in
  let auth_token :=
    if 0 <? auth_token_len
    then firstn (Z.to_nat auth_token_len) client_auth_packet else [] in
  let client_auth_packet :=
    if 0 <? auth_token_len
    then skipn (Z.to_nat auth_token_len) client_auth_packet
    else client_auth_packet in
  (* get new database name *)
  let len := strlen (c_string_at client_auth_packet) in
  let database :=
    firstn (MYSQL_DATABASE_MAXLEN A) (c_string_at client_auth_packet) in
  let client_auth_packet := skipn (len + 1) client_auth_packet in
  mkChangeUserRequest username auth_token_len auth_token database
    (if negb (byte_at client_auth_packet 0 =? 0)
     then Some (gw_mysql_get_byte4 client_auth_packet) else None).

(** [gw_send_change_user_to_backend]: the packet is built from the session
    data and written through [func.write] of the backend DCB, which is
    [gw_MySQLWrite_backend]. *)
Definition gw_send_change_user_to_backend (E : Env) (w : World)
  : option (Z * World) :=
  match session (w_dcb w) with
  | None => None
  | Some s =>
      match client_dcb s with
      | None => None
      | Some c =>
          let mses := client_data c in
          let buffer := gw_create_change_user_packet E mses (w_proto w) in
          match gw_MySQLWrite_backend E buffer w with
          | None => None
          | Some (rc, w) =>
              if negb (rc =? 0) then
                Some (1, upd_proto (fun p => set_changing_user p true) w)
              else Some (rc, w)
          end
      end
  end.

Inductive change_user_action :=
| CU_nothing
| CU_reply_auth_error (message : String.string).
                                 (* modutil_reply_auth_error(backend, message, 0) *)

(** [gw_change_user(backend, server, in_session, queue)], called with the
    session of the backend DCB. *)
Definition gw_change_user (E : Env) (A : AuthEnv) (queue : GWBUF) (w : World)
  : option (Z * change_user_action * World) :=
  match session (w_dcb w) with
  | None => None
  | Some in_session =>
      match client_dcb in_session with
      | None => None
      | Some c =>
          let current_session := client_data c in
          let req := read_change_user_request A (GWBUF_DATA queue) in
          let username := cu_username req in
          let database := cu_database req in
          let auth_token_len := cu_auth_token_len req in
          if (0 <? auth_token_len) && negb (auth_token_alloc_ok A) then
            (* the token cannot be allocated: returns at once *)
            Some (-1, CU_nothing, w)
          else
            let w :=
              match cu_charset req with
              | Some v => upd_proto (fun p => set_charset p v) w
              | None => w
              end in
            (* save current_database name *)
            let current_database := db current_session in
            (* now clear database name in dcb *)
            let w := upd_mses (fun m => set_mses_db m []) w in
            match reauthenticate A with
            | None =>
                (* authenticator does not support reauthentication *)
                Some (0, CU_nothing, gwbuf_free (Some queue) w)
            | Some reauth =>
                match client_protocol c with
                | None => None
                | Some client_proto =>
                    let client_sha1 := repeat 0 MYSQL_SCRAMBLE_LEN in
                    let '(auth_ret, client_sha1) :=
                      reauth false username (cu_auth_token req)
                        auth_token_len (scramble client_proto) client_sha1 in
                    let w :=
                      upd_mses (fun m => set_mses_db m current_database) w in
                    let '(auth_ret, client_sha1, w) :=
                      if negb (auth_ret =? 0) then
                        let w := emit EvRefreshUsers w in
                        if service_refresh_users A =? 0 then
                          (* try authentication again with new repository
                             data *)
                          let w := upd_mses (fun m => set_mses_db m []) w in
                          let '(auth_ret, client_sha1) :=
                            reauth true username (cu_auth_token req)
                              auth_token_len (scramble client_proto)
                              client_sha1 in
                          let w :=
                            upd_mses
                              (fun m => set_mses_db m current_database) w in
                          (auth_ret, client_sha1, w)
                        else (auth_ret, client_sha1, w)
                      else (auth_ret, client_sha1, w) in
                    if negb (auth_ret =? 0) then
                      let password_set := 0 <? auth_token_len in
                      match create_auth_fail_str A username password_set
                              auth_ret with
                      | None =>
                          Some (0, CU_nothing, gwbuf_free (Some queue) w)
                      | Some message =>
                          Some (1, CU_reply_auth_error message,
                                gwbuf_free (Some queue) w)
                      end
                    else
                      let w :=
                        upd_mses
                          (fun m =>
                             mkMYSQL_session username database
                               (pad20 client_sha1) (mses_changing_user m))
                          w in
                      match gw_send_change_user_to_backend E w with
                      | None => None
                      | Some (rv, w) =>
                          Some (rv, CU_nothing, gwbuf_free (Some queue) w)
                      end
                end
            end
      end
  end.

(** ** Vocabulary for the statements about the proxy-protocol header *)

(** The prefix that turns an IPv4 address into an IPv4-mapped IPv6 one; it
    is put before the address of the IPv4 side when the other side is
    IPv6. *)
Definition v4_mapped_prefix (own other : sa_family_t) : String.string :=
  match own, other with
  | AF_INET, AF_INET6 => "::ffff:"%string
  | _, _ => String.EmptyString
  end.

Definition proxy_family (cli srv : sa_family_t) : String.string :=
  match cli, srv with
  | AF_INET, AF_INET => "TCP4"%string
  | _, _ => "TCP6"%string
  end.

(** The line "PROXY <family> <client address> <server address> <client
    port> <server port>\r\n". *)
Definition proxy_line (cli srv : sa_family_t) (caddr saddr : String.string)
  (cport sport : Z) : String.string :=
  String.append "PROXY "
    (String.append (proxy_family cli srv)
       (String.append " "
          (String.append (v4_mapped_prefix cli srv)
             (String.append caddr
                (String.append " "
                   (String.append (v4_mapped_prefix srv cli)
                      (String.append saddr
                         (String.append " "
                            (String.append (decimal cport)
                               (String.append " "
                                  (String.append (decimal sport)
                                     CRLF))))))))))).

(** An IPv4 client at 192.0.2.7:51000 and a server at 198.51.100.2:3306;
    the same server seen through an IPv6 socket. *)
Definition sample_client_addr : sockaddr_storage :=
  mkSockaddr AF_INET (inl "192.0.2.7"%string) 51000.
Definition sample_server_addr : sockaddr_storage :=
  mkSockaddr AF_INET (inl "198.51.100.2"%string) 3306.
Definition sample_server_addr6 : sockaddr_storage :=
  mkSockaddr AF_INET6 (inl "2001:db8::2"%string) 3306.
Definition sample_unix_addr : sockaddr_storage :=
  mkSockaddr (AF_OTHER 1) (inr 97) 0.
Definition sample_net : NetView :=
  mkNetView sample_client_addr (Some sample_server_addr) true.
Definition sample_net6 : NetView :=
  mkNetView sample_client_addr (Some sample_server_addr6) true.
Definition sample_net_unix : NetView :=
  mkNetView sample_client_addr (Some sample_unix_addr) true.

(** A DCB whose non-blocking connect is in flight, to a server with and
    without the proxy protocol. *)
Definition proxy_server : SERVER :=
  {| persistent_conns_enabled := true; proxy_protocol := true |}.
Definition set_server (d : DCB) (v : SERVER) :=
  mkDCB (persistentstart d) (was_persistent d) (state d) (readq d) (writeq d)
    (delayq d) (ssl_state d) (dcb_errhandle_called d) (is_fake_event d)
    v (session d) (protocol d).
Definition pending_connect_world (srv : SERVER) : World :=
  upd_dcb (fun d => set_server d srv)
    (upd_proto (fun p => set_auth_state p MXS_AUTH_STATE_PENDING_CONNECT)
       (sample_world caps_stmt [])).
(** A connect that completes at once, one that is in progress and one that
    is refused, on descriptor 7; a DCB being created for a session. *)
Definition os_connected : ConnectOS := mkConnectOS (-1) 7 0 false.
Definition os_in_progress : ConnectOS := mkConnectOS (-1) 7 (-1) true.
Definition os_refused : ConnectOS := mkConnectOS (-1) 7 (-1) false.
Definition no_capabilities : CapabilityWords := mkCapabilityWords 0 0.
Definition fresh_protocol : MySQLProtocol :=
  set_auth_state sample_protocol MXS_AUTH_STATE_INIT.

(** ** Vocabulary for the invariant of the counter of replies to ignore *)

Definition ignore_replies_in_range (w : World) : Prop :=
  0 <= ignore_replies (w_proto w) <= 1.
(** ** Vocabulary for the statements about queued writes *)

(** The write entry point called on each request in turn. *)
Fixpoint write_each (E : Env) (qs : list GWBUF) (w : World) : option World :=
  match qs with
  | [] => Some w
  | q :: rest =>
      match gw_MySQLWrite_backend E q w with
      | Some (_, w) => write_each E rest w
      | None => None
      end
  end.

Definition delayq_bytes (d : DCB) : list uint8 :=
  match delayq d with
  | Some q => gwbuf_data q
  | None => []
  end.
(** A DCB that sent its authentication response and holds a request of the
    client in its delay queue; the socket holds [input]. *)
Definition authenticating_world (input : list uint8) : World :=
  upd_dcb (fun d => set_delayq d (Some show_databases))
    (upd_proto (fun p => set_auth_state p MXS_AUTH_STATE_RESPONSE_SENT)
       (sample_world caps_stmt input)).

(** An environment whose handshake decoder rejects every greeting. *)
Definition rejecting_env : Env :=
  {| sha1 := pad20;
     sha1_length := fun _ => eq_refl;
     MYSQL_IS_COM_QUIT := is_command MXS_COM_QUIT;
     MYSQL_IS_CHANGE_USER := is_command MXS_COM_CHANGE_USER;
     dcb_write_ok := fun _ => true;
     native_password_response_ok := fun _ => true;
     handleError_succp := fun _ _ => true;
     handleError_marks_dcb := false;
     gwbuf_make_contiguous_ok := fun _ => true;
     mxs_mysql_is_result_set := fun _ => false;
     modutil_count_signal_packets := fun _ => (0, false);
     mxs_mysql_is_prep_stmt_ok := fun _ => false;
     authfunc_extract := fun _ => true;
     authfunc_authenticate := MXS_AUTH_SUCCEEDED;
     gw_read_backend_handshake := fun _ => false;
     gw_send_backend_auth := MXS_AUTH_STATE_RESPONSE_SENT;
     gw_getsockerrno := fun _ => 0;
     mxs_strerror := fun _ => "Connection reset by peer"%string |}.

(** A DCB whose session is stopping; the socket holds [input]. *)
Definition stopping_world (input : list uint8) : World :=
  upd_dcb
    (fun d =>
       set_session d
         (Some (mkSession SESSION_STATE_STOPPING (Some sample_client)
                  caps_stmt true false SESSION_CLOSE_NONE)))
    (sample_world caps_stmt input).
(** A DCB whose client sent a COM_CHANGE_USER that went to the backend; the
    socket holds [input]. *)
Definition changing_user_world (input : list uint8) : World :=
  upd_proto (fun p => set_changing_user p true)
    (upd_dcb
       (fun d =>
          set_session d
            (Some (set_client_dcb (sample_session caps_stmt)
                     (Some (set_client_data sample_client
                              (set_mses_changing_user sample_mses_pw
                                 true))))))
       (sample_world caps_stmt input)).

(** Length limits of 128 bytes, with an authenticator that accepts every
    token and answers with the digest [digest], one that rejects every
    token, and a client authenticator without a re-authentication entry. *)
Definition accepting_auth (digest : list uint8) : AuthEnv :=
  {| MYSQL_USER_MAXLEN := 128;
     MYSQL_DATABASE_MAXLEN := 128;
     auth_token_alloc_ok := true;
     reauthenticate := Some (fun _ _ _ _ _ _ => (0, digest));
     service_refresh_users := 0;
     create_auth_fail_str := fun _ _ _ => Some "Access denied"%string |}.
Definition rejecting_auth : AuthEnv :=
  {| MYSQL_USER_MAXLEN := 128;
     MYSQL_DATABASE_MAXLEN := 128;
     auth_token_alloc_ok := true;
     reauthenticate := Some (fun _ _ _ _ _ out => (1, out));
     service_refresh_users := 0;
     create_auth_fail_str := fun _ _ _ => Some "Access denied"%string |}.
Definition no_reauth : AuthEnv :=
  {| MYSQL_USER_MAXLEN := 128;
     MYSQL_DATABASE_MAXLEN := 128;
     auth_token_alloc_ok := true;
     reauthenticate := None;
     service_refresh_users := 0;
     create_auth_fail_str := fun _ _ _ => Some "Access denied"%string |}.

(** The COM_CHANGE_USER of a client: user "bob", no token, schema "shop",
    charset 33. *)
Definition client_change_user : GWBUF :=
  mkGWBUF ([13; 0; 0; 0; 17] ++ [98; 111; 98; 0] ++ [0]
           ++ [115; 104; 111; 112; 0] ++ [33; 0]) [].

(** A DCB that collects the result of the COM_QUERY it sent; the socket
    holds [input].  With [deferring_env] every buffer looks like a result
    set with an odd number of EOF packets so far. *)
Definition collecting_world (input : list uint8) : World :=
  upd_proto
    (fun p => set_collect_result (set_current_command p MXS_COM_QUERY) true)
    (sample_world caps_stmt input).
Definition deferring_env : Env :=
  {| sha1 := pad20;
     sha1_length := fun _ => eq_refl;
     MYSQL_IS_COM_QUIT := is_command MXS_COM_QUIT;
     MYSQL_IS_CHANGE_USER := is_command MXS_COM_CHANGE_USER;
     dcb_write_ok := fun _ => true;
     native_password_response_ok := fun _ => true;
     handleError_succp := fun _ _ => true;
     handleError_marks_dcb := false;
     gwbuf_make_contiguous_ok := fun _ => true;
     mxs_mysql_is_result_set := fun _ => true;
     modutil_count_signal_packets := fun _ => (1, false);
     mxs_mysql_is_prep_stmt_ok := fun _ => false;
     authfunc_extract := fun _ => true;
     authfunc_authenticate := MXS_AUTH_SUCCEEDED;
     gw_read_backend_handshake := fun _ => true;
     gw_send_backend_auth := MXS_AUTH_STATE_RESPONSE_SENT;
     gw_getsockerrno := fun _ => 0;
     mxs_strerror := fun _ => "Connection reset by peer"%string |}.

(** The value [reauthenticate] returned last in [gw_change_user] when its
    first call failed: that of the call made after the users were reloaded,
    if they could be, and that of the first call otherwise. *)
Definition last_auth_ret (A : AuthEnv)
  (reauth : bool -> list uint8 -> list uint8 -> Z -> list uint8 ->
            list uint8 -> Z * list uint8)
  (req : change_user_request) (scr : list uint8) : Z :=
  let first :=
    reauth false (cu_username req) (cu_auth_token req)
      (cu_auth_token_len req) scr (repeat 0 MYSQL_SCRAMBLE_LEN) in
  if service_refresh_users A =? 0 then
    fst (reauth true (cu_username req) (cu_auth_token req)
           (cu_auth_token_len req) scr (snd first))
  else fst first.

(* ================================================================== *)
(** * Part II: properties *)
(* ================================================================== *)

Lemma bytes_eqb_eq (a b : list uint8) : bytes_eqb a b = true <-> a = b.
Proof.
  revert b; induction a as [|x a IH]; intros [|y b]; simpl; split;
    try congruence; try reflexivity.
  - intros H. apply andb_true_iff in H. destruct H as [Hxy Hab].
    apply Z.eqb_eq in Hxy. apply IH in Hab. congruence.
  - intros H. injection H as -> ->. rewrite Z.eqb_refl. simpl.
    apply IH. reflexivity.
Qed.

Lemma auth_state_eqb_eq (a b : mxs_auth_state_t) :
  auth_state_eqb a b = true <-> a = b.
Proof. destruct a, b; simpl; split; congruence. Qed.

(* ------------------------------------------------------------------ *)
(** ** Lists, stores and header fields *)
(* ------------------------------------------------------------------ *)

Lemma skipn_repeat_zero (k n : nat) :
  skipn k (repeat 0 n) = repeat 0 (n - k).
Proof.
  revert n; induction k as [|k IH]; intros [|n]; simpl; auto.
Qed.

Lemma firstn_repeat_zero (k n : nat) :
  (k <= n)%nat -> firstn k (repeat 0 n) = repeat 0 k.
Proof.
  revert n; induction k as [|k IH]; intros [|n] H; simpl; auto; try lia.
  f_equal. apply IH. lia.
Qed.

Lemma store_at_gap (pre : list uint8) (k : nat) (src : list uint8)
  (n off : nat) :
  off = (length pre + k)%nat ->
  (k + length src <= n)%nat ->
  store (pre ++ repeat 0 n) off src
  = (pre ++ repeat 0 k ++ src) ++ repeat 0 (n - k - length src).
Proof.
  intros -> Hle. unfold store.
  rewrite firstn_app, skipn_app.
  rewrite firstn_all2 by lia. rewrite skipn_all2 by lia.
  replace (length pre + k - length pre)%nat with k by lia.
  replace (length pre + k + length src - length pre)%nat
    with (k + length src)%nat by lia.
  rewrite firstn_repeat_zero by lia.
  rewrite skipn_repeat_zero.
  simpl. rewrite <- !app_assoc.
  replace (n - (k + length src))%nat with (n - k - length src)%nat by lia.
  reflexivity.
Qed.

Lemma store_zero_noop (n k : nat) :
  (k < n)%nat -> store_byte (repeat 0 n) k 0 = repeat 0 n.
Proof.
  intros H. unfold store_byte.
  pose proof (store_at_gap [] k [0] n k eq_refl) as H0.
  simpl in H0. rewrite H0 by lia.

  replace n with (k + (1 + (n - k - 1)))%nat at 2 by lia.
  rewrite !repeat_app, <- app_assoc. reflexivity.
Qed.

Lemma gw_str_xor_comm (a b : list uint8) (n : nat) :
  gw_str_xor a b n = gw_str_xor b a n.
Proof.
  revert a b; induction n as [|n IH]; intros [|x a] [|y b]; simpl; auto.
  rewrite Z.lxor_comm, IH. reflexivity.
Qed.

Lemma gw_str_xor_length (a b : list uint8) (n : nat) :
  length a = n -> length b = n -> length (gw_str_xor a b n) = n.
Proof.
  revert a b; induction n as [|n IH]; intros [|x a] [|y b]; simpl;
    intros Ha Hb; try lia.
  f_equal. apply IH; lia.
Qed.

Lemma byte3_roundtrip (n : Z) (rest : list uint8) :
  0 <= n < 2 ^ 24 ->
  gw_mysql_get_byte3 (gw_mysql_set_byte3 n ++ rest) = n.
Proof.
  intros Hn. unfold gw_mysql_get_byte3, gw_mysql_set_byte3, byte_at.
  cbn [nth app].
  apply Z.bits_inj'. intros i Hi.
  rewrite !Z.lor_spec.
  change 255 with (Z.ones 8).
  destruct (Z.ltb_spec i 8); [|destruct (Z.ltb_spec i 16)].
  - rewrite Z.land_spec, Z.ones_spec_low by lia.
    rewrite !Z.shiftl_spec_low by lia.
    rewrite andb_true_r, !orb_false_r. reflexivity.
  - rewrite Z.land_spec, Z.ones_spec_high by lia.
    rewrite Z.shiftl_spec by lia.
    rewrite Z.land_spec, Z.ones_spec_low by lia.
    rewrite Z.shiftr_spec by lia.
    rewrite Z.shiftl_spec_low by lia.
    rewrite andb_false_r, andb_true_r, orb_false_r. simpl.
    f_equal. lia.
  - rewrite Z.land_spec, Z.ones_spec_high by lia.
    rewrite !Z.shiftl_spec by lia.
    rewrite !Z.land_spec.
    rewrite (Z.ones_spec_high 8 (i - 8)) by lia.
    rewrite !Z.shiftr_spec by lia.
    rewrite !andb_false_r. simpl.
    destruct (Z.ltb_spec i 24).
    + rewrite Z.ones_spec_low by lia. rewrite andb_true_r. f_equal. lia.
    + rewrite Z.ones_spec_high by lia. rewrite andb_false_r.
      symmetry. 
      rewrite <- (Z.mod_small n (2 ^ 24)) by lia.
      apply Z.mod_pow2_bits_high. lia.
Qed.

Lemma firstn_exact {A} (l : list A) (n : nat) : length l = n -> firstn n l = l.
Proof. intros <-. apply firstn_all. Qed.

Lemma store_header (a b c x y z : Z) (rest : list Z) :
  store (a :: b :: c :: rest) 0 [x; y; z] = x :: y :: z :: rest.
Proof. reflexivity. Qed.

Ltac put k :=
  match goal with
  | |- context [store (?pre ++ repeat 0 ?n) ?off ?src] =>
      rewrite (store_at_gap pre k src n off)
        by (rewrite ?length_app, ?repeat_length; cbn [length];
            rewrite ?length_app, ?repeat_length; cbn [length]; lia)
  end.

Lemma change_user_data_eq (E : Env) (mses : MYSQL_session)
  (proto : MySQLProtocol) :
  length (client_sha1 mses) = 20%nat ->
  length (scramble proto) = 20%nat ->
  gwbuf_data (gw_create_change_user_packet E mses proto)
  = gw_mysql_set_byte3
      (Z.of_nat (length (change_user_payload E mses proto)))
    ++ [0] ++ change_user_payload E mses proto.
Proof.
  intros Hpw Hscr.
  unfold gw_create_change_user_packet, change_user_payload, password_is_set.
  cbv beta zeta.
  set (plugin := bytes_of_string DEFAULT_MYSQL_AUTH_PLUGIN).
  assert (Hplug : length plugin = 21%nat) by reflexivity.
  unfold strlen, GW_MYSQL_SCRAMBLE_SIZE, gwbuf_alloc_zeroed, GWBUF_DATA,
    gw_sha1_str, gw_sha1_2_str, spec_scramble, store_byte, to_uint8.
  change (gwbuf_data (gwbuf_set_type (mkGWBUF ?x []) _)) with x.
  destruct mses as [u d pw cu]. cbn [user db client_sha1] in *.
  rewrite !(firstn_exact pw) by (rewrite ?length_firstn; lia).
  rewrite !(firstn_exact (scramble proto)) by assumption.
  rewrite !(firstn_exact (sha1 E pw)) by apply sha1_length.
  rewrite (gw_str_xor_comm _ pw).
  set (scr := gw_str_xor pw (sha1 E (scramble proto ++ sha1 E pw)) 20).
  assert (Hxor : length scr = 20%nat)
    by (apply gw_str_xor_length; [assumption | apply sha1_length]).
  destruct (memcmp_differs pw null_client_sha1 MYSQL_SCRAMBLE_LEN);
    destruct d as [|d0 d']; cbn [Nat.ltb Nat.leb length];
    cbv beta iota zeta.
  all: match goal with
       | |- context [store (repeat 0 ?n) 3 [0]] =>
           change (store (repeat 0 n) 3 [0]) with (store_byte (repeat 0 n) 3 0);
           rewrite (store_zero_noop n 3) by lia;
           change (repeat 0 n) with ([] ++ repeat 0 n)
       end.
  all: cbn [gwbuf_data].
  all: repeat first [put 0%nat | put 1%nat | put 2%nat | put 3%nat | put 4%nat].
  all: match goal with
       | |- context [repeat 0 (?a - ?b)] =>
           replace (a - b)%nat with 1%nat
             by (rewrite ?length_app, ?repeat_length; cbn [length];
                 rewrite ?length_app, ?repeat_length; cbn [length]; lia)
       end.
  all: cbn [repeat app].
  all: match goal with
       | |- store _ 0 (gw_mysql_set_byte3 ?a)
            = gw_mysql_set_byte3 ?b ++ _ =>
           replace a with b
             by (repeat (cbn [length]; rewrite ?length_app);
                 cbn [length]; lia)
       end.

  all: unfold gw_mysql_set_byte3; rewrite store_header.
  all: cbn [app]; repeat rewrite <- app_assoc; cbn [app].
  all: reflexivity.
Qed.

Lemma change_user_payload_length (E : Env) (mses : MYSQL_session)
  (proto : MySQLProtocol) :
  length (client_sha1 mses) = 20%nat ->
  (length (change_user_payload E mses proto)
   <= length (user mses) + length (db mses) + 48)%nat.
Proof.
  intros Hpw. unfold change_user_payload.
  assert (Hs : length (spec_scramble E (client_sha1 mses) (scramble proto))
               = 20%nat).
  { unfold spec_scramble. apply gw_str_xor_length;
      [assumption | apply sha1_length]. }
  assert (Hp : length (bytes_of_string DEFAULT_MYSQL_AUTH_PLUGIN) = 21%nat)
    by reflexivity.
  destruct (password_is_set mses);
    repeat (cbn [length]; rewrite ?length_app); cbn [length];
    rewrite ?Hs, ?Hp; lia.
Qed.

Lemma land_255_small (v : Z) : 0 <= v < 256 -> Z.land v 255 = v.
Proof.
  intros H. change 255 with (Z.ones 8). rewrite Z.land_ones by lia.
  apply Z.mod_small. lia.
Qed.

Lemma shiftr_8_small (v : Z) : 0 <= v < 256 -> Z.shiftr v 8 = 0.
Proof.
  intros H. rewrite Z.shiftr_div_pow2 by lia. apply Z.div_small. lia.
Qed.

(** C3 (as amended).  For every credential snapshot and protocol scramble
    (two 20-byte arrays) the synthesised COM_CHANGE_USER buffer is the 3-byte
    little-endian payload length, sequence number 0 and the payload: command
    0x11; user name and NUL; then, if a password is set, the scramble length
    20 followed by xor(sha1(password), sha1(scramble || sha1(sha1(password)))),
    and otherwise a single NUL byte that is the zero scramble length itself;
    default schema and NUL; the low byte of the charset and a zero byte; the
    plugin name "mysql_native_password" and NUL.  The length field equals the
    payload length and the buffer is tagged to have its result collected.
    With a password set and a charset below 256 this is the layout the
    specification lists. *)
Theorem gw_create_change_user_packet_layout (E : Env) (mses : MYSQL_session)
  (proto : MySQLProtocol) :
  length (client_sha1 mses) = 20%nat ->
  length (scramble proto) = 20%nat ->
  Z.of_nat (length (user mses) + length (db mses)) + 48 < 2 ^ 24 ->
  let b := gw_create_change_user_packet E mses proto in
  let payload := change_user_payload E mses proto in
  gwbuf_data b
  = gw_mysql_set_byte3 (Z.of_nat (length payload)) ++ [0] ++ payload
  /\ MYSQL_GET_PAYLOAD_LEN (gwbuf_data b) = Z.of_nat (length payload)
  /\ GWBUF_SHOULD_COLLECT_RESULT b = true
  /\ (password_is_set mses = true -> 0 <= charset proto < 256 ->
      payload = spec_change_user_payload E mses proto).
Proof.
  intros Hpw Hscr Hlen b payload.
  assert (Hdata : gwbuf_data b
                  = gw_mysql_set_byte3 (Z.of_nat (length payload))
                    ++ [0] ++ payload)
    by (apply change_user_data_eq; assumption).
  split; [exact Hdata|]. split; [|split].
  - unfold MYSQL_GET_PAYLOAD_LEN. rewrite Hdata.
    apply byte3_roundtrip.
    pose proof (change_user_payload_length E mses proto Hpw) as Hle.
    fold payload in Hle. lia.
  - unfold b, gw_create_change_user_packet.
    destruct (memcmp_differs _ _ _); destruct (0 <? strlen (db mses))%nat;
      reflexivity.
  - intros Hset Hcs. unfold payload, change_user_payload,
      spec_change_user_payload, spec_charset_le16.
    rewrite Hset. rewrite (shiftr_8_small _ Hcs).
    reflexivity.
Qed.

Lemma gw_create_change_user_packet_layout_witness :
  length (client_sha1 sample_mses_pw) = 20%nat
  /\ length (scramble sample_protocol) = 20%nat
  /\ MYSQL_GET_PAYLOAD_LEN
       (gwbuf_data
          (gw_create_change_user_packet sample_env sample_mses_pw
             sample_protocol))
     = Z.of_nat
         (length (change_user_payload sample_env sample_mses_pw
                    sample_protocol)).
Proof.
  split; [reflexivity|]. split; [reflexivity|].
  apply (gw_create_change_user_packet_layout sample_env sample_mses_pw
           sample_protocol); [reflexivity | reflexivity |].
  vm_compute. reflexivity.
Defined.

(** C3, counterexample.  For user "u" without a password and schema "d" the
    payload built by the code has one byte, the zero scramble length,
    between the NUL of the user name and the schema; the layout listed in
    the specification has a scramble-length byte and then a NUL.  And for a
    user with a password and the charset 289 (0x0121) the code writes the
    charset field 0x21 0x00, not the little-endian 0x21 0x01. *)
Lemma change_user_packet_layout_counterexample :
  (password_is_set sample_mses_nopw = false
   /\ skipn 4 (gwbuf_data
                 (gw_create_change_user_packet sample_env sample_mses_nopw
                    sample_protocol))
      <> spec_change_user_payload sample_env sample_mses_nopw
           sample_protocol)
  /\ (password_is_set sample_mses_pw = true
      /\ skipn 4 (gwbuf_data
                    (gw_create_change_user_packet sample_env sample_mses_pw
                       (sample_protocol_with_charset 289)))
         <> spec_change_user_payload sample_env sample_mses_pw
              (sample_protocol_with_charset 289)).
Proof.
  split; (split; [reflexivity|]); vm_compute; discriminate.
Qed.

(* ------------------------------------------------------------------ *)
(** ** The write entry point *)
(* ------------------------------------------------------------------ *)

Lemma socket_writes_app (a b : list event) :
  socket_writes (a ++ b) = socket_writes a ++ socket_writes b.
Proof.
  induction a as [|x a IH]; simpl; [reflexivity|].
  destruct x; simpl; rewrite ?IH; reflexivity.
Qed.

Lemma client_replies_app (a b : list event) :
  client_replies (a ++ b) = client_replies a ++ client_replies b.
Proof.
  induction a as [|x a IH]; simpl; [reflexivity|].
  destruct x; simpl; rewrite ?IH; reflexivity.
Qed.

Lemma error_notifications_app (a b : list event) :
  error_notifications (a ++ b)
  = error_notifications a ++ error_notifications b.
Proof.
  induction a as [|x a IH]; simpl; [reflexivity|].
  destruct x; simpl; rewrite ?IH; reflexivity.
Qed.

Lemma app_two {A} (l : list A) (x y : A) : (l ++ [x]) ++ [y] = l ++ [x; y].
Proof. rewrite <- app_assoc. reflexivity. Qed.

(** C6.  A write on a backend DCB that is not fresh from the pool while a
    reply to be ignored is outstanding: a COM_QUIT request is freed, a fake
    hangup is raised on the DCB and the call fails with 0; any other request
    is appended to the stored query, nothing reaches the socket and the call
    succeeds with 1. *)
Theorem write_while_reply_outstanding (E : Env) (queue : GWBUF) (w : World) :
  was_persistent (w_dcb w) = false ->
  0 < ignore_replies (w_proto w) ->
  (MYSQL_IS_COM_QUIT E (GWBUF_DATA queue) = true ->
   exists w',
     gw_MySQLWrite_backend E queue w = Some (0, w')
     /\ w_trace w' = w_trace w ++ [EvFree queue; EvFakeHangup THE_BACKEND_DCB]
     /\ w_dcb w' = w_dcb w)
  /\ (MYSQL_IS_COM_QUIT E (GWBUF_DATA queue) = false ->
      exists w',
        gw_MySQLWrite_backend E queue w = Some (1, w')
        /\ stored_query (w_proto w')
           = Some (gwbuf_append (stored_query (w_proto w)) queue)
        /\ ignore_replies (w_proto w') = ignore_replies (w_proto w)
        /\ w_trace w' = w_trace w).
Proof.
  intros Hwp Hign.
  assert (Hpos : (0 <? ignore_replies (w_proto w)) = true)
    by (apply Z.ltb_lt; exact Hign).
  unfold gw_MySQLWrite_backend. rewrite Hwp, Hpos.
  split; intros Hquit; rewrite Hquit.
  - eexists. split; [reflexivity|]. split; [|reflexivity].
    cbn. apply app_two.
  - eexists. split; [reflexivity|]. cbn. auto.
Qed.

Lemma write_while_reply_outstanding_witness :
  was_persistent (w_dcb (awaiting_world (Some show_databases) [])) = false
  /\ 0 < ignore_replies (w_proto (awaiting_world (Some show_databases) []))
  /\ (MYSQL_IS_COM_QUIT sample_env (GWBUF_DATA com_quit) = true ->
      exists w',
        gw_MySQLWrite_backend sample_env com_quit
          (awaiting_world (Some show_databases) []) = Some (0, w')
        /\ w_trace w' = [EvFree com_quit; EvFakeHangup THE_BACKEND_DCB]
        /\ w_dcb w' = w_dcb (awaiting_world (Some show_databases) [])).
Proof.
  split; [reflexivity|]. split; [reflexivity|].
  apply (write_while_reply_outstanding sample_env com_quit
           (awaiting_world (Some show_databases) []));
    reflexivity.
Defined.

(** The packet depends on the charset and the scramble of the protocol
    object only. *)
Lemma change_user_packet_ignores_counter (E : Env) (m : MYSQL_session)
  (p : MySQLProtocol) (v : Z) :
  gw_create_change_user_packet E m (set_ignore_replies p v)
  = gw_create_change_user_packet E m p.
Proof. reflexivity. Qed.

(** The first write after adoption, seen as a whole. *)
Lemma write_after_adoption_unfold (E : Env) (queue : GWBUF) (w : World) :
  was_persistent (w_dcb w) = true ->
  state (w_dcb w) = DCB_STATE_POLLING ->
  protocol_auth_state (w_proto w) = MXS_AUTH_STATE_COMPLETE ->
  gw_MySQLWrite_backend E queue w
  = let w0 :=
      upd_proto (fun p => set_ignore_replies p 0)
        (upd_dcb (fun d => set_was_persistent d false) w) in
    let w1 := gwbuf_free (stored_query (w_proto w)) w0 in
    if MYSQL_IS_COM_QUIT E (GWBUF_DATA queue) then
      Some (1, gwbuf_free (Some queue) w1)
    else
      match session (w_dcb w) with
      | None => None
      | Some s =>
          match client_dcb s with
          | None => None
          | Some c =>
              let buf :=
                gw_create_change_user_packet E (client_data c) (w_proto w) in
              if dcb_write_ok E buf then
                Some (1, upd_proto
                           (fun p =>
                              set_stored_query (set_ignore_replies p 1)
                                               (Some queue))
                           (emit (EvWrite buf) w1))
              else Some (0, gwbuf_free (Some queue) w1)
          end
      end.
Proof.
  intros Hwp Hst Hauth.
  unfold gw_MySQLWrite_backend. rewrite Hwp.
  destruct w as [d tr sk]. destruct d as [ps wp st rq wq dq ssl eh fk srv ses p].
  destruct p as [au cc lq cr ts cu ir sq cs scr].
  cbn in Hwp, Hst, Hauth. subst wp st au. cbn.
  destruct sq as [q|]; cbn;
    (destruct (MYSQL_IS_COM_QUIT E (GWBUF_DATA queue)); [reflexivity|]);
    (destruct ses as [s|]; [|reflexivity]);
    (destruct (client_dcb s) as [c|]; [|reflexivity]);
    unfold dcb_write; cbn;
    rewrite change_user_packet_ignores_counter;
    match goal with
    | |- context [dcb_write_ok E ?b] => destruct (dcb_write_ok E b)
    end; reflexivity.
Qed.

(** C1 (as amended).  A write on a backend DCB whose was-persistent flag is
    set and whose state qualifies (polling, authentication complete) clears
    was-persistent and frees any previously stored query.  If the request is
    not a COM_QUIT and the socket takes the packet, the call sends one
    buffer, the COM_CHANGE_USER built from the credential snapshot of the
    adopting session, leaves ignore-replies at 1, parks the request in
    stored-query and returns 1; the request itself is not written.  If the
    request is a COM_QUIT, it is freed, nothing is sent, ignore-replies is 0
    and the call returns 1.  If the socket does not take the packet, the
    request is freed and the call returns 0. *)
Theorem write_after_adoption (E : Env) (queue : GWBUF) (w : World)
  (s : MXS_SESSION) (c : CLIENT_DCB) :
  was_persistent (w_dcb w) = true ->
  state (w_dcb w) = DCB_STATE_POLLING ->
  protocol_auth_state (w_proto w) = MXS_AUTH_STATE_COMPLETE ->
  session (w_dcb w) = Some s ->
  client_dcb s = Some c ->
  let change_user :=
    gw_create_change_user_packet E (client_data c) (w_proto w) in
  let freed_old :=
    match stored_query (w_proto w) with
    | Some q => [EvFree q]
    | None => []
    end in
  exists rc w',
    gw_MySQLWrite_backend E queue w = Some (rc, w')
    /\ was_persistent (w_dcb w') = false
    /\ (MYSQL_IS_COM_QUIT E (GWBUF_DATA queue) = false ->
        dcb_write_ok E change_user = true ->
        rc = 1
        /\ w_trace w' = w_trace w ++ freed_old ++ [EvWrite change_user]
        /\ socket_writes (w_trace w')
           = socket_writes (w_trace w) ++ [change_user]
        /\ ignore_replies (w_proto w') = 1
        /\ stored_query (w_proto w') = Some queue)
    /\ (MYSQL_IS_COM_QUIT E (GWBUF_DATA queue) = true ->
        rc = 1
        /\ w_trace w' = w_trace w ++ freed_old ++ [EvFree queue]
        /\ socket_writes (w_trace w') = socket_writes (w_trace w)
        /\ ignore_replies (w_proto w') = 0)
    /\ (MYSQL_IS_COM_QUIT E (GWBUF_DATA queue) = false ->
        dcb_write_ok E change_user = false ->
        rc = 0
        /\ w_trace w' = w_trace w ++ freed_old ++ [EvFree queue]
        /\ ignore_replies (w_proto w') = 0).
Proof.
  intros Hwp Hst Hauth Hses Hcli change_user freed_old.
  rewrite (write_after_adoption_unfold E queue w Hwp Hst Hauth).
  rewrite Hses, Hcli. cbv zeta. fold change_user.
  unfold freed_old. clear freed_old.
  unfold w_proto in *.
  destruct (stored_query (protocol (w_dcb w))) as [q|];
    destruct (MYSQL_IS_COM_QUIT E (GWBUF_DATA queue));
    destruct (dcb_write_ok E change_user);
    eexists _, _; (split; [reflexivity|]); cbn;
    rewrite ?socket_writes_app, <- ?app_assoc; cbn;
    rewrite ?app_nil_r;
    repeat split; intros; try discriminate; reflexivity.
Qed.

Lemma write_after_adoption_witness :
  was_persistent (w_dcb adopted_world) = true
  /\ state (w_dcb adopted_world) = DCB_STATE_POLLING
  /\ protocol_auth_state (w_proto adopted_world) = MXS_AUTH_STATE_COMPLETE
  /\ exists rc w',
       gw_MySQLWrite_backend sample_env show_databases adopted_world
       = Some (rc, w')
       /\ was_persistent (w_dcb w') = false.
Proof.
  split; [reflexivity|]. split; [reflexivity|]. split; [reflexivity|].
  destruct (write_after_adoption sample_env show_databases adopted_world
              (sample_session caps_stmt) sample_client
              eq_refl eq_refl eq_refl eq_refl eq_refl)
    as (rc & w' & Hrun & Hwp & _).
  exists rc, w'. split; assumption.
Defined.

(** C1, counterexample.  The first write on a DCB just adopted from the
    pool (polling, authentication complete) is a COM_QUIT: the call returns
    1, but no COM_CHANGE_USER is sent, ignore-replies is 0 and the request
    is not parked. *)
Lemma write_after_adoption_com_quit_counterexample :
  was_persistent (w_dcb adopted_world) = true
  /\ state (w_dcb adopted_world) = DCB_STATE_POLLING
  /\ protocol_auth_state (w_proto adopted_world) = MXS_AUTH_STATE_COMPLETE
  /\ exists w',
       gw_MySQLWrite_backend sample_env com_quit adopted_world
       = Some (1, w')
       /\ socket_writes (w_trace w') = []
       /\ ignore_replies (w_proto w') = 0
       /\ stored_query (w_proto w') = None.
Proof.
  split; [reflexivity|]. split; [reflexivity|]. split; [reflexivity|].
  eexists. split; [reflexivity|]. repeat split.
Qed.

(** C10.  The connection-established predicate is true exactly when the
    authentication state is COMPLETE, ignore-replies is 0 and no stored
    query is pending; a DCB adopted from the pool whose COM_CHANGE_USER has
    just been sent is in state COMPLETE and is reported as not
    established. *)
Theorem connection_established_iff (E : Env) (queue : GWBUF) (w : World)
  (s : MXS_SESSION) (c : CLIENT_DCB) :
  (gw_connection_established (w_dcb w) = true <->
   protocol_auth_state (w_proto w) = MXS_AUTH_STATE_COMPLETE
   /\ ignore_replies (w_proto w) = 0
   /\ stored_query (w_proto w) = None)
  /\ (was_persistent (w_dcb w) = true ->
      state (w_dcb w) = DCB_STATE_POLLING ->
      protocol_auth_state (w_proto w) = MXS_AUTH_STATE_COMPLETE ->
      session (w_dcb w) = Some s ->
      client_dcb s = Some c ->
      MYSQL_IS_COM_QUIT E (GWBUF_DATA queue) = false ->
      dcb_write_ok E
        (gw_create_change_user_packet E (client_data c) (w_proto w)) = true ->
      exists w',
        gw_MySQLWrite_backend E queue w = Some (1, w')
        /\ protocol_auth_state (w_proto w') = MXS_AUTH_STATE_COMPLETE
        /\ gw_connection_established (w_dcb w') = false).
Proof.
  split.
  - unfold gw_connection_established, w_proto.
    rewrite !andb_true_iff, auth_state_eqb_eq, Z.eqb_eq.
    destruct (stored_query (protocol (w_dcb w))); simpl; split.
    + intros [_ H]. discriminate.
    + intros (_ & _ & H). discriminate.
    + intros [[H1 H2] _]. auto.
    + intros (H1 & H2 & _). auto.
  - intros Hwp Hst Hauth Hses Hcli Hq Hw.
    rewrite (write_after_adoption_unfold E queue w Hwp Hst Hauth).
    rewrite Hses, Hcli. cbv zeta. rewrite Hq, Hw.
    eexists. split; [reflexivity|].
    unfold gw_connection_established, w_proto in *.
    destruct (stored_query (protocol (w_dcb w))); cbn; rewrite Hauth;
      split; reflexivity.
Qed.

Lemma connection_established_iff_witness :
  exists w',
    gw_MySQLWrite_backend sample_env show_databases adopted_world
    = Some (1, w')
    /\ protocol_auth_state (w_proto w') = MXS_AUTH_STATE_COMPLETE
    /\ gw_connection_established (w_dcb w') = false.
Proof.
  apply (proj2 (connection_established_iff sample_env show_databases
                  adopted_world (sample_session caps_stmt) sample_client));
    reflexivity.
Defined.

(* ------------------------------------------------------------------ *)
(** ** The read entry point *)
(* ------------------------------------------------------------------ *)

(** C5.  A read event on a backend DCB whose pool-start timestamp is not
    zero raises a fake hangup on the DCB and returns 0; the socket is not
    read and the DCB, its read queue included, is left as it was. *)
Theorem read_event_on_pooled_dcb (E : Env) (w : World) :
  persistentstart (w_dcb w) <> 0 ->
  gw_read_backend_event E w
  = Some (0, mkWorld (w_dcb w)
                     (w_trace w ++ [EvFakeHangup THE_BACKEND_DCB])
                     (w_socket w)).
Proof.
  intros Hpool. unfold gw_read_backend_event.
  destruct (Z.eqb_spec (persistentstart (w_dcb w)) 0) as [H0|_];
    [contradiction|]. reflexivity.
Qed.

Lemma read_event_on_pooled_dcb_witness :
  persistentstart (w_dcb (pooled_world ok_reply)) <> 0
  /\ gw_read_backend_event sample_env (pooled_world ok_reply)
     = Some (0, mkWorld (w_dcb (pooled_world ok_reply))
                        [EvFakeHangup THE_BACKEND_DCB]
                        (SockBytes ok_reply)).
Proof.
  split; [vm_compute; lia|].
  apply (read_event_on_pooled_dcb sample_env (pooled_world ok_reply)).
  vm_compute. lia.
Defined.

(* ------------------------------------------------------------------ *)
(** ** Preparing a write *)
(* ------------------------------------------------------------------ *)

(** C4 (as amended).  When a write is prepared on a backend DCB with a
    session whose router requires statement input, the command byte of the
    outgoing packet is copied into current-command unless the previous
    packet set the large-query flag or the session has an active LOAD DATA
    LOCAL stream, and the large-query flag is then set if and only if the
    payload length of this packet is 2^24-1.  When the router does not
    require statement input the large-query flag is left alone and
    current-command is copied from the client protocol.  For a COM_QUERY
    sent as a maximum-size packet followed by a continuation packet with a
    payload of 100 bytes, current-command stays COM_QUERY across both
    writes and the flag is set after the first and clear after the
    second. *)
Theorem prepare_for_write_command_tracking (d : DCB) (b1 b2 : GWBUF)
  (s : MXS_SESSION) :
  session d = Some s ->
  let d1 := prepare_for_write d b1 in
  let d2 := prepare_for_write d1 b2 in
  (rcap_type_required (service_capabilities s) RCAP_TYPE_STMT_INPUT = true ->
   current_command (protocol d1)
   = (if large_query (protocol d) || load_active s
      then current_command (protocol d)
      else MYSQL_GET_COMMAND (GWBUF_DATA b1))
   /\ (large_query (protocol d1) = true <->
       MYSQL_GET_PAYLOAD_LEN (GWBUF_DATA b1) = 2 ^ 24 - 1))
  /\ (rcap_type_required (service_capabilities s) RCAP_TYPE_STMT_INPUT
      = false ->
      large_query (protocol d1) = large_query (protocol d)
      /\ forall c cp,
           client_dcb s = Some c -> client_protocol c = Some cp ->
           current_command (protocol d1) = current_command cp)
  /\ (rcap_type_required (service_capabilities s) RCAP_TYPE_STMT_INPUT = true ->
      large_query (protocol d) = false ->
      load_active s = false ->
      MYSQL_GET_COMMAND (GWBUF_DATA b1) = MXS_COM_QUERY ->
      MYSQL_GET_PAYLOAD_LEN (GWBUF_DATA b1) = 2 ^ 24 - 1 ->
      MYSQL_GET_PAYLOAD_LEN (GWBUF_DATA b2) = 100 ->
      current_command (protocol d1) = MXS_COM_QUERY
      /\ large_query (protocol d1) = true
      /\ current_command (protocol d2) = MXS_COM_QUERY
      /\ large_query (protocol d2) = false).
Proof.
  intros Hses d1 d2.
  assert (Hses1 : session d1 = Some s) by exact Hses.
  split; [|split].
  - intros Hcap. unfold d1, prepare_for_write.
    rewrite Hses, Hcap. unfold session_is_load_active.
    destruct (large_query (protocol d)), (load_active s),
      (GWBUF_SHOULD_COLLECT_RESULT b1); cbn;
      (split; [reflexivity|]);
      apply Z.eqb_eq.
  - intros Hcap. unfold d1, prepare_for_write. rewrite Hses, Hcap.
    split.
    + destruct (client_dcb s) as [c|]; [destruct (client_protocol c)|];
        destruct (GWBUF_SHOULD_COLLECT_RESULT b1); reflexivity.
    + intros c cp Hc Hcp. rewrite Hc, Hcp.
      destruct (GWBUF_SHOULD_COLLECT_RESULT b1); reflexivity.
  - intros Hcap Hlq Hload Hcmd Hlen1 Hlen2.
    assert (H1 : current_command (protocol d1) = MXS_COM_QUERY
                 /\ large_query (protocol d1) = true).
    { unfold d1, prepare_for_write. rewrite Hses, Hcap.
      unfold session_is_load_active. rewrite Hlq, Hload, Hcmd, Hlen1.
      destruct (GWBUF_SHOULD_COLLECT_RESULT b1); split; reflexivity. }
    destruct H1 as [Hc1 Hl1]. split; [exact Hc1|]. split; [exact Hl1|].
    unfold d2, prepare_for_write. rewrite Hses1, Hcap.
    rewrite Hl1, Hlen2.
    destruct (GWBUF_SHOULD_COLLECT_RESULT b2); cbn; split;
      solve [exact Hc1 | reflexivity].
Qed.

Lemma prepare_for_write_command_tracking_witness :
  current_command
    (protocol (prepare_for_write (sample_dcb caps_stmt) large_com_query))
  = MXS_COM_QUERY
  /\ large_query
       (protocol (prepare_for_write (sample_dcb caps_stmt) large_com_query))
     = true
  /\ current_command
       (protocol
          (prepare_for_write
             (prepare_for_write (sample_dcb caps_stmt) large_com_query)
             continuation_100))
     = MXS_COM_QUERY
  /\ large_query
       (protocol
          (prepare_for_write
             (prepare_for_write (sample_dcb caps_stmt) large_com_query)
             continuation_100))
     = false.
Proof.
  apply (proj2 (proj2 (prepare_for_write_command_tracking
                         (sample_dcb caps_stmt) large_com_query
                         continuation_100 (sample_session caps_stmt)
                         eq_refl)));
    reflexivity.
Defined.

(** C4, counterexample.  The router of the session does not require
    statement input and the client protocol is tracking a
    COM_STMT_PREPARE: preparing the write of a maximum-size COM_QUERY
    packet, with the large-query flag clear and no LOAD DATA LOCAL active,
    leaves current-command at the client's command instead of COM_QUERY
    and leaves the large-query flag clear. *)
Lemma prepare_for_write_without_stmt_input_counterexample :
  protocol_auth_state (protocol (sample_dcb caps_none))
  = MXS_AUTH_STATE_COMPLETE
  /\ large_query (protocol (sample_dcb caps_none)) = false
  /\ MYSQL_GET_COMMAND (GWBUF_DATA large_com_query) = MXS_COM_QUERY
  /\ MYSQL_GET_PAYLOAD_LEN (GWBUF_DATA large_com_query) = 2 ^ 24 - 1
  /\ current_command
       (protocol (prepare_for_write (sample_dcb caps_none) large_com_query))
     = MXS_COM_STMT_PREPARE
  /\ large_query
       (protocol (prepare_for_write (sample_dcb caps_none) large_com_query))
     = false.
Proof. repeat split. Qed.

(* ------------------------------------------------------------------ *)
(** ** Prepared-statement responses *)
(* ------------------------------------------------------------------ *)

(** The walk of [modutil_count_packets] always ends within its fuel: more
    fuel does not change the count. *)
Lemma count_packets_from_fuel (f1 f2 : nat) (d : list uint8) :
  (length d < f1)%nat -> (length d < f2)%nat ->
  count_packets_from f1 d = count_packets_from f2 d.
Proof.
  revert f2 d. induction f1 as [|f1 IH]; intros f2 d H1 H2; [lia|].
  destruct f2 as [|f2]; [lia|].
  cbn [count_packets_from].
  destruct (3 <=? length d)%nat eqn:H3; [|reflexivity].
  apply Nat.leb_le in H3. f_equal.
  apply IH; unfold MYSQL_HEADER_LEN; rewrite length_skipn; lia.
Qed.

(** C7 (as amended).  For a buffer from which the column count C and the
    parameter count P of a COM_STMT_PREPARE OK reply can be extracted, the
    response is declared complete if and only if the observed packet count
    equals 1 for the header OK, plus C + 1 for the column definitions and
    their EOF when C > 0, plus P + 1 for the parameter definitions and their
    EOF when P > 0; an empty group contributes nothing, not even an EOF.
    When both counts are positive this is the count the specification
    gives. *)
Theorem complete_ps_response_iff (buffer : GWBUF) (resp : MXS_PS_RESPONSE) :
  mxs_mysql_extract_ps_response buffer = Some resp ->
  (complete_ps_response buffer = true <->
   modutil_count_packets buffer
   = expected_ps_packets (ps_columns resp) (ps_parameters resp))
  /\ (0 < ps_columns resp -> 0 < ps_parameters resp ->
      expected_ps_packets (ps_columns resp) (ps_parameters resp)
      = spec_expected_packets (ps_columns resp) (ps_parameters resp)).
Proof.
  intros Hex. split.
  - unfold complete_ps_response, expected_ps_packets. rewrite Hex.
    cbv zeta. rewrite Z.eqb_eq.
    destruct (0 <? ps_columns resp), (0 <? ps_parameters resp);
      split; intros H; rewrite H; ring.
  - intros Hc Hp. unfold expected_ps_packets, spec_expected_packets.
    apply Z.ltb_lt in Hc, Hp. rewrite Hc, Hp. reflexivity.
Qed.

Lemma complete_ps_response_iff_witness :
  mxs_mysql_extract_ps_response ps_ok_one_each
  = Some (mkPsResponse 1 1 1 0)
  /\ complete_ps_response ps_ok_one_each = true
  /\ modutil_count_packets ps_ok_one_each = spec_expected_packets 1 1.
Proof.
  split; [reflexivity|].
  destruct (complete_ps_response_iff ps_ok_one_each (mkPsResponse 1 1 1 0)
              eq_refl) as [Hiff Hspec].
  split.
  - apply Hiff. vm_compute. reflexivity.
  - vm_compute. reflexivity.
Defined.

(** C7, counterexample.  The OK reply to the preparation of a statement
    without columns and parameters is the whole response: the check declares
    it complete with one packet observed, while the count of the
    specification (definitions, two EOFs and the header) is 3. *)
Lemma complete_ps_response_no_columns_counterexample :
  mxs_mysql_extract_ps_response ps_ok_no_columns
  = Some (mkPsResponse 1 0 0 0)
  /\ complete_ps_response ps_ok_no_columns = true
  /\ modutil_count_packets ps_ok_no_columns = 1
  /\ spec_expected_packets 0 0 = 3.
Proof. repeat split. Qed.

(* ------------------------------------------------------------------ *)
(** ** The error funnel *)
(* ------------------------------------------------------------------ *)

Lemma custom_error_data (pn ar : Z) (msg : String.string) :
  gwbuf_data (mysql_create_custom_error pn ar msg)
  = gw_mysql_set_byte3 (Z.of_nat (9 + length (bytes_of_string msg)))
    ++ [to_uint8 pn; MYSQL_REPLY_ERR]
    ++ gw_mysql_set_byte2 custom_error_code
    ++ custom_error_state ++ bytes_of_string msg.
Proof. reflexivity. Qed.

Lemma do_handle_error_run (E : Env) (action : mxs_error_action_t)
  (errmsg : String.string) (w : World) (s : MXS_SESSION) :
  session (w_dcb w) = Some s ->
  exists w1,
    do_handle_error E action errmsg w = Some w1
    /\ (exists s1, session (w_dcb w1) = Some s1)
    /\ is_fake_event (w_dcb w1) = is_fake_event (w_dcb w)
    /\ protocol (w_dcb w1) = protocol (w_dcb w)
    /\ w_trace w1
       = w_trace w
         ++ (let errbuf :=
               mysql_create_custom_error 1 0
                 (String.append errmsg (get_detailed_error E w)) in
             [EvHandleError errbuf action; EvFree errbuf]
             ++ (if handleError_succp E errbuf action then []
                 else [EvFakeHangup THE_CLIENT_DCB])).
Proof.
  intros Hses. unfold do_handle_error. rewrite Hses. cbv zeta.
  destruct (handleError_succp E _ action); cbn [negb];
    eexists; (split; [reflexivity|]); cbn;
    rewrite <- ?app_assoc; cbn; rewrite ?Hses; eauto.
Qed.


(* ------------------------------------------------------------------ *)
(** ** Errors from the server during authentication *)
(* ------------------------------------------------------------------ *)

Lemma handle_error_response_trace (buffer : GWBUF) (w : World) :
  3 <= MYSQL_GET_PAYLOAD_LEN (GWBUF_DATA buffer) ->
  let errcode := MYSQL_GET_ERRCODE (GWBUF_DATA buffer) in
  exists effects,
    handle_error_response buffer w
    = Some (mkWorld (w_dcb w) (w_trace w ++ effects) (w_socket w))
    /\ (errcode = ER_HOST_IS_BLOCKED ->
        effects = [EvMainWorkerSetMaintenance])
    /\ (is_access_denied errcode -> effects = [EvRefreshUsers])
    /\ (errcode <> ER_HOST_IS_BLOCKED -> ~ is_access_denied errcode ->
        effects = []).
Proof.
  intros Hlen errcode. unfold handle_error_response. fold errcode.
  destruct (Z.ltb_spec (MYSQL_GET_PAYLOAD_LEN (GWBUF_DATA buffer)) 3)
    as [Hshort|_]; [lia|].
  unfold is_access_denied.
  destruct (Z.eqb_spec errcode ER_HOST_IS_BLOCKED) as [H1|H1].
  - exists [EvMainWorkerSetMaintenance]. split; [reflexivity|].
    split; [reflexivity|]. split; [|contradiction].
    rewrite H1. unfold ER_HOST_IS_BLOCKED, ER_ACCESS_DENIED_ERROR,
      ER_DBACCESS_DENIED_ERROR, ER_ACCESS_DENIED_NO_PASSWORD_ERROR.
    intros [H|[H|H]]; discriminate.
  - destruct (Z.eqb_spec errcode ER_ACCESS_DENIED_ERROR) as [H2|H2];
      [|destruct (Z.eqb_spec errcode ER_DBACCESS_DENIED_ERROR) as [H3|H3];
        [|destruct (Z.eqb_spec errcode ER_ACCESS_DENIED_NO_PASSWORD_ERROR)
            as [H4|H4]]]; cbn [orb].
    1-3: exists [EvRefreshUsers]; (split; [reflexivity|]);
         (split; [contradiction|]); split; [reflexivity|];
         intros _ Hn; exfalso; apply Hn; auto.
    exists []. split; [destruct w; cbn; rewrite app_nil_r; reflexivity|].
    split; [contradiction|]. split; [|reflexivity].
    intros [H|[H|H]]; contradiction.
Qed.

(** C8.  A read event on a DCB in the state CONNECTED whose socket holds
    the packet 01 00 00 00 ff, an ERR marker without an error code.  The
    packet is whole and is taken for an error response, and
    [handle_error_response] copies its message with a length of 1 - 3: the
    run is undefined there, so the state is not set to FAILED by a run that
    returns and the error does not reach the router's error handler. *)
Lemma short_error_packet_is_not_funnelled :
  is_whole_packet [1; 0; 0; 0; 255] = true
  /\ is_error_response (mkGWBUF [1; 0; 0; 0; 255] []) = true
  /\ (forall w, handle_error_response (mkGWBUF [1; 0; 0; 0; 255] []) w = None)
  /\ gw_read_backend_event sample_env (connecting_world [1; 0; 0; 0; 255])
     = None.
Proof. repeat split. Qed.

(** X28.  An ERR packet that carries its error code (a payload of 3 bytes
    or more), read whole and made contiguous on a backend DCB that has a
    session, was not taken from the persistent pool and whose
    authentication is not complete:
    if its error code is ER_HOST_IS_BLOCKED a task that puts the server
    into maintenance is posted to the main worker; if it is one of the
    access-denied codes (ER_ACCESS_DENIED_ERROR, ER_DBACCESS_DENIED_ERROR,
    ER_ACCESS_DENIED_NO_PASSWORD_ERROR) a refresh of the users of the
    service is triggered; any other code causes neither.  In all cases the
    state becomes FAILED and the error goes to the router's error handler,
    once, with action REPLY_CLIENT. *)
Theorem auth_error_response_handling (E : Env) (w w1 : World)
  (readbuf : GWBUF) (s : MXS_SESSION) :
  persistentstart (w_dcb w) = 0 ->
  protocol_auth_state (w_proto w) <> MXS_AUTH_STATE_COMPLETE ->
  read_complete_packet w = (true, Some readbuf, w1) ->
  gwbuf_make_contiguous_ok E readbuf = true ->
  is_error_response readbuf = true ->
  3 <= MYSQL_GET_PAYLOAD_LEN (GWBUF_DATA readbuf) ->
  session (w_dcb w1) = Some s ->
  let errcode := MYSQL_GET_ERRCODE (GWBUF_DATA readbuf) in
  exists w' effects,
    let errbuf :=
      mysql_create_custom_error 1 0
        (String.append
           "Authentication with backend failed. Session will be closed."%string
           (get_detailed_error E
              (mkWorld (w_dcb w1) (w_trace w1 ++ effects) (w_socket w1)))) in
    gw_read_backend_event E w = Some (0, w')
    /\ protocol_auth_state (w_proto w') = MXS_AUTH_STATE_FAILED
    /\ w_trace w'
       = w_trace w1 ++ effects
         ++ [EvHandleError errbuf ERRACT_REPLY_CLIENT; EvFree errbuf]
         ++ (if handleError_succp E errbuf ERRACT_REPLY_CLIENT then []
             else [EvFakeHangup THE_CLIENT_DCB])
         ++ [EvFree readbuf]
    /\ (errcode = ER_HOST_IS_BLOCKED ->
        effects = [EvMainWorkerSetMaintenance])
    /\ (is_access_denied errcode -> effects = [EvRefreshUsers])
    /\ (errcode <> ER_HOST_IS_BLOCKED -> ~ is_access_denied errcode ->
        effects = [])
    /\ error_notifications (w_trace w')
       = error_notifications (w_trace w1) ++ [(errbuf, ERRACT_REPLY_CLIENT)].
Proof.
  intros Hpool Hauth Hread Hcont Herr Hlen Hses errcode.
  unfold gw_read_backend_event. rewrite Hpool. cbn [Z.eqb negb].
  unfold auth_state_of.
  destruct (auth_state_eqb (protocol_auth_state (w_proto w))
                           MXS_AUTH_STATE_COMPLETE) eqn:Hc.
  { apply auth_state_eqb_eq in Hc. contradiction. }
  rewrite Hread. cbn [negb]. unfold gwbuf_make_contiguous. rewrite Hcont.
  unfold read_auth_response. rewrite Herr.
  destruct (handle_error_response_trace readbuf
              (upd_proto (fun p => set_auth_state p MXS_AUTH_STATE_FAILED) w1)
              Hlen)
    as (effects & Hh & Hblocked & Hdenied & Hother).
  rewrite Hh. clear Hh.
  set (w2 := mkWorld _ _ _).
  assert (Hst2 : auth_state_of w2 = MXS_AUTH_STATE_FAILED) by reflexivity.
  rewrite !Hst2. cbn [auth_state_eqb orb].
  assert (Hses2 : session (w_dcb w2) = Some s) by exact Hses.
  unfold gw_reply_on_error.
  destruct (do_handle_error_run E ERRACT_REPLY_CLIENT
              "Authentication with backend failed. Session will be closed."%string
              w2 s Hses2)
    as (w3 & Hrun & _ & _ & Hproto & Htr).
  rewrite Hrun.
  change (get_detailed_error E w2)
    with (get_detailed_error E
            (mkWorld (w_dcb w1) (w_trace w1 ++ effects) (w_socket w1)))
    in Htr.
  cbv zeta in Htr.
  set (errbuf := mysql_create_custom_error 1 0 _) in Htr.
  exists (gwbuf_free (Some readbuf) w3), effects. cbv zeta. fold errbuf.
  split; [reflexivity|].
  split; [unfold w_proto; cbn; rewrite Hproto; reflexivity|].
  assert (Htrace : w_trace (gwbuf_free (Some readbuf) w3)
                   = w_trace w1 ++ effects
                     ++ [EvHandleError errbuf ERRACT_REPLY_CLIENT;
                         EvFree errbuf]
                     ++ (if handleError_succp E errbuf ERRACT_REPLY_CLIENT
                         then [] else [EvFakeHangup THE_CLIENT_DCB])
                     ++ [EvFree readbuf]).
  { cbn. rewrite Htr. cbn. rewrite <- !app_assoc. reflexivity. }
  split; [exact Htrace|].
  split; [exact Hblocked|]. split; [exact Hdenied|]. split; [exact Hother|].
  rewrite Htrace, !error_notifications_app. f_equal.
  assert (Heff : error_notifications effects = []).
  { destruct (Z.eq_dec errcode ER_HOST_IS_BLOCKED) as [H1|H1].
    - rewrite (Hblocked H1). reflexivity.
    - destruct (Z.eq_dec errcode ER_ACCESS_DENIED_ERROR) as [H2|H2];
        [rewrite Hdenied by (left; exact H2); reflexivity|].
      destruct (Z.eq_dec errcode ER_DBACCESS_DENIED_ERROR) as [H3|H3];
        [rewrite Hdenied by (right; left; exact H3); reflexivity|].
      destruct (Z.eq_dec errcode ER_ACCESS_DENIED_NO_PASSWORD_ERROR)
        as [H4|H4];
        [rewrite Hdenied by (right; right; exact H4); reflexivity|].
      rewrite Hother; [reflexivity | exact H1 |].
      intros [H|[H|H]]; contradiction. }
  rewrite Heff.
  destruct (handleError_succp E errbuf ERRACT_REPLY_CLIENT); reflexivity.
Qed.

Lemma auth_error_response_handling_witness :
  exists w',
    gw_read_backend_event sample_env blocked_host_world = Some (0, w')
    /\ protocol_auth_state (w_proto w') = MXS_AUTH_STATE_FAILED
    /\ w_trace w'
       = [EvMainWorkerSetMaintenance;
          EvHandleError
            (mysql_create_custom_error 1 0
               "Authentication with backend failed. Session will be closed."%string)
            ERRACT_REPLY_CLIENT;
          EvFree
            (mysql_create_custom_error 1 0
               "Authentication with backend failed. Session will be closed."%string);
          EvFree (mkGWBUF (err_packet 0 ER_HOST_IS_BLOCKED) [])].
Proof.
  destruct (auth_error_response_handling sample_env blocked_host_world
              (snd (read_complete_packet blocked_host_world))
              (mkGWBUF (err_packet 0 ER_HOST_IS_BLOCKED) [])
              (sample_session caps_stmt))
    as (w' & effects & Hrun & Hst & Htr & Hblocked & _).
  - reflexivity.
  - vm_compute. discriminate.
  - reflexivity.
  - reflexivity.
  - reflexivity.
  - vm_compute. discriminate.
  - reflexivity.
  - exists w'. split; [exact Hrun|]. split; [exact Hst|].
    rewrite Htr, (Hblocked eq_refl). reflexivity.
Defined.

(* ------------------------------------------------------------------ *)
(** ** Framing *)
(* ------------------------------------------------------------------ *)

Lemma byte_at_app (p r : list uint8) (i : nat) :
  (i < length p)%nat -> byte_at (p ++ r) i = byte_at p i.
Proof. intros H. unfold byte_at. apply app_nth1. exact H. Qed.

Lemma packet_len_app (p r : list uint8) :
  (MYSQL_HEADER_LEN <= length p)%nat ->
  MYSQL_GET_PACKET_LEN (p ++ r) = MYSQL_GET_PACKET_LEN p.
Proof.
  unfold MYSQL_HEADER_LEN. intros H.
  unfold MYSQL_GET_PACKET_LEN, MYSQL_GET_PAYLOAD_LEN, gw_mysql_get_byte3.
  rewrite !byte_at_app by lia. reflexivity.
Qed.

Lemma whole_packet_spec (p : list uint8) :
  is_whole_packet p = true ->
  (MYSQL_HEADER_LEN <= length p)%nat /\ MYSQL_GET_PACKET_LEN p = length p.
Proof.
  unfold is_whole_packet. intros H. apply andb_true_iff in H.
  destruct H as [H1 H2]. apply Nat.leb_le in H1. apply Nat.eqb_eq in H2.
  auto.
Qed.

Lemma whole_packet_head (p r : list uint8) :
  is_whole_packet p = true ->
  has_complete_packet (p ++ r) = true
  /\ MYSQL_GET_PACKET_LEN (p ++ r) = length p.
Proof.
  intros H. destruct (whole_packet_spec p H) as [H4 Hlen].
  assert (Hl : MYSQL_GET_PACKET_LEN (p ++ r) = length p)
    by (rewrite packet_len_app by exact H4; exact Hlen).
  split; [|exact Hl].
  unfold has_complete_packet. rewrite Hl, length_app.
  apply andb_true_iff. split; apply Nat.leb_le; lia.
Qed.

Lemma whole_packet_not_nil (p : list uint8) :
  is_whole_packet p = true -> p <> [].
Proof.
  intros H. destruct (whole_packet_spec p H) as [H4 _].
  unfold MYSQL_HEADER_LEN in H4. destruct p; [simpl in H4; lia|discriminate].
Qed.

Lemma firstn_app_exact {A} (p r : list A) : firstn (length p) (p ++ r) = p.
Proof.
  rewrite firstn_app, firstn_all, Nat.sub_diag. simpl. apply app_nil_r.
Qed.

Lemma skipn_app_exact {A} (p r : list A) : skipn (length p) (p ++ r) = r.
Proof.
  rewrite skipn_app, skipn_all, Nat.sub_diag. reflexivity.
Qed.

(** Taking the next packet off a buffer that starts with a whole packet. *)
Lemma get_next_packet_head (p r : list uint8) (t : list gwbuf_type_t) :
  is_whole_packet p = true ->
  modutil_get_next_MySQL_packet (Some (mkGWBUF (p ++ r) t))
  = (Some (mkGWBUF p t), mk_buf r t).
Proof.
  intros H. destruct (whole_packet_head p r H) as [Hc Hl].
  unfold modutil_get_next_MySQL_packet, gwbuf_split. cbn [gwbuf_data gwbuf_type].
  rewrite Hc, Hl, firstn_app_exact, skipn_app_exact. reflexivity.
Qed.

Lemma complete_packets_len_concat (ps : list (list uint8))
  (residue : list uint8) (fuel : nat) :
  forallb is_whole_packet ps = true ->
  has_complete_packet residue = false ->
  (length ps <= fuel)%nat ->
  complete_packets_len fuel (concat ps ++ residue) = length (concat ps).
Proof.
  intros Hwf Hres. revert fuel.
  induction ps as [|p ps IH]; intros fuel Hf.
  - simpl. destruct fuel; [reflexivity|]. simpl. rewrite Hres. reflexivity.
  - simpl in Hwf. apply andb_true_iff in Hwf. destruct Hwf as [Hp Hps].
    destruct fuel as [|fuel]; [simpl in Hf; lia|].
    cbn [concat complete_packets_len]. rewrite <- app_assoc.
    destruct (whole_packet_head p (concat ps ++ residue) Hp) as [Hc Hl].
    rewrite Hc, Hl, skipn_app_exact, length_app.
    rewrite (IH Hps) by (simpl in Hf; lia). reflexivity.
Qed.

Lemma concat_whole_packets_length (ps : list (list uint8)) :
  forallb is_whole_packet ps = true ->
  (4 * length ps <= length (concat ps))%nat.
Proof.
  induction ps as [|p ps IH]; intros Hwf; [simpl; lia|].
  simpl in Hwf. apply andb_true_iff in Hwf. destruct Hwf as [Hp Hps].
  destruct (whole_packet_spec p Hp) as [H4 _]. unfold MYSQL_HEADER_LEN in H4.
  cbn [concat length]. rewrite length_app. specialize (IH Hps). lia.
Qed.

Lemma mk_buf_not_nil (d : list uint8) (t : list gwbuf_type_t) :
  d <> [] -> mk_buf d t = Some (mkGWBUF d t).
Proof. destruct d; [contradiction|reflexivity]. Qed.

(** Splitting the complete packets off what was read. *)
Lemma get_complete_packets_concat (ps : list (list uint8))
  (residue : list uint8) (t : list gwbuf_type_t) :
  ps <> [] ->
  forallb is_whole_packet ps = true ->
  has_complete_packet residue = false ->
  modutil_get_complete_packets (Some (mkGWBUF (concat ps ++ residue) t))
  = (Some (mkGWBUF (concat ps) t), mk_buf residue t).
Proof.
  intros Hne Hwf Hres.
  pose proof (concat_whole_packets_length ps Hwf) as Hlen.
  assert (Hps : (1 <= length ps)%nat)
    by (destruct ps; [contradiction|simpl; lia]).
  unfold modutil_get_complete_packets. cbn [gwbuf_data gwbuf_type].
  destruct (Nat.ltb_spec (length (concat ps ++ residue)) 3) as [H3|_];
    [rewrite length_app in H3; lia|].
  rewrite complete_packets_len_concat
    by (try assumption; rewrite length_app; lia).
  destruct residue as [|b residue].
  - rewrite app_nil_r, Nat.eqb_refl. reflexivity.
  - destruct (Nat.eqb_spec (length (concat ps))
                           (length (concat ps ++ b :: residue))) as [He|_];
      [rewrite length_app in He; simpl in He; lia|].
    destruct (Nat.eqb_spec (length (concat ps)) 0) as [H0|_]; [lia|].
    unfold gwbuf_split. cbn [gwbuf_data gwbuf_type].
    rewrite firstn_app_exact, skipn_app_exact. reflexivity.
Qed.

Lemma last_cons {A} (q : A) (qs : list A) (d : A) :
  last (q :: qs) d = last qs q.
Proof.
  revert q d. induction qs as [|a qs IH]; intros q d; [reflexivity|].
  change (last (q :: a :: qs) d) with (last (a :: qs) d).
  rewrite (IH a d), (IH a q). reflexivity.
Qed.

(** The skipping loop of the drain ends on the last packet, having freed
    the ones before it. *)
Lemma skip_to_last_packet_concat (qs : list (list uint8)) (p0 : list uint8)
  (t : list gwbuf_type_t) (fuel : nat) (w : World) :
  forallb is_whole_packet qs = true ->
  (length qs <= fuel)%nat ->
  skip_to_last_packet fuel (Some (mkGWBUF p0 t)) (mk_buf (concat qs) t) w
  = Some (Some (mkGWBUF (last qs p0) t),
          free_all (map (fun p => mkGWBUF p t) (removelast (p0 :: qs))) w).
Proof.
  revert p0 fuel w. induction qs as [|q qs IH]; intros p0 fuel w Hwf Hf.
  - destruct w. unfold free_all. destruct fuel; cbn; rewrite app_nil_r;
      reflexivity.
  - simpl in Hwf. apply andb_true_iff in Hwf. destruct Hwf as [Hq Hqs].
    destruct fuel as [|fuel]; [simpl in Hf; lia|].
    cbn [concat]. rewrite mk_buf_not_nil.
    2:{ pose proof (whole_packet_not_nil q Hq). destruct q;
        [contradiction|discriminate]. }
    cbn [skip_to_last_packet]. rewrite (get_next_packet_head q _ t Hq).
    rewrite (IH q fuel) by (try assumption; simpl in Hf; lia).
    f_equal. f_equal.
    + rewrite last_cons. reflexivity.
    + destruct w as [d tr sk]. unfold free_all, gwbuf_free, emit.
      cbn [w_dcb w_trace w_socket]. f_equal.
      rewrite <- app_assoc. reflexivity.
Qed.

Lemma concat_snoc {A} (ps : list (list A)) (p : list A) :
  concat (ps ++ [p]) = concat ps ++ p.
Proof. rewrite concat_app. simpl. rewrite app_nil_r. reflexivity. Qed.

Lemma read_frame_and_collect_goes_on (E : Env) (caps : capabilities_t)
  (qs : list (list uint8)) (residue : list uint8) (t : list gwbuf_type_t)
  (w : World) :
  qs <> [] ->
  forallb is_whole_packet qs = true ->
  has_complete_packet residue = false ->
  0 < ignore_replies (w_proto w) ->
  gwbuf_make_contiguous_ok E (mkGWBUF (concat qs) t) = true ->
  collection_defers E (w_proto w) caps (mkGWBUF (concat qs) t) = false ->
  read_frame_and_collect E caps (mkGWBUF (concat qs ++ residue) t) w
  = Continue (mkGWBUF (concat qs) t, collecting_resultset (w_proto w) caps)
      (let w1 := dcb_readq_set (mk_buf residue t) w in
       let w2 :=
         if rcap_type_required caps RCAP_TYPE_SESSION_STATE_TRACKING
            && negb (expecting_ps_response (w_proto w))
            && track_state (w_proto w)
         then emit (EvSessionTrackInfo (mkGWBUF (concat qs) t)) w1
         else w1 in
       if collecting_resultset (w_proto w) caps
       then upd_proto (fun p => set_collect_result p false) w2
       else w2).
Proof.
  intros Hne Hwf Hres Hign Hcont Hdef.
  assert (Hnz : negb (ignore_replies (w_proto w) =? 0) = true).
  { destruct (Z.eqb_spec (ignore_replies (w_proto w)) 0); [lia|reflexivity]. }
  unfold read_frame_and_collect.
  rewrite Hnz, !orb_true_r.
  rewrite (get_complete_packets_concat qs residue t Hne Hwf Hres).
  unfold gwbuf_make_contiguous. rewrite Hcont.
  unfold collection_defers in Hdef. cbv zeta.
  destruct (collecting_resultset (w_proto w) caps); [|reflexivity].
  cbn [andb] in Hdef.
  destruct (expecting_text_result (w_proto w)).
  - rewrite Hdef. reflexivity.
  - rewrite Hdef. reflexivity.
Qed.

Lemma readq_bytes_old (d : DCB) :
  gwbuf_data (match readq d with Some q => q | None => mkGWBUF [] [] end)
  = readq_bytes d.
Proof. unfold readq_bytes. destruct (readq d); reflexivity. Qed.

Lemma readq_tags_old (d : DCB) :
  gwbuf_type (match readq d with Some q => q | None => mkGWBUF [] [] end)
  = readq_tags d.
Proof. unfold readq_tags. destruct (readq d); reflexivity. Qed.

(** The drain proper: skip to the last packet and decide on it. *)
Lemma read_ignore_replies_concat (E : Env) (ps : list (list uint8))
  (plast : list uint8) (t : list gwbuf_type_t) (w : World) :
  forallb is_whole_packet (ps ++ [plast]) = true ->
  read_ignore_replies E (mkGWBUF (concat ps ++ plast) t) w
  = ignored_reply_outcome E (stored_query (w_proto w)) (mkGWBUF plast t)
      (free_all (map (fun p => mkGWBUF p t) ps)
         (upd_proto (fun p => set_ignore_replies p (ignore_replies p - 1))
            (upd_proto (fun p => set_stored_query p None) w))).
Proof.
  intros Hwf.
  pose proof (concat_whole_packets_length _ Hwf) as Hlen.
  rewrite <- concat_snoc.
  assert (Hlast : forall d, last (ps ++ [plast]) d = plast)
    by (intros d; apply last_last).
  assert (Hrem : removelast (ps ++ [plast]) = ps) by apply removelast_last.
  destruct (ps ++ [plast]) as [|q1 qs'] eqn:Eqs;
    [destruct ps; discriminate|].
  simpl in Hwf. apply andb_true_iff in Hwf. destruct Hwf as [Hq1 Hqs'].
  unfold read_ignore_replies.
  cbn [concat]. rewrite (get_next_packet_head q1 (concat qs') t Hq1).
  rewrite skip_to_last_packet_concat.
  2:{ exact Hqs'. }
  2:{ unfold gwbuf_length. cbn [gwbuf_data]. cbn [concat length] in Hlen.
      lia. }
  rewrite <- (last_cons q1 qs' []), Hlast, Hrem. reflexivity.
Qed.

(** A read with ignore-replies above zero that delivers the whole packets
    [ps] and [plast] reaches the decision on [plast]. *)
Lemma read_reaches_decision (E : Env) (w : World) (s : MXS_SESSION)
  (bs : list uint8) (ps : list (list uint8)) (plast residue : list uint8) :
  session (w_dcb w) = Some s ->
  w_socket w = SockBytes bs ->
  readq_bytes (w_dcb w) ++ bs = concat ps ++ plast ++ residue ->
  forallb is_whole_packet (ps ++ [plast]) = true ->
  has_complete_packet residue = false ->
  0 < ignore_replies (w_proto w) ->
  changing_user (w_proto w) = false ->
  let t := readq_tags (w_dcb w) in
  let complete := mkGWBUF (concat ps ++ plast) t in
  gwbuf_make_contiguous_ok E complete = true ->
  collection_defers E (w_proto w) (service_capabilities s) complete = false ->
  gw_read_and_write E w
  = ignored_reply_outcome E (stored_query (w_proto w)) (mkGWBUF plast t)
      (drained_world w (service_capabilities s) complete (mk_buf residue t)
         (map (fun p => mkGWBUF p t) ps)).
Proof.
  intros Hses Hsock Hin Hwf Hres Hign Hcu t complete Hcont Hdef.
  assert (Hqs : concat (ps ++ [plast]) = concat ps ++ plast)
    by apply concat_snoc.
  assert (Hne : ps ++ [plast] <> []) by (destruct ps; discriminate).
  pose proof (concat_whole_packets_length _ Hwf) as Hlen.
  assert (Hqlen : (1 <= length (ps ++ [plast]))%nat)
    by (rewrite length_app; simpl; lia).
  unfold gw_read_and_write. rewrite Hses.
  unfold dcb_read. rewrite Hsock.
  rewrite readq_bytes_old, readq_tags_old, Hin. fold t.
  rewrite app_assoc, <- Hqs.
  rewrite mk_buf_not_nil
    by (intros H; apply (f_equal (@length _)) in H;
        rewrite length_app in H; simpl in H; lia).
  destruct (Z.ltb_spec
              (Z.of_nat (length (concat (ps ++ [plast]) ++ residue))) 0)
    as [H|_]; [lia|].
  set (w0 := mkWorld _ _ (SockBytes [])).
  assert (Hp0 : w_proto w0 = w_proto w) by reflexivity.
  rewrite (read_frame_and_collect_goes_on E (service_capabilities s)
             (ps ++ [plast]) residue t w0 Hne Hwf Hres).
  2:{ rewrite Hp0. exact Hign. }
  2:{ rewrite Hqs. exact Hcont. }
  2:{ rewrite Hp0, Hqs. exact Hdef. }
  cbv zeta. rewrite Hp0, Hqs. fold complete.
  set (w2 := if collecting_resultset _ _ then _ else _).
  assert (Hcu2 : changing_user (w_proto w2) = false).
  { unfold w2. destruct (collecting_resultset _ _);
      destruct (_ && _ && _); exact Hcu. }
  assert (Hign2 : ignore_replies (w_proto w2) = ignore_replies (w_proto w)).
  { unfold w2. destruct (collecting_resultset _ _);
      destruct (_ && _ && _); reflexivity. }
  assert (Hsq2 : stored_query (w_proto w2) = stored_query (w_proto w)).
  { unfold w2. destruct (collecting_resultset _ _);
      destruct (_ && _ && _); reflexivity. }
  unfold read_changing_user. rewrite Hcu2, Hign2.
  destruct (Z.ltb_spec 0 (ignore_replies (w_proto w))) as [_|H]; [|lia].
  unfold complete. rewrite (read_ignore_replies_concat E ps plast t w2 Hwf).
  rewrite Hsq2. f_equal.
  unfold drained_world, free_all, w2, w0. fold complete.
  destruct w as [d tr sk]. unfold w_proto. cbn [w_dcb w_trace w_socket].
  destruct (collecting_resultset (protocol d) (service_capabilities s));
    destruct (_ && _ && _); cbn; rewrite <- ?app_assoc; reflexivity.
Qed.

Lemma socket_writes_frees (l : list GWBUF) : socket_writes (map EvFree l) = [].
Proof. induction l; simpl; auto. Qed.

Lemma client_replies_frees (l : list GWBUF) :
  client_replies (map EvFree l) = [].
Proof. induction l; simpl; auto. Qed.

Ltac break_write :=
  repeat match goal with
         | H : Some _ = Some _ |- _ => injection H as <- <-
         | H : None = Some _ |- _ => discriminate H
         | H : context [if ?c then _ else _] |- _ => destruct c
         | H : context [match ?x with _ => _ end] |- _ => destruct x
         end.

(** The write entry point hands nothing to the router's reply call-back. *)
Lemma write_emits_no_client_reply (E : Env) (q : GWBUF) (w w' : World)
  (rc : Z) :
  gw_MySQLWrite_backend E q w = Some (rc, w') ->
  client_replies (w_trace w') = client_replies (w_trace w).
Proof.
  unfold gw_MySQLWrite_backend, dcb_write. intros H.
  destruct w as [d tr sk].
  break_write;
    repeat match goal with
           | |- context [match ?x with Some _ => _ | None => _ end] =>
               destruct x
           | |- context [if ?c then _ else _] => destruct c
           end;
    cbn; rewrite ?client_replies_app; cbn; rewrite ?app_nil_r; reflexivity.
Qed.

Lemma handle_error_response_effects (buffer : GWBUF) (w w' : World) :
  handle_error_response buffer w = Some w' ->
  exists effects,
    w' = mkWorld (w_dcb w) (w_trace w ++ effects) (w_socket w)
    /\ client_replies effects = []
    /\ socket_writes effects = [].
Proof.
  unfold handle_error_response.
  destruct (_ <? 3); [discriminate|].
  destruct (_ =? ER_HOST_IS_BLOCKED);
    [|destruct (_ || _ || _)];
    intros H; injection H as <-;
    [exists [EvMainWorkerSetMaintenance] | exists [EvRefreshUsers]
     | exists []]; (split; [|split; reflexivity]); try reflexivity.
  destruct w; cbn; rewrite app_nil_r; reflexivity.
Qed.

(** The decision on an ignored reply hands nothing upward. *)
Lemma ignored_reply_outcome_no_client_reply (E : Env) (query : option GWBUF)
  (reply : GWBUF) (w w' : World) (rc : Z) :
  ignored_reply_outcome E query reply w = Some (rc, w') ->
  client_replies (w_trace w') = client_replies (w_trace w).
Proof.
  unfold ignored_reply_outcome, handle_auth_change_response.
  destruct (_ =? MYSQL_REPLY_OK).
  - destruct query as [q|].
    + destruct (gw_MySQLWrite_backend E q w) as [[rv w1]|] eqn:Hw;
        [|discriminate].
      intros H. injection H as <- <-.
      apply write_emits_no_client_reply in Hw. rewrite <- Hw.
      cbn. rewrite client_replies_app. cbn. apply app_nil_r.
    + intros H. injection H as <- <-.
      cbn. rewrite client_replies_app. cbn. apply app_nil_r.
  - destruct (auth_change_requested reply).
    + destruct (bytes_eqb _ _); [destruct (native_password_response_ok E reply)|];
        intros H; injection H as <- <-; destruct query; cbn;
        rewrite ?client_replies_app; cbn; rewrite ?app_nil_r; reflexivity.
    + destruct (_ =? MYSQL_REPLY_ERR).
      * destruct (handle_error_response reply w) as [w1|] eqn:Hh;
          [|discriminate].
        destruct (handle_error_response_effects reply w w1 Hh)
          as (fx & -> & Hnone & _).
        intros H; injection H as <- <-. destruct query; cbn;
          rewrite ?client_replies_app, ?Hnone; cbn; rewrite ?app_nil_r;
          reflexivity.
      * intros H; injection H as <- <-. destruct query; cbn;
          rewrite ?client_replies_app; cbn; rewrite ?app_nil_r;
          reflexivity.
Qed.

Lemma prepare_for_write_keeps (d : DCB) (b : GWBUF) :
  stored_query (protocol (prepare_for_write d b)) = stored_query (protocol d)
  /\ ignore_replies (protocol (prepare_for_write d b))
     = ignore_replies (protocol d)
  /\ server (prepare_for_write d b) = server d.
Proof.
  unfold prepare_for_write.
  destruct (session d) as [s|];
    [destruct (rcap_type_required _ _);
     [destruct (negb _ && negb _)
     |destruct (client_dcb s) as [c|]; [destruct (client_protocol c)|]]|];
    destruct (GWBUF_SHOULD_COLLECT_RESULT b); repeat split.
Qed.

(** A write in state COMPLETE with no reply outstanding goes to the
    socket. *)
Lemma write_in_complete_state (E : Env) (q : GWBUF) (w : World) :
  was_persistent (w_dcb w) = false ->
  ignore_replies (w_proto w) = 0 ->
  protocol_auth_state (w_proto w) = MXS_AUTH_STATE_COMPLETE ->
  (mxs_mysql_get_command q =? MXS_COM_QUIT)
  && persistent_conns_enabled (server (w_dcb w)) = false ->
  dcb_write_ok E q = true ->
  exists w',
    gw_MySQLWrite_backend E q w = Some (1, w')
    /\ w_trace w' = w_trace w ++ [EvWrite q]
    /\ stored_query (w_proto w') = stored_query (w_proto w).
Proof.
  intros Hwp Hign Hauth Hquit Hwrite.
  unfold gw_MySQLWrite_backend. rewrite Hwp, Hign, Hauth.
  cbn [Z.ltb Z.compare].
  destruct (prepare_for_write_keeps (w_dcb w) q) as (Hsq & _ & Hsrv).
  assert (Hsrv' : server (w_dcb (upd_dcb (fun d => prepare_for_write d q) w))
                  = server (w_dcb w)) by exact Hsrv.
  rewrite Hsrv', Hquit. unfold dcb_write. rewrite Hwrite.
  eexists. split; [reflexivity|].
  destruct (GWBUF_IS_IGNORABLE q); split; try reflexivity; exact Hsq.
Qed.

Lemma gwbuf_free_dcb (p : option GWBUF) (w : World) :
  w_dcb (gwbuf_free p w) = w_dcb w.
Proof. destruct p; reflexivity. Qed.

Lemma gwbuf_free_trace (p : option GWBUF) (w : World) :
  w_trace (gwbuf_free p w)
  = w_trace w ++ match p with Some q => [EvFree q] | None => [] end.
Proof. destruct p; cbn; rewrite ?app_nil_r; reflexivity. Qed.

(** C2 (as amended).  A read on a backend DCB with ignore-replies n > 0
    and no client COM_CHANGE_USER in progress, which delivers the whole
    packets [ps] followed by a last whole packet that has a command byte,
    and is not put back to wait for a collected result: the packets before
    the last are freed, the
    stored query is taken out and the counter is decremented once, and the
    decision is taken on the last packet.  Nothing is handed upward to the
    router's reply call-back, whatever the last packet is.  If the last
    packet is OK, the stored query (if any) is handed to the write entry
    point; with the counter at 0 on a DCB in state COMPLETE that write goes
    to the socket.  If it is an AUTH-SWITCH to mysql_native_password that the
    module answers, the counter is back at n and the stored query is parked
    again.  Otherwise (AUTH-SWITCH to another plugin or not answered, an
    ERR packet that carries its error code, or an unknown byte) the stored
    query is freed and a fake hangup is raised on the DCB, the counter
    staying at n - 1.  Nothing is said of an ERR packet with a payload of
    fewer than 3 bytes. *)
Theorem ignore_replies_drain (E : Env) (w : World) (s : MXS_SESSION)
  (bs : list uint8) (ps : list (list uint8)) (plast residue : list uint8) :
  session (w_dcb w) = Some s ->
  w_socket w = SockBytes bs ->
  readq_bytes (w_dcb w) ++ bs = concat ps ++ plast ++ residue ->
  forallb is_whole_packet (ps ++ [plast]) = true ->
  (MYSQL_HEADER_LEN < length plast)%nat ->
  has_complete_packet residue = false ->
  0 < ignore_replies (w_proto w) ->
  changing_user (w_proto w) = false ->
  let t := readq_tags (w_dcb w) in
  let complete := mkGWBUF (concat ps ++ plast) t in
  gwbuf_make_contiguous_ok E complete = true ->
  collection_defers E (w_proto w) (service_capabilities s) complete = false ->
  let n := ignore_replies (w_proto w) in
  let query := stored_query (w_proto w) in
  let reply := mkGWBUF plast t in
  let result := MYSQL_GET_COMMAND plast in
  let wd :=
    drained_world w (service_capabilities s) complete (mk_buf residue t)
      (map (fun p => mkGWBUF p t) ps) in
  let switch_to_native :=
    auth_change_requested reply
    && bytes_eqb (c_string_at (skipn 5 plast))
                 (bytes_of_string DEFAULT_MYSQL_AUTH_PLUGIN) in
  let switch_answered :=
    switch_to_native && native_password_response_ok E reply in
  gw_read_and_write E w = ignored_reply_outcome E query reply wd
  /\ ignore_replies (w_proto wd) = n - 1
  /\ stored_query (w_proto wd) = None
  /\ (forall rc w',
        gw_read_and_write E w = Some (rc, w') ->
        client_replies (w_trace w') = client_replies (w_trace w))
  /\ (result = MYSQL_REPLY_OK -> query = None ->
      gw_read_and_write E w = Some (1, gwbuf_free (Some reply) wd))
  /\ (result = MYSQL_REPLY_OK -> forall q, query = Some q ->
      gw_read_and_write E w
      = match gw_MySQLWrite_backend E q wd with
        | Some (rv, w1) => Some (rv, gwbuf_free (Some reply) w1)
        | None => None
        end)
  /\ (result = MYSQL_REPLY_OK -> forall q, query = Some q ->
      n = 1 ->
      was_persistent (w_dcb w) = false ->
      protocol_auth_state (w_proto w) = MXS_AUTH_STATE_COMPLETE ->
      (mxs_mysql_get_command q =? MXS_COM_QUIT)
      && persistent_conns_enabled (server (w_dcb w)) = false ->
      dcb_write_ok E q = true ->
      exists w',
        gw_read_and_write E w = Some (1, w')
        /\ socket_writes (w_trace w') = socket_writes (w_trace w) ++ [q]
        /\ stored_query (w_proto w') = None)
  /\ (result <> MYSQL_REPLY_OK -> switch_answered = true ->
      exists w',
        gw_read_and_write E w = Some (0, w')
        /\ ignore_replies (w_proto w') = n
        /\ stored_query (w_proto w') = query
        /\ w_trace w'
           = w_trace wd ++ [EvNativePasswordResponse reply; EvFree reply])
  /\ (result <> MYSQL_REPLY_OK -> switch_answered = false ->
      (result = MYSQL_REPLY_ERR -> 3 <= MYSQL_GET_PAYLOAD_LEN plast) ->
      exists w' effects,
        gw_read_and_write E w = Some (0, w')
        /\ ignore_replies (w_proto w') = n - 1
        /\ stored_query (w_proto w') = None
        /\ w_trace w'
           = w_trace wd ++ effects
             ++ match query with Some q => [EvFree q] | None => [] end
             ++ [EvFakeHangup THE_BACKEND_DCB; EvFree reply]
        /\ (result <> MYSQL_REPLY_ERR -> switch_to_native = false ->
            effects = [])
        /\ (switch_to_native = true ->
            effects = [EvNativePasswordResponse reply])).
Proof.
  intros Hses Hsock Hin Hwf Hcmd Hres Hign Hcu t complete Hcont Hdef
    n query reply result wd switch_to_native switch_answered.
  assert (Hrun : gw_read_and_write E w
                 = ignored_reply_outcome E query reply wd)
    by (apply (read_reaches_decision E w s bs ps plast residue);
        assumption).
  assert (Hn : ignore_replies (w_proto wd) = n - 1)
    by (unfold wd, drained_world, w_proto;
        destruct (collecting_resultset _ _); reflexivity).
  assert (Hsq : stored_query (w_proto wd) = None)
    by (unfold wd, drained_world, w_proto;
        destruct (collecting_resultset _ _); reflexivity).
  assert (Htrd : client_replies (w_trace wd) = client_replies (w_trace w)).
  { unfold wd, drained_world. cbn [w_trace].
    rewrite !client_replies_app, client_replies_frees.
    destruct (rcap_type_required _ RCAP_TYPE_SESSION_STATE_TRACKING && _ && _);
      cbn; rewrite ?app_nil_r; reflexivity. }
  assert (Hswd : socket_writes (w_trace wd) = socket_writes (w_trace w)).
  { unfold wd, drained_world. cbn [w_trace].
    rewrite !socket_writes_app, socket_writes_frees.
    destruct (rcap_type_required _ RCAP_TYPE_SESSION_STATE_TRACKING && _ && _);
      cbn; rewrite ?app_nil_r; reflexivity. }
  assert (Hwd : was_persistent (w_dcb wd) = was_persistent (w_dcb w)
                /\ protocol_auth_state (w_proto wd)
                   = protocol_auth_state (w_proto w)
                /\ server (w_dcb wd) = server (w_dcb w)).
  { unfold wd, drained_world, w_proto.
    destruct (collecting_resultset _ _); cbn; auto. }
  split; [exact Hrun|]. split; [exact Hn|]. split; [exact Hsq|].
  rewrite Hrun. clearbody wd.
  split.
  { intros rc w' H.
    rewrite (ignored_reply_outcome_no_client_reply E query reply wd w' rc H).
    exact Htrd. }
  unfold ignored_reply_outcome.
  change (MYSQL_GET_COMMAND (GWBUF_DATA reply)) with result.
  split; [|split; [|split; [|split]]].
  - intros Hok Hq. rewrite Hok, Hq. reflexivity.
  - intros Hok q Hq. rewrite Hok, Hq. reflexivity.
  - intros Hok q Hq Hn1 Hwp Hauth Hquit Hwrite. rewrite Hok, Hq.
    rewrite Z.eqb_refl.
    destruct Hwd as (Hwp' & Hauth' & Hsrv').
    destruct (write_in_complete_state E q wd) as (w1 & Hw1 & Htr1 & Hsq1).
    { rewrite Hwp'. exact Hwp. }
    { rewrite Hn. lia. }
    { rewrite Hauth'. exact Hauth. }
    { rewrite Hsrv'. exact Hquit. }
    { exact Hwrite. }
    rewrite Hw1. eexists. split; [reflexivity|]. split.
    + cbn. rewrite Htr1, !socket_writes_app, Hswd. cbn.
      rewrite app_nil_r. reflexivity.
    + unfold w_proto in *. cbn. rewrite Hsq1. exact Hsq.
  - intros Hnok Hsw.
    destruct (Z.eqb_spec result MYSQL_REPLY_OK) as [H|_]; [contradiction|].
    unfold switch_answered, switch_to_native in Hsw.
    apply andb_true_iff in Hsw. destruct Hsw as [Hsw Hresp].
    apply andb_true_iff in Hsw. destruct Hsw as [Hreq Hplug].
    rewrite Hreq. unfold handle_auth_change_response.
    change (GWBUF_DATA reply) with plast. rewrite Hplug, Hresp.
    eexists. split; [reflexivity|].
    unfold w_proto in *. cbn. rewrite Hn.
    split; [lia|]. split; [reflexivity|].
    rewrite <- app_assoc. reflexivity.
  - intros Hnok Hsw Hcode.
    destruct (Z.eqb_spec result MYSQL_REPLY_OK) as [H|_]; [contradiction|].
    unfold switch_answered in Hsw.
    unfold handle_auth_change_response.
    change (GWBUF_DATA reply) with plast.
    destruct (auth_change_requested reply) eqn:Hreq.
    + assert (Hresult : result <> MYSQL_REPLY_ERR).
      { unfold auth_change_requested in Hreq.
        apply andb_true_iff in Hreq. destruct Hreq as [Hc _].
        apply Z.eqb_eq in Hc. change (mxs_mysql_get_command reply)
          with result in Hc. rewrite Hc. discriminate. }
      unfold switch_to_native in *. cbn [andb] in *.
      destruct (bytes_eqb _ _) eqn:Hplug.
      * cbn [andb] in Hsw. rewrite Hsw.
        eexists _, [EvNativePasswordResponse reply].
        split; [reflexivity|].
        unfold w_proto in *.
        cbn [gwbuf_free poll_fake_hangup_event emit w_dcb w_trace].
        rewrite gwbuf_free_dcb, gwbuf_free_trace.
        cbn [emit w_dcb w_trace].
        split; [exact Hn|]. split; [exact Hsq|].
        split; [|split; [discriminate|reflexivity]].
        repeat rewrite <- app_assoc. reflexivity.
      * eexists _, [].
        split; [reflexivity|].
        unfold w_proto in *.
        cbn [gwbuf_free poll_fake_hangup_event emit w_dcb w_trace].
        rewrite gwbuf_free_dcb, gwbuf_free_trace.
        split; [exact Hn|]. split; [exact Hsq|].
        split; [|split; [reflexivity|discriminate]].
        repeat rewrite <- app_assoc. reflexivity.
    + unfold switch_to_native. cbn [andb].
      destruct (Z.eqb_spec result MYSQL_REPLY_ERR) as [He|He].
      * destruct (handle_error_response_trace reply wd (Hcode He))
          as (fx & Hfx & _).
        rewrite Hfx. eexists _, fx. split; [reflexivity|].
        unfold w_proto in *.
        cbn [gwbuf_free poll_fake_hangup_event emit w_dcb w_trace].
        rewrite gwbuf_free_dcb, gwbuf_free_trace.
        cbn [w_dcb w_trace].
        split; [exact Hn|]. split; [exact Hsq|].
        split; [|split; [contradiction|discriminate]].
        repeat rewrite <- app_assoc. reflexivity.
      * eexists _, []. split; [reflexivity|].
        unfold w_proto in *.
        cbn [gwbuf_free poll_fake_hangup_event emit w_dcb w_trace].
        rewrite gwbuf_free_dcb, gwbuf_free_trace.
        split; [exact Hn|]. split; [exact Hsq|].
        split; [|split; [reflexivity|discriminate]].
        repeat rewrite <- app_assoc. reflexivity.
Qed.

Lemma ignore_replies_drain_witness :
  0 < ignore_replies
        (w_proto (awaiting_world (Some show_databases)
                    (ok_reply ++ ok_reply ++ [1; 0])))
  /\ forallb is_whole_packet ([ok_reply] ++ [ok_reply]) = true
  /\ has_complete_packet [1; 0] = false
  /\ exists w',
       gw_read_and_write sample_env
         (awaiting_world (Some show_databases)
            (ok_reply ++ ok_reply ++ [1; 0]))
       = Some (1, w')
       /\ socket_writes (w_trace w') = [show_databases]
       /\ stored_query (w_proto w') = None.
Proof.
  split; [reflexivity|]. split; [reflexivity|]. split; [reflexivity|].
  destruct (ignore_replies_drain sample_env
              (awaiting_world (Some show_databases)
                 (ok_reply ++ ok_reply ++ [1; 0]))
              (sample_session caps_stmt)
              (ok_reply ++ ok_reply ++ [1; 0]) [ok_reply] ok_reply [1; 0]
              eq_refl eq_refl eq_refl eq_refl ltac:(vm_compute; lia)
              eq_refl eq_refl eq_refl eq_refl eq_refl)
    as (_ & _ & _ & _ & _ & _ & Hwrite & _).
  apply (Hwrite eq_refl show_databases eq_refl eq_refl eq_refl eq_refl
           eq_refl eq_refl).
Defined.

(** C2, counterexample.  A DCB with ignore-replies 1 and no parked query
    reads one OK packet, the reply to its COM_CHANGE_USER: the counter goes
    from 1 to 0 in this read and no packet is handed upward. *)
Lemma ignore_replies_drain_emits_nothing_counterexample :
  ignore_replies (w_proto (awaiting_world None ok_reply)) = 1
  /\ exists w',
       gw_read_and_write sample_env (awaiting_world None ok_reply)
       = Some (1, w')
       /\ ignore_replies (w_proto w') = 0
       /\ client_replies (w_trace w') = [].
Proof.
  split; [reflexivity|].
  eexists. split; [reflexivity|]. split; reflexivity.
Qed.

(* ------------------------------------------------------------------ *)
(** ** Hangup and error events *)
(* ------------------------------------------------------------------ *)

Lemma dcb_state_eqb_eq (a b : dcb_state_t) :
  dcb_state_eqb a b = true <-> a = b.
Proof. destruct a, b; simpl; split; congruence. Qed.

Lemma lost_connection_run (E : Env) (errmsg : String.string) (w : World)
  (s : MXS_SESSION) :
  session (w_dcb w) = Some s ->
  exists w1 errbuf,
    do_handle_error E ERRACT_NEW_CONNECTION errmsg w = Some w1
    /\ error_notifications (w_trace w1)
       = error_notifications (w_trace w) ++ [(errbuf, ERRACT_NEW_CONNECTION)]
    /\ socket_writes (w_trace w1) = socket_writes (w_trace w)
    /\ client_replies (w_trace w1) = client_replies (w_trace w)
    /\ protocol (w_dcb w1) = protocol (w_dcb w).
Proof.
  intros Hs.
  destruct (do_handle_error_run E ERRACT_NEW_CONNECTION errmsg w s Hs)
    as (w1 & Hrun & _ & _ & Hp & Htr).
  exists w1. eexists. split; [exact Hrun|].
  rewrite Htr, error_notifications_app, socket_writes_app,
    client_replies_app.
  cbv zeta.
  destruct (handleError_succp E _ _); cbn; rewrite ?app_nil_r; auto.
Qed.

(** X1.  A hangup on a backend DCB always returns 1.  On a DCB in the
    persistent pool it does nothing at all, whether or not the DCB has a
    session.  On a DCB of a session it notifies the router's error handler,
    once and with the action NEW_CONNECTION, exactly when the session is in
    the state STARTED, whatever the state of the DCB; in any other session
    state nothing changes.  It writes nothing to the socket. *)
Theorem backend_hangup_notifies_started_session (E : Env) (w : World) :
  (persistentstart (w_dcb w) <> 0 -> gw_backend_hangup E w = Some (1, w))
  /\ (forall s,
        persistentstart (w_dcb w) = 0 ->
        session (w_dcb w) = Some s ->
        exists w1,
          gw_backend_hangup E w = Some (1, w1)
          /\ socket_writes (w_trace w1) = socket_writes (w_trace w)
          /\ if session_state_is_started (ses_state s)
             then exists errbuf,
                 error_notifications (w_trace w1)
                 = error_notifications (w_trace w)
                   ++ [(errbuf, ERRACT_NEW_CONNECTION)]
             else w1 = w).
Proof.
  unfold gw_backend_hangup. split.
  - intros Hp. apply Z.eqb_neq in Hp. rewrite Hp. reflexivity.
  - intros s Hp Hs. rewrite Hp, Hs. cbn [Z.eqb].
    destruct (session_state_is_started (ses_state s)); cbn [negb].
    + destruct (lost_connection_run E
                  "Lost connection to backend server: connection closed by peer"%string
                  w s Hs)
        as (w1 & errbuf & Hrun & Hn & Hw & _).
      rewrite Hrun. exists w1. repeat split; eauto.
    + exists w. repeat split.
Qed.

Lemma backend_hangup_notifies_started_session_witness :
  exists w1,
    gw_backend_hangup sample_env (sample_world caps_stmt []) = Some (1, w1)
    /\ length (error_notifications (w_trace w1)) = 1%nat.
Proof.
  destruct (proj2 (backend_hangup_notifies_started_session sample_env
                     (sample_world caps_stmt []))
              (sample_session caps_stmt) eq_refl eq_refl)
    as (w1 & Hrun & _ & Hn).
  exists w1. split; [exact Hrun|].
  cbn in Hn. destruct Hn as (errbuf & ->). reflexivity.
Defined.

(** X2.  An error event on a backend DCB always returns 1 and never writes
    to the socket.  Without a session the DCB is closed and nobody is
    notified.  With a session the DCB is not closed, and the router's error
    handler is notified, once and with the action NEW_CONNECTION, exactly
    when the DCB is in the poll set and the session is in the state STARTED;
    otherwise nothing changes. *)
Theorem error_event_closes_or_notifies (E : Env) (w : World) :
  exists closed w1,
    gw_error_backend_event E w = Some (1, closed, w1)
    /\ closed = is_null (session (w_dcb w))
    /\ socket_writes (w_trace w1) = socket_writes (w_trace w)
    /\ match session (w_dcb w) with
       | None => w1 = w
       | Some s =>
           if dcb_state_eqb (state (w_dcb w)) DCB_STATE_POLLING
              && session_state_is_started (ses_state s)
           then exists errbuf,
               error_notifications (w_trace w1)
               = error_notifications (w_trace w)
                 ++ [(errbuf, ERRACT_NEW_CONNECTION)]
           else w1 = w
       end.
Proof.
  unfold gw_error_backend_event.
  destruct (session (w_dcb w)) as [s|] eqn:Hs.
  - destruct (dcb_state_eqb (state (w_dcb w)) DCB_STATE_POLLING);
      destruct (session_state_is_started (ses_state s)); cbn [negb orb andb];
      try (exists false, w; repeat split; fail).
    destruct (lost_connection_run E
                "Lost connection to backend server: network error"%string w s Hs)
      as (w1 & errbuf & Hrun & Hn & Hw & _).
    rewrite Hrun. exists false, w1. repeat split; eauto.
  - exists true, w. repeat split.
Qed.

(* ------------------------------------------------------------------ *)
(** ** The proxy-protocol header *)
(* ------------------------------------------------------------------ *)

Lemma bytes_of_string_length (s : String.string) :
  length (bytes_of_string s) = String.length s.
Proof.
  unfold bytes_of_string. rewrite length_map.
  induction s as [|a s IH]; simpl; [reflexivity|]. now rewrite IH.
Qed.

Lemma proxy_header_text_ip (cli srv : sa_family_t) (a b : AddressInfo) :
  is_ip_family cli = true -> is_ip_family srv = true ->
  proxy_header_text cli srv a b
  = proxy_line cli srv (ai_addr a) (ai_addr b) (ai_port a) (ai_port b).
Proof.
  destruct cli, srv; cbn; intros; try discriminate; reflexivity.
Qed.

Lemma get_ip_string_and_port_success (E : Env) (sa : sockaddr_storage) :
  ai_success (get_ip_string_and_port E sa) = true ->
  is_ip_family (ss_family sa) = true
  /\ exists text,
      sa_ntop sa = inl text
      /\ get_ip_string_and_port E sa
         = mkAddressInfo true text (sa_port sa) String.EmptyString.
Proof.
  unfold get_ip_string_and_port.
  destruct (ss_family sa), (sa_ntop sa); cbn; intros H; try discriminate;
    eauto.
Qed.

(** What a run of [gw_send_proxy_protocol_header] does, for a DCB of a
    session with a client DCB. *)
Lemma proxy_header_run (E : Env) (net : NetView) (w : World)
  (s : MXS_SESSION) (c : CLIENT_DCB) :
  session (w_dcb w) = Some s -> client_dcb s = Some c ->
  exists sent w1,
    gw_send_proxy_protocol_header E net w = Some (sent, w1)
    /\ w_dcb w1 = w_dcb w
    /\ if sent
       then exists srv caddr saddr,
           getpeername_result net = Some srv
           /\ sa_ntop (client_ip net) = inl caddr
           /\ sa_ntop srv = inl saddr
           /\ is_ip_family (ss_family (client_ip net)) = true
           /\ is_ip_family (ss_family srv) = true
           /\ let line :=
                proxy_line (ss_family (client_ip net)) (ss_family srv)
                  caddr saddr (sa_port (client_ip net)) (sa_port srv) in
              (String.length line < PROXY_HEADER_SIZE)%nat
              /\ w_trace w1
                 = w_trace w ++ [EvWrite (mkGWBUF (bytes_of_string line) [])]
       else socket_writes (w_trace w1) = socket_writes (w_trace w).
Proof.
  intros Hs Hc. unfold gw_send_proxy_protocol_header. rewrite Hs, Hc.
  destruct (getpeername_result net) as [srv|];
    [|exists false, w; repeat split].
  destruct (ai_success (get_ip_string_and_port E (client_ip net))) eqn:Hcs;
    [|exists false, w; repeat split].
  destruct (ai_success (get_ip_string_and_port E srv)) eqn:Hss;
    [|exists false, w; repeat split].
  apply get_ip_string_and_port_success in Hcs, Hss.
  destruct Hcs as (Hcf & caddr & Hcn & ->).
  destruct Hss as (Hsf & saddr & Hsn & ->).
  cbn [andb]. rewrite (proxy_header_text_ip _ _ _ _ Hcf Hsf).
  cbn [ai_addr ai_port].
  destruct (Nat.leb_spec PROXY_HEADER_SIZE
              (String.length
                 (proxy_line (ss_family (client_ip net)) (ss_family srv)
                    caddr saddr (sa_port (client_ip net)) (sa_port srv))))
    as [Hlen|Hlen]; [exists false, w; repeat split|].
  destruct (header_alloc_ok net); [|exists false, w; repeat split].
  unfold dcb_write.
  destruct (dcb_write_ok E _); cbn [negb Z.eqb].
  - eexists true, _. split; [reflexivity|]. split; [reflexivity|].
    exists srv, caddr, saddr. repeat split; auto.
  - eexists false, _. split; [reflexivity|]. split; [reflexivity|].
    cbn. rewrite socket_writes_app. cbn. now rewrite app_nil_r.
Qed.

(** X3.  When the proxy-protocol header is reported as sent, exactly one
    buffer was handed to the socket and nothing else happened: the line
    "PROXY TCP4|TCP6 <client address> <server address> <client port>
    <server port>" ended by CR LF, shorter than 108 bytes.  Both peers have
    an IPv4 or IPv6 address; the family is TCP4 when both are IPv4 and TCP6
    otherwise, and with mixed families the IPv4 address is written with the
    prefix ::ffff:. *)
Theorem proxy_header_sent_is_one_line (E : Env) (net : NetView)
  (w w1 : World) :
  gw_send_proxy_protocol_header E net w = Some (true, w1) ->
  exists srv caddr saddr,
    getpeername_result net = Some srv
    /\ sa_ntop (client_ip net) = inl caddr
    /\ sa_ntop srv = inl saddr
    /\ is_ip_family (ss_family (client_ip net)) = true
    /\ is_ip_family (ss_family srv) = true
    /\ let line :=
         proxy_line (ss_family (client_ip net)) (ss_family srv)
           caddr saddr (sa_port (client_ip net)) (sa_port srv) in
       (length (bytes_of_string line) < 108)%nat
       /\ w_trace w1
          = w_trace w ++ [EvWrite (mkGWBUF (bytes_of_string line) [])]
       /\ w_dcb w1 = w_dcb w.
Proof.
  intros H.
  destruct (session (w_dcb w)) as [s|] eqn:Hs;
    [|unfold gw_send_proxy_protocol_header in H; rewrite Hs in H;
      discriminate].
  destruct (client_dcb s) as [c|] eqn:Hc;
    [|unfold gw_send_proxy_protocol_header in H; rewrite Hs, Hc in H;
      discriminate].
  destruct (proxy_header_run E net w s c Hs Hc)
    as (sent & w2 & Hrun & Hd & Hsent).
  rewrite Hrun in H. injection H as -> ->.
  destruct Hsent as (srv & caddr & saddr & H1 & H2 & H3 & H4 & H5 & H6).
  cbv zeta in H6. destruct H6 as [H6 H7].
  exists srv, caddr, saddr. cbv zeta.
  rewrite bytes_of_string_length.
  repeat split; auto.
Qed.

Lemma proxy_header_sent_is_one_line_witness :
  exists w1,
    gw_send_proxy_protocol_header sample_env sample_net6
      (sample_world caps_stmt []) = Some (true, w1)
    /\ w_trace w1
       = [EvWrite
            (mkGWBUF
               (bytes_of_string
                  (String.append
                     "PROXY TCP6 ::ffff:192.0.2.7 2001:db8::2 51000 3306"
                     CRLF)) [])].
Proof.
  eexists. split; [reflexivity|].
  destruct (proxy_header_sent_is_one_line sample_env sample_net6
              (sample_world caps_stmt []) _ eq_refl)
    as (srv & caddr & saddr & H1 & H2 & H3 & _ & _ & _ & Htr & _).
  injection H1 as <-. injection H2 as <-. injection H3 as <-.
  exact Htr.
Defined.

(** X4.  The header is sent only between IPv4 and IPv6 peers.  When the
    address of the client or of the server is of any other family, the call
    reports failure and leaves the DCB and the trace as they were: no
    "PROXY UNKNOWN" line is ever written. *)
Theorem proxy_header_needs_ip_peers (E : Env) (net : NetView) (w : World)
  (s : MXS_SESSION) (c : CLIENT_DCB) (srv : sockaddr_storage) :
  session (w_dcb w) = Some s -> client_dcb s = Some c ->
  getpeername_result net = Some srv ->
  is_ip_family (ss_family (client_ip net))
  && is_ip_family (ss_family srv) = false ->
  gw_send_proxy_protocol_header E net w = Some (false, w).
Proof.
  intros Hs Hc Hp Hfam. unfold gw_send_proxy_protocol_header.
  rewrite Hs, Hc, Hp.
  destruct (ai_success (get_ip_string_and_port E (client_ip net))) eqn:Hcs;
    [|reflexivity].
  destruct (ai_success (get_ip_string_and_port E srv)) eqn:Hss;
    [|reflexivity].
  apply get_ip_string_and_port_success in Hcs, Hss.
  destruct Hcs as (Hcf & _). destruct Hss as (Hsf & _).
  rewrite Hcf, Hsf in Hfam. discriminate.
Qed.

Lemma proxy_header_needs_ip_peers_witness :
  gw_send_proxy_protocol_header sample_env sample_net_unix
    (sample_world caps_stmt [])
  = Some (false, sample_world caps_stmt []).
Proof.
  apply (proxy_header_needs_ip_peers sample_env sample_net_unix
           (sample_world caps_stmt []) (sample_session caps_stmt)
           sample_client sample_unix_addr);
    reflexivity.
Defined.

(* ------------------------------------------------------------------ *)
(** ** The writable event *)
(* ------------------------------------------------------------------ *)

(** X5.  A writable event on a backend DCB that is not in the poll set never
    touches the DCB, the socket or the write queue.  It fails with 0 exactly
    when the write queue holds data, and then sends the client the error
    "Writing to backend failed due invalid Maxscale state." unless the
    queued data is a COM_QUIT; with an empty write queue it returns 1. *)
Theorem write_event_outside_poll_set (E : Env) (net : NetView) (w : World)
  (s : MXS_SESSION) (c : CLIENT_DCB) :
  state (w_dcb w) <> DCB_STATE_POLLING ->
  session (w_dcb w) = Some s -> client_dcb s = Some c ->
  exists rc act,
    gw_write_backend_event E net w = Some (rc, act, w)
    /\ match writeq (w_dcb w) with
       | None => rc = 1 /\ act = WEA_nothing
       | Some q =>
           rc = 0
           /\ act
              = if MYSQL_IS_COM_QUIT E (GWBUF_DATA q) then WEA_nothing
                else WEA_client_error
                       (mysql_create_custom_error 1 0
                          "Writing to backend failed due invalid Maxscale state."%string)
       end.
Proof.
  intros Hst Hs Hc. unfold gw_write_backend_event.
  destruct (dcb_state_eqb (state (w_dcb w)) DCB_STATE_POLLING) eqn:Hp;
    [apply dcb_state_eqb_eq in Hp; contradiction|].
  cbn [negb]. rewrite Hs, Hc.
  destruct (writeq (w_dcb w)) as [q|];
    [destruct (MYSQL_IS_COM_QUIT E (GWBUF_DATA q))|];
    eexists _, _; (split; [reflexivity|]); split; reflexivity.
Qed.

Lemma write_event_outside_poll_set_witness :
  gw_write_backend_event sample_env sample_net
    (upd_dcb (fun d =>
                mkDCB (persistentstart d) (was_persistent d)
                  DCB_STATE_NOPOLLING (readq d) (Some show_databases)
                  (delayq d) (ssl_state d) (dcb_errhandle_called d)
                  (is_fake_event d) (server d) (session d) (protocol d))
       (sample_world caps_stmt []))
  = Some (0,
          WEA_client_error
            (mysql_create_custom_error 1 0
               "Writing to backend failed due invalid Maxscale state."%string),
          upd_dcb (fun d =>
                mkDCB (persistentstart d) (was_persistent d)
                  DCB_STATE_NOPOLLING (readq d) (Some show_databases)
                  (delayq d) (ssl_state d) (dcb_errhandle_called d)
                  (is_fake_event d) (server d) (session d) (protocol d))
            (sample_world caps_stmt [])).
Proof.
  destruct (write_event_outside_poll_set sample_env sample_net
              (upd_dcb (fun d =>
                mkDCB (persistentstart d) (was_persistent d)
                  DCB_STATE_NOPOLLING (readq d) (Some show_databases)
                  (delayq d) (ssl_state d) (dcb_errhandle_called d)
                  (is_fake_event d) (server d) (session d) (protocol d))
                 (sample_world caps_stmt []))
              (sample_session caps_stmt) sample_client)
    as (rc & act & Hrun & Hrc & Hact);
    [discriminate|reflexivity|reflexivity|].
  rewrite Hrun, Hrc, Hact. reflexivity.
Defined.

(** X6.  The writable event that ends a pending connect: on a DCB in the
    poll set whose protocol is in the state PENDING_CONNECT the state
    becomes CONNECTED and the write queue is not drained.  Without the proxy
    protocol the call returns 1 and nothing is written.  With it the call
    returns 1 when the header line, shorter than 108 bytes, was handed to
    the socket as the only write, and 0 when no header could be sent. *)
Theorem write_event_completes_connect (E : Env) (net : NetView) (w : World)
  (s : MXS_SESSION) (c : CLIENT_DCB) :
  state (w_dcb w) = DCB_STATE_POLLING ->
  protocol_auth_state (w_proto w) = MXS_AUTH_STATE_PENDING_CONNECT ->
  session (w_dcb w) = Some s -> client_dcb s = Some c ->
  exists rc w1,
    gw_write_backend_event E net w = Some (rc, WEA_nothing, w1)
    /\ auth_state_of w1 = MXS_AUTH_STATE_CONNECTED
    /\ if proxy_protocol (server (w_dcb w)) then
         (rc = 1
          /\ exists h,
              socket_writes (w_trace w1) = socket_writes (w_trace w) ++ [h]
              /\ (gwbuf_length h < 108)%nat)
         \/ (rc = 0
             /\ socket_writes (w_trace w1) = socket_writes (w_trace w))
       else rc = 1 /\ w_trace w1 = w_trace w.
Proof.
  intros Hst Hauth Hs Hc. unfold gw_write_backend_event.
  rewrite Hst. cbn [dcb_state_eqb negb]. rewrite Hauth.
  set (w0 := upd_proto _ w).
  assert (Hsrv : server (w_dcb w0) = server (w_dcb w)) by reflexivity.
  rewrite Hsrv.
  destruct (proxy_protocol (server (w_dcb w))).
  - destruct (proxy_header_run E net w0 s c Hs Hc)
      as (sent & w1 & Hrun & Hd & Hsent).
    rewrite Hrun. exists (if sent then 1 else 0), w1.
    split; [reflexivity|].
    split; [unfold auth_state_of, w_proto; rewrite Hd; reflexivity|].
    destruct sent.
    + left. split; [reflexivity|].
      destruct Hsent as (srv & caddr & saddr & _ & _ & _ & _ & _ & Hline).
      cbv zeta in Hline. destruct Hline as [Hlen Htr].
      eexists. rewrite Htr, socket_writes_app. split; [reflexivity|].
      unfold gwbuf_length. cbn [gwbuf_data].
      rewrite bytes_of_string_length. exact Hlen.
    + right. split; [reflexivity|exact Hsent].
  - exists 1, w0. repeat split.
Qed.

Lemma write_event_completes_connect_witness :
  exists rc w1,
    gw_write_backend_event sample_env sample_net
      (pending_connect_world proxy_server) = Some (rc, WEA_nothing, w1)
    /\ auth_state_of w1 = MXS_AUTH_STATE_CONNECTED.
Proof.
  destruct (write_event_completes_connect sample_env sample_net
              (pending_connect_world proxy_server)
              (sample_session caps_stmt) sample_client
              eq_refl eq_refl eq_refl eq_refl)
    as (rc & w1 & Hrun & Hauth & _).
  exists rc, w1. split; [exact Hrun|exact Hauth].
Defined.

(* ------------------------------------------------------------------ *)
(** ** Connecting *)
(* ------------------------------------------------------------------ *)

Lemma connect_to_backend_cases (os : ConnectOS) (host : String.string)
  (fd : Z) :
  connect_result os = 0 \/ connect_result os = -1 ->
  exists so opened,
    (so, opened)
    = (if host_is_path host
       then (open_unix_socket_result os, [OsOpenUnixSocket])
       else (open_network_socket_result os, [OsOpenNetworkSocket]))
    /\ ((so = -1
         /\ gw_do_connect_to_backend os host fd = (-1, fd, opened))
        \/ (so <> -1 /\ connect_result os = 0
            /\ gw_do_connect_to_backend os host fd
               = (0, so, opened ++ [OsConnect so]))
        \/ (so <> -1 /\ connect_result os = -1
            /\ errno_is_EINPROGRESS os = true
            /\ gw_do_connect_to_backend os host fd
               = (1, so, opened ++ [OsConnect so]))
        \/ (so <> -1 /\ connect_result os = -1
            /\ errno_is_EINPROGRESS os = false
            /\ gw_do_connect_to_backend os host fd
               = (-1, fd, opened ++ [OsConnect so; OsClose so]))).
Proof.
  intros Hposix. unfold gw_do_connect_to_backend.
  destruct (if host_is_path host then _ else _) as [so opened] eqn:Hopen.
  exists so, opened. split; [reflexivity|].
  destruct (Z.eqb_spec so (-1)) as [->|Hso]; [left; split; reflexivity|].
  right.
  destruct Hposix as [Hc|Hc]; rewrite Hc; cbn [Z.eqb negb andb].
  - left. repeat split; auto.
  - right. destruct (errno_is_EINPROGRESS os); cbn [negb];
      [left|right]; repeat split; auto.
Qed.

(** X7.  Connecting to a backend, when connect() answers 0 or -1 as POSIX
    has it: the result is 0 (connected), 1 (in progress) or -1 (failed).
    With 0 or 1 the descriptor handed back is the socket that was opened,
    which is not -1 and was not closed.  With -1 the descriptor of the
    caller is left as it was, and a socket that was opened has been closed
    again. *)
Theorem connect_to_backend_descriptor (os : ConnectOS) (host : String.string)
  (fd rv fd' : Z) (calls : list os_event) :
  connect_result os = 0 \/ connect_result os = -1 ->
  gw_do_connect_to_backend os host fd = (rv, fd', calls) ->
  (rv = 0 \/ rv = 1 \/ rv = -1)
  /\ (rv <> -1 ->
      fd' <> -1 /\ In (OsConnect fd') calls
      /\ (forall so, ~ In (OsClose so) calls)
      /\ (rv = 0 <-> connect_result os = 0))
  /\ (rv = -1 ->
      fd' = fd
      /\ forall so, In (OsConnect so) calls -> In (OsClose so) calls).
Proof.
  intros Hposix Hrun.
  destruct (connect_to_backend_cases os host fd Hposix)
    as (so & opened & Hopen & Hcases).
  assert (Hop : forall e, In e opened ->
                          e = OsOpenUnixSocket \/ e = OsOpenNetworkSocket).
  { intros e He. destruct (host_is_path host); injection Hopen as _ ->;
      destruct He as [<-|[]]; auto. }
  destruct Hcases as [(Hso & H)|[(Hso & Hc & H)|[(Hso & Hc & He & H)
                                               |(Hso & Hc & He & H)]]];
    rewrite H in Hrun; injection Hrun as <- <- <-.
  - split; [auto|]. split; [intros []; reflexivity|].
    intros _. split; [reflexivity|].
    intros so' Hin. apply Hop in Hin. destruct Hin; discriminate.
  - split; [auto|]. split; [|discriminate].
    intros _. split; [exact Hso|]. split; [apply in_or_app; right; left;
                                           reflexivity|].
    split; [|tauto].
    intros so' Hin. apply in_app_or in Hin.
    destruct Hin as [Hin|[Hin|[]]]; [apply Hop in Hin; destruct Hin|];
      discriminate.
  - split; [auto|]. split; [|discriminate].
    intros _. split; [exact Hso|]. split; [apply in_or_app; right; left;
                                           reflexivity|].
    split; [|split; intros; [discriminate|lia]].
    intros so' Hin. apply in_app_or in Hin.
    destruct Hin as [Hin|[Hin|[]]]; [apply Hop in Hin; destruct Hin|];
      discriminate.
  - split; [auto|]. split; [intros []; reflexivity|].
    intros _. split; [reflexivity|].
    intros so' Hin. apply in_app_or in Hin.
    destruct Hin as [Hin|[Hin|[Hin|[]]]].
    + apply Hop in Hin. destruct Hin; discriminate.
    + injection Hin as <-. apply in_or_app. right. right. left. reflexivity.
    + discriminate.
Qed.

Lemma connect_to_backend_descriptor_witness :
  gw_do_connect_to_backend os_refused "db1.example.org"%string (-1)
  = (-1, -1, [OsOpenNetworkSocket; OsConnect 7; OsClose 7])
  /\ In (OsClose 7) [OsOpenNetworkSocket; OsConnect 7; OsClose 7].
Proof.
  split; [reflexivity|].
  apply (proj2 (proj2 (proj2 (connect_to_backend_descriptor os_refused
                                "db1.example.org"%string (-1) (-1) (-1)
                                [OsOpenNetworkSocket; OsConnect 7; OsClose 7]
                                (or_intror eq_refl) eq_refl)) eq_refl) 7).
  right. left. reflexivity.
Defined.

(** X8.  Creating a backend connection for a session with a client DCB,
    from a fresh protocol object in the state INIT and with connect()
    answering 0 or -1.  If no socket could be opened, the protocol stays in
    INIT, the descriptor returned is -1 and nothing is emitted.  If a
    socket was opened and connect() returned 0, the protocol is CONNECTED
    and the descriptor returned is that socket.  If connect() returned -1
    with the connect in progress, the protocol is PENDING_CONNECT, the
    descriptor returned is that socket and nothing is emitted.  If
    connect() failed otherwise, the protocol stays in INIT, the descriptor
    returned is -1 and nothing is emitted.  The character set of the new
    protocol object is that of the client protocol object, or 8 when the
    client has none.  Something is handed to the socket only after a
    connect that completed at once, to a server with the proxy protocol
    enabled. *)
Theorem create_backend_connection_state (E : Env) (os : ConnectOS)
  (net : NetView) (host : String.string) (fresh : MySQLProtocol)
  (fresh_caps client_caps : CapabilityWords) (default_caps : Z) (w : World)
  (s : MXS_SESSION) (c : CLIENT_DCB) :
  session (w_dcb w) = Some s -> client_dcb s = Some c ->
  protocol_auth_state fresh = MXS_AUTH_STATE_INIT ->
  connect_result os = 0 \/ connect_result os = -1 ->
  let so :=
    if host_is_path host then open_unix_socket_result os
    else open_network_socket_result os in
  exists fd calls caps w1,
    gw_create_backend_connection E os net host (Some fresh) fresh_caps
      client_caps default_caps w = Some (fd, calls, caps, w1)
    /\ (so = -1 ->
        auth_state_of w1 = MXS_AUTH_STATE_INIT
        /\ fd = -1 /\ w_trace w1 = w_trace w)
    /\ (so <> -1 -> connect_result os = 0 ->
        auth_state_of w1 = MXS_AUTH_STATE_CONNECTED /\ fd = so)
    /\ (so <> -1 -> connect_result os = -1 ->
        errno_is_EINPROGRESS os = true ->
        auth_state_of w1 = MXS_AUTH_STATE_PENDING_CONNECT
        /\ fd = so /\ w_trace w1 = w_trace w)
    /\ (so <> -1 -> connect_result os = -1 ->
        errno_is_EINPROGRESS os = false ->
        auth_state_of w1 = MXS_AUTH_STATE_INIT
        /\ fd = -1 /\ w_trace w1 = w_trace w)
    /\ charset (w_proto w1)
       = match client_protocol c with
         | Some client => charset client
         | None => 8
         end
    /\ (socket_writes (w_trace w1) <> socket_writes (w_trace w) ->
        auth_state_of w1 = MXS_AUTH_STATE_CONNECTED
        /\ proxy_protocol (server (w_dcb w)) = true).
Proof.
  intros Hs Hc Hinit Hposix so0. unfold gw_create_backend_connection.
  rewrite Hs, Hc.
  destruct (connect_to_backend_cases os host (-1) Hposix)
    as (so & opened & Hopen & Hcases).
  assert (Hso0 : so = so0).
  { unfold so0. destruct (host_is_path host); injection Hopen as -> _;
      reflexivity. }
  subst so. clearbody so0. clear Hopen.
  set (proto_caps := match client_protocol c with
                     | Some client => _ | None => _ end).
  assert (Hpc : charset (fst proto_caps)
                = match client_protocol c with
                  | Some client => charset client | None => 8 end
                /\ protocol_auth_state (fst proto_caps)
                   = MXS_AUTH_STATE_INIT).
  { subst proto_caps. destruct (client_protocol c); split; cbn; auto. }
  destruct proto_caps as [proto caps]. cbn [fst] in Hpc.
  destruct Hpc as [Hch Hst].
  destruct Hcases as [(Hso & H)|[(Hso & Hcr & H)|[(Hso & Hcr & He & H)
                                                |(Hso & Hcr & He & H)]]];
    rewrite H; cbn [Z.eqb].
  - eexists _, _, _, _. split; [reflexivity|]. cbn.
    split; [auto|]. split; [intros Hn; contradiction|].
    split; [intros Hn; contradiction|]. split; [intros Hn; contradiction|].
    split; [exact Hch|]. intros []; reflexivity.
  - set (w0 := upd_proto _ (upd_dcb _ w)).
    assert (Hsrv : server (w_dcb w0) = server (w_dcb w)) by reflexivity.
    rewrite Hsrv.
    destruct (proxy_protocol (server (w_dcb w))).
    + destruct (proxy_header_run E net w0 s c Hs Hc)
        as (sent & w1 & Hrun & Hd & _).
      rewrite Hrun. eexists _, _, _, _. split; [reflexivity|].
      unfold auth_state_of, w_proto. rewrite Hd. cbn.
      split; [intros Hn; contradiction|]. split; [auto|].
      split; [intros _ Hn; rewrite Hcr in Hn; discriminate|].
      split; [intros _ Hn; rewrite Hcr in Hn; discriminate|].
      split; [exact Hch|auto].
    + eexists _, _, _, _. split; [reflexivity|]. cbn.
      split; [intros Hn; contradiction|]. split; [auto|].
      split; [intros _ Hn; rewrite Hcr in Hn; discriminate|].
      split; [intros _ Hn; rewrite Hcr in Hn; discriminate|].
      split; [exact Hch|]. intros []; reflexivity.
  - eexists _, _, _, _. split; [reflexivity|]. cbn.
    split; [intros Hn; contradiction|].
    split; [intros _ Hn; rewrite Hcr in Hn; discriminate|].
    split; [auto|].
    split; [intros _ _ Hn; rewrite He in Hn; discriminate|].
    split; [exact Hch|]. intros []; reflexivity.
  - eexists _, _, _, _. split; [reflexivity|]. cbn.
    split; [intros Hn; contradiction|].
    split; [intros _ Hn; rewrite Hcr in Hn; discriminate|].
    split; [intros _ _ Hn; rewrite He in Hn; discriminate|].
    split; [auto|].
    split; [exact Hch|]. intros []; reflexivity.
Qed.

Lemma create_backend_connection_state_witness :
  exists fd calls caps w1,
    gw_create_backend_connection sample_env os_in_progress sample_net
      "db1.example.org"%string (Some fresh_protocol) no_capabilities
      no_capabilities 0 (sample_world caps_stmt [])
    = Some (fd, calls, caps, w1)
    /\ auth_state_of w1 = MXS_AUTH_STATE_PENDING_CONNECT
    /\ fd = 7
    /\ charset (w_proto w1) = charset sample_client_protocol.
Proof.
  destruct (create_backend_connection_state sample_env os_in_progress
              sample_net "db1.example.org"%string fresh_protocol
              no_capabilities no_capabilities 0 (sample_world caps_stmt [])
              (sample_session caps_stmt) sample_client
              eq_refl eq_refl eq_refl (or_intror eq_refl))
    as (fd & calls & caps & w1 & Hrun & _ & _ & Hpending & _ & Hch & _).
  destruct (Hpending ltac:(discriminate) eq_refl eq_refl) as (Hst & Hfd & _).
  exists fd, calls, caps, w1.
  split; [exact Hrun|]. split; [exact Hst|]. split; [exact Hfd|exact Hch].
Defined.

(* ------------------------------------------------------------------ *)
(** ** The counter of replies to ignore *)
(* ------------------------------------------------------------------ *)

Lemma prepare_for_write_ignore (d : DCB) (b : GWBUF) :
  ignore_replies (protocol (prepare_for_write d b))
  = ignore_replies (protocol d).
Proof. apply prepare_for_write_keeps. Qed.

Lemma write_keeps_range (E : Env) (q : GWBUF) (w w' : World) (rc : Z) :
  gw_MySQLWrite_backend E q w = Some (rc, w') ->
  ignore_replies_in_range w -> ignore_replies_in_range w'.
Proof.
  unfold ignore_replies_in_range, gw_MySQLWrite_backend, dcb_write, w_proto.
  intros H Hr.
  destruct w as [d tr sk]. cbn [w_dcb] in *.
  destruct (was_persistent d).
  - cbn -[prepare_for_write] in H. break_write;
      repeat match goal with
             | |- context [match ?x with Some _ => _ | None => _ end] =>
                 destruct x
             end; cbn; lia.
  - destruct (Z.ltb_spec 0 (ignore_replies (protocol d))) as [Hpos|Hpos].
    + destruct (MYSQL_IS_COM_QUIT E (GWBUF_DATA q));
        injection H as <- <-; cbn; lia.
    + pose proof (prepare_for_write_ignore d q) as Hk.
      destruct (protocol_auth_state (protocol d));
        cbn -[prepare_for_write] in H;
        repeat match type of H with
               | context [if ?c then _ else _] => destruct c
               | context [match ?x with _ => _ end] => destruct x
               end;
        try discriminate; injection H as <- <-;
        cbn -[prepare_for_write]; rewrite ?Hk; lia.
Qed.


Lemma do_handle_error_protocol (E : Env) (action : mxs_error_action_t)
  (errmsg : String.string) (w w1 : World) :
  do_handle_error E action errmsg w = Some w1 ->
  protocol (w_dcb w1) = protocol (w_dcb w).
Proof.
  unfold do_handle_error.
  destruct (session (w_dcb w)); [|discriminate].
  cbv zeta. destruct (negb _); intros H; injection H as <-; reflexivity.
Qed.

Lemma handle_error_response_dcb (buffer : GWBUF) (w w' : World) :
  handle_error_response buffer w = Some w' -> w_dcb w' = w_dcb w.
Proof.
  intros H.
  destruct (handle_error_response_effects buffer w w' H) as (fx & -> & _).
  reflexivity.
Qed.

Lemma read_frame_and_collect_ignore (E : Env) (caps : capabilities_t)
  (b : GWBUF) (w : World) :
  match read_frame_and_collect E caps b w with
  | Return _ w' | Continue _ w' =>
      ignore_replies (w_proto w') = ignore_replies (w_proto w)
  end.
Proof.
  unfold read_frame_and_collect, gwbuf_make_contiguous.
  repeat match goal with
         | |- context [let '(_, _) := ?x in _] => destruct x
         | |- context [if ?c then _ else _] => destruct c
         | |- context [match ?x with Some _ => _ | None => _ end] =>
             destruct x
         end; reflexivity.
Qed.

Lemma read_changing_user_ignore (E : Env) (b : GWBUF) (w : World) :
  match read_changing_user E b w with
  | Some (Return _ w') | Some (Continue _ w') =>
      ignore_replies (w_proto w') = ignore_replies (w_proto w)
  | None => True
  end.
Proof.
  unfold read_changing_user, handle_auth_change_response.
  destruct (changing_user (w_proto w)); [|reflexivity].
  destruct (auth_change_requested b);
    [destruct (bytes_eqb _ _);
     [destruct (native_password_response_ok E b)|]|];
    cbn -[Nat.ltb]; try reflexivity;
    destruct (gwbuf_length b <? 4)%nat; auto;
    destruct (session (w_dcb w)) as [s|]; cbn; auto;
    destruct (client_dcb s); cbn; auto.
Qed.

Lemma skip_to_last_packet_dcb (fuel : nat) (reply rb : option GWBUF)
  (w : World) (reply' : option GWBUF) (w' : World) :
  skip_to_last_packet fuel reply rb w = Some (reply', w') ->
  w_dcb w' = w_dcb w.
Proof.
  revert reply rb w. induction fuel as [|fuel IH]; intros reply rb w;
    destruct rb as [b|]; cbn [skip_to_last_packet]; intros H;
    try discriminate; try (injection H as _ <-; reflexivity).
  destruct (modutil_get_next_MySQL_packet (Some b)) as [r rest].
  apply IH in H. rewrite H. apply gwbuf_free_dcb.
Qed.

Lemma ignored_reply_outcome_range (E : Env) (query : option GWBUF)
  (reply : GWBUF) (w w' : World) (rc : Z) :
  ignored_reply_outcome E query reply w = Some (rc, w') ->
  ignore_replies (w_proto w) = 0 ->
  ignore_replies_in_range w'.
Proof.
  unfold ignored_reply_outcome, handle_auth_change_response.
  intros H H0.
  assert (Hr : ignore_replies_in_range w)
    by (unfold ignore_replies_in_range; lia).
  destruct (_ =? MYSQL_REPLY_OK).
  - destruct query as [q|].
    + destruct (gw_MySQLWrite_backend E q w) as [[rv w1]|] eqn:Hw;
        [|discriminate].
      injection H as <- <-. apply write_keeps_range in Hw; [|exact Hr].
      exact Hw.
    + injection H as <- <-. exact Hr.
  - unfold ignore_replies_in_range, w_proto in *.
    destruct (auth_change_requested reply).
    + destruct (bytes_eqb _ _);
        [destruct (native_password_response_ok E reply)|];
        injection H as <- <-; rewrite ?gwbuf_free_dcb; cbn;
        rewrite ?gwbuf_free_dcb; cbn; lia.
    + destruct (_ =? MYSQL_REPLY_ERR).
      * destruct (handle_error_response reply w) as [w1|] eqn:Hh;
          [|discriminate].
        apply handle_error_response_dcb in Hh.
        injection H as <- <-. rewrite ?gwbuf_free_dcb. cbn.
        rewrite ?gwbuf_free_dcb, Hh. lia.
      * injection H as <- <-. rewrite ?gwbuf_free_dcb. cbn.
        rewrite ?gwbuf_free_dcb. lia.
Qed.

Lemma read_route_replies_protocol (fuel : nat) (caps : capabilities_t)
  (collected : bool) (rb : option GWBUF) (rc0 : Z) (w : World) (rc : Z)
  (w' : World) :
  read_route_replies fuel caps collected rb rc0 w = Some (rc, w') ->
  protocol (w_dcb w') = protocol (w_dcb w).
Proof.
  revert rb rc0 w. induction fuel as [|fuel IH]; intros rb rc0 w;
    cbn [read_route_replies]; [discriminate|].
  destruct (if collected then _ else _) as [stmt rest].
  destruct (session (w_dcb w)) as [s|]; [|discriminate].
  destruct (session_ok_to_route s).
  - destruct rest; intros H;
      [apply IH in H; rewrite H|injection H as _ <-]; reflexivity.
  - destruct rest; intros H;
      [apply IH in H; rewrite H|injection H as _ <-];
      rewrite gwbuf_free_dcb; reflexivity.
Qed.

Lemma read_and_write_keeps_range (E : Env) (w w' : World) (rc : Z) :
  gw_read_and_write E w = Some (rc, w') ->
  ignore_replies_in_range w -> ignore_replies_in_range w'.
Proof.
  unfold gw_read_and_write, ignore_replies_in_range. intros H Hr.
  destruct (session (w_dcb w)) as [s|]; [|discriminate].
  destruct (dcb_read w) as [[n rb] w0] eqn:Hread.
  assert (H0 : protocol (w_dcb w0) = protocol (w_dcb w)).
  { unfold dcb_read in Hread. destruct (w_socket w);
      injection Hread as _ _ <-; reflexivity. }
  destruct (n <? 0).
  - destruct (do_handle_error _ _ _ w0) as [w1|] eqn:He; [|discriminate].
    injection H as _ <-. apply do_handle_error_protocol in He.
    unfold w_proto. rewrite He, H0. exact Hr.
  - destruct rb as [b|];
      [|injection H as _ <-; unfold w_proto; rewrite H0; exact Hr].
    pose proof (read_frame_and_collect_ignore E (service_capabilities s) b w0)
      as H1.
    destruct (read_frame_and_collect _ _ b w0) as [rc1 w1|[b1 coll] w1].
    + injection H as _ <-. rewrite H1. unfold w_proto. rewrite H0. exact Hr.
    + pose proof (read_changing_user_ignore E b1 w1) as H2.
      destruct (read_changing_user E b1 w1) as [[rc2 w2|b2 w2]|];
        [| |discriminate].
      * injection H as _ <-. rewrite H2, H1. unfold w_proto. rewrite H0.
        exact Hr.
      * assert (Hig : ignore_replies (w_proto w2)
                      = ignore_replies (w_proto w))
          by (rewrite H2, H1; unfold w_proto; rewrite H0; reflexivity).
        destruct (Z.ltb_spec 0 (ignore_replies (w_proto w2))) as [Hpos|Hpos].
        -- unfold read_ignore_replies in H.
           destruct (modutil_get_next_MySQL_packet (Some b2)) as [r rest].
           destruct (skip_to_last_packet _ r rest _) as [[[reply|] w3]|]
             eqn:Hskip; try discriminate.
           apply skip_to_last_packet_dcb in Hskip.
           apply ignored_reply_outcome_range in H; [exact H|].
           unfold w_proto. rewrite Hskip. cbn. fold (w_proto w2). lia.
        -- apply read_route_replies_protocol in H.
           unfold w_proto. rewrite H. fold (w_proto w2). rewrite Hig.
           exact Hr.
Qed.


Lemma backend_write_delayqueue_ignore (E : Env) (b : GWBUF) (w w' : World)
  (rc : Z) :
  backend_write_delayqueue E b w = Some (rc, w') ->
  ignore_replies (w_proto w') = ignore_replies (w_proto w).
Proof.
  unfold backend_write_delayqueue, dcb_write, w_proto.
  destruct (if MYSQL_IS_CHANGE_USER E (GWBUF_DATA b) then _ else _)
    as [[b1 w1]|] eqn:Hre; [|discriminate].
  assert (H1 : w_dcb w1 = w_dcb w).
  { destruct (MYSQL_IS_CHANGE_USER E (GWBUF_DATA b));
      [destruct (session (w_dcb w)) as [s|]; [|discriminate];
       destruct (client_dcb s); [|discriminate]|];
      injection Hre as _ <-; reflexivity. }
  destruct (if _ && _ then _ else _) as [rc1 w2] eqn:Hw.
  assert (H2 : w_dcb w2 = w_dcb w1).
  { destruct (_ && _); [|destruct (dcb_write_ok E b1)];
      injection Hw as _ <-; reflexivity. }
  destruct (rc1 =? 0).
  - destruct (do_handle_error _ _ _ w2) as [w3|] eqn:He; [|discriminate].
    intros H. injection H as _ <-. apply do_handle_error_protocol in He.
    rewrite He, H2, H1. reflexivity.
  - intros H. injection H as _ <-. rewrite H2, H1. reflexivity.
Qed.

Lemma read_auth_response_ignore (E : Env) (b : GWBUF) (w w' : World)
  (rc : Z) :
  read_auth_response E b w = Some (rc, w') ->
  ignore_replies (w_proto w') = ignore_replies (w_proto w).
Proof.
  unfold read_auth_response.
  destruct (if is_error_response b then _ else Some w) as [w1|] eqn:Hw1;
    [|discriminate].
  assert (H1 : ignore_replies (w_proto w1) = ignore_replies (w_proto w)).
  { unfold w_proto. destruct (is_error_response b).
    - apply handle_error_response_dcb in Hw1. rewrite Hw1. reflexivity.
    - injection Hw1 as <-. reflexivity. }
  clear Hw1.
  set (w2 := if auth_state_eqb (auth_state_of w1) MXS_AUTH_STATE_CONNECTED
             then _ else _).
  assert (H2 : ignore_replies (w_proto w2) = ignore_replies (w_proto w1)).
  { unfold w2, handle_server_response.
    destruct (auth_state_eqb (auth_state_of w1) MXS_AUTH_STATE_CONNECTED);
      [destruct (gw_read_backend_handshake E b); reflexivity|].
    destruct (auth_state_eqb (auth_state_of w1)
                MXS_AUTH_STATE_RESPONSE_SENT); [|reflexivity].
    destruct (authfunc_extract E b);
      [destruct (authfunc_authenticate E)|]; reflexivity. }
  clearbody w2.
  destruct (auth_state_eqb (auth_state_of w2) MXS_AUTH_STATE_COMPLETE).
  - destruct (delayq (w_dcb w2)) as [lq|].
    + destruct (backend_write_delayqueue E lq _) as [[rc1 w3]|] eqn:Hd;
        [|discriminate].
      intros H. injection H as _ <-.
      apply backend_write_delayqueue_ignore in Hd.
      unfold w_proto in *. cbn [gwbuf_free emit w_dcb]. rewrite Hd. cbn [w_dcb upd_dcb with_dcb].
      rewrite prepare_for_write_ignore. cbn. rewrite <- H1, <- H2.
      reflexivity.
    + intros H. injection H as _ <-. unfold w_proto in *.
      rewrite ?gwbuf_free_dcb. cbn. rewrite <- H1, <- H2. reflexivity.
  - destruct (_ || _).
    + unfold gw_reply_on_error.
      destruct (do_handle_error _ _ _ w2) as [w3|] eqn:He; [|discriminate].
      intros H. injection H as _ <-. apply do_handle_error_protocol in He.
      unfold w_proto in *. rewrite ?gwbuf_free_dcb; cbn [gwbuf_free emit w_dcb]; rewrite He, <- H1, <- H2.
      reflexivity.
    + intros H. injection H as _ <-. unfold w_proto in *.
      rewrite ?gwbuf_free_dcb; cbn [gwbuf_free emit w_dcb]; rewrite <- H1, <- H2. reflexivity.
Qed.

Lemma read_complete_packet_protocol (w : World) :
  protocol (w_dcb (snd (read_complete_packet w))) = protocol (w_dcb w).
Proof.
  unfold read_complete_packet, dcb_read.
  destruct (w_socket w); [reflexivity|].
  destruct (0 <=? _); [|reflexivity].
  destruct (modutil_get_complete_packets _) as [packets [l|]]; reflexivity.
Qed.

Lemma read_backend_event_keeps_range (E : Env) (w w' : World) (rc : Z) :
  gw_read_backend_event E w = Some (rc, w') ->
  ignore_replies_in_range w -> ignore_replies_in_range w'.
Proof.
  unfold gw_read_backend_event. intros H Hr.
  destruct (negb _); [injection H as _ <-; exact Hr|].
  destruct (auth_state_eqb (auth_state_of w) MXS_AUTH_STATE_COMPLETE);
    [exact (read_and_write_keeps_range E w w' rc H Hr)|].
  pose proof (read_complete_packet_protocol w) as Hp.
  destruct (read_complete_packet w) as [[ok rb] w0]. cbn [snd] in Hp.
  unfold ignore_replies_in_range, w_proto in *.
  destruct ok; cbn [negb] in H.
  - destruct rb as [b|].
    + unfold gwbuf_make_contiguous in H.
      destruct (gwbuf_make_contiguous_ok E b); [|discriminate].
      apply read_auth_response_ignore in H. unfold w_proto in H.
      rewrite H, Hp. exact Hr.
    + destruct (_ && _); injection H as _ <-; cbn; rewrite Hp; exact Hr.
  - unfold gw_reply_on_error in H.
    destruct (do_handle_error _ _ _ _) as [w3|] eqn:He; [|discriminate].
    injection H as _ <-. apply do_handle_error_protocol in He.
    rewrite He. cbn. rewrite Hp. exact Hr.
Qed.

(** X9.  The counter of replies to ignore stays 0 or 1: if it is in that
    range before a write or a read event on the backend DCB, it is in that
    range afterwards, whatever the request, the bytes on the socket and the
    state of the protocol. *)
Theorem ignore_replies_stays_in_range (E : Env) (w : World) :
  ignore_replies_in_range w ->
  (forall queue rc w',
      gw_MySQLWrite_backend E queue w = Some (rc, w') ->
      ignore_replies_in_range w')
  /\ (forall rc w',
         gw_read_backend_event E w = Some (rc, w') ->
         ignore_replies_in_range w').
Proof.
  intros Hr. split.
  - intros queue rc w' H. exact (write_keeps_range E queue w w' rc H Hr).
  - intros rc w' H. exact (read_backend_event_keeps_range E w w' rc H Hr).
Qed.

Lemma ignore_replies_stays_in_range_witness :
  exists w',
    gw_MySQLWrite_backend sample_env show_databases
      (sample_world caps_stmt []) = Some (1, w')
    /\ ignore_replies_in_range w'.
Proof.
  eexists. split; [reflexivity|].
  apply (proj1 (ignore_replies_stays_in_range sample_env
                  (sample_world caps_stmt [])
                  (conj (Z.le_refl 0) (Z.lt_le_incl 0 1 Z.lt_0_1)))
           show_databases 1).
  reflexivity.
Defined.

(* ------------------------------------------------------------------ *)
(** ** What the write entry point hands to the socket *)
(* ------------------------------------------------------------------ *)

(** X10.  A call of the write entry point hands at most one buffer to the
    socket, and only on a DCB whose authentication is COMPLETE; the call
    then returns 1.  The buffer is the request itself, except on a DCB
    taken out of the persistent pool, where it is the COM_CHANGE_USER
    packet built from the credentials of the session's client. *)
Theorem write_reaches_socket_only_when_complete (E : Env) (queue : GWBUF)
  (w w' : World) (rc : Z) :
  gw_MySQLWrite_backend E queue w = Some (rc, w') ->
  socket_writes (w_trace w') = socket_writes (w_trace w)
  \/ (rc = 1
      /\ protocol_auth_state (w_proto w) = MXS_AUTH_STATE_COMPLETE
      /\ exists b,
          socket_writes (w_trace w') = socket_writes (w_trace w) ++ [b]
          /\ if was_persistent (w_dcb w)
             then exists s c,
                 session (w_dcb w) = Some s /\ client_dcb s = Some c
                 /\ b = gw_create_change_user_packet E (client_data c)
                          (set_ignore_replies (w_proto w) 0)
             else b = queue).
Proof.
  unfold gw_MySQLWrite_backend, dcb_write, w_proto. intros H.
  destruct w as [d tr sk]. cbn [w_dcb w_trace] in *.
  destruct (was_persistent d).
  - cbn -[prepare_for_write gw_create_change_user_packet] in H.
    destruct (negb (dcb_state_eqb (state d) DCB_STATE_POLLING));
      cbn [orb] in H;
      [injection H as <- <-; left; cbn; rewrite socket_writes_app; cbn;
       apply app_nil_r|].
    destruct (auth_state_eqb (protocol_auth_state (protocol d))
                MXS_AUTH_STATE_COMPLETE) eqn:Hauth; cbn [negb] in H;
      [|injection H as <- <-; left; cbn; rewrite socket_writes_app; cbn;
        apply app_nil_r].
    apply auth_state_eqb_eq in Hauth.
    destruct (MYSQL_IS_COM_QUIT E (GWBUF_DATA queue)).
    + injection H as <- <-. left.
      destruct (stored_query (protocol d)); cbn;
        rewrite ?socket_writes_app; cbn; rewrite ?app_nil_r; reflexivity.
    + assert (Hd : forall w0 : World,
                 w_dcb w0 = w_dcb (mkWorld
                    (set_protocol (set_was_persistent d false)
                       (set_ignore_replies (protocol d) 0)) tr sk) ->
                 w_dcb (match stored_query (protocol d) with
                        | Some q => gwbuf_free (Some q) w0
                        | None => w0 end) = w_dcb w0)
        by (intros; destruct (stored_query (protocol d)); reflexivity).
      destruct (session d) as [s|] eqn:Hs.
      2:{ destruct (stored_query (protocol d)); cbn in H; rewrite Hs in H;
          discriminate. }
      destruct (client_dcb s) as [c|] eqn:Hc.
      2:{ destruct (stored_query (protocol d)); cbn in H;
          rewrite Hs, Hc in H; discriminate. }
      destruct (stored_query (protocol d)) as [sq|];
        cbn -[gw_create_change_user_packet] in H; rewrite Hs, Hc in H;
        destruct (dcb_write_ok E _); cbn -[gw_create_change_user_packet] in H;
        injection H as <- <-;
        cbn -[gw_create_change_user_packet];
        rewrite ?socket_writes_app; cbn -[gw_create_change_user_packet];
        rewrite ?app_nil_r; auto;
        right; (split; [reflexivity|]); (split; [exact Hauth|]);
        eexists; (split; [reflexivity|]); exists s, c; auto.
  - destruct (0 <? ignore_replies (protocol d)).
    + left. destruct (MYSQL_IS_COM_QUIT E (GWBUF_DATA queue));
        injection H as <- <-; cbn; rewrite ?socket_writes_app; cbn;
        rewrite ?app_nil_r; reflexivity.
    + destruct (protocol_auth_state (protocol d)) eqn:Hauth;
        cbn -[prepare_for_write] in H;
        repeat match type of H with
               | context [if ?c then _ else _] => destruct c
               | context [match ?x with _ => _ end] => destruct x
               end;
        try discriminate; injection H as <- <-;
        cbn -[prepare_for_write]; rewrite ?socket_writes_app; cbn;
        rewrite ?app_nil_r; auto;
        right; (split; [reflexivity|]); (split; [reflexivity|]);
        eexists; split; reflexivity.
Qed.

Lemma write_reaches_socket_only_when_complete_witness :
  exists w',
    gw_MySQLWrite_backend sample_env show_databases
      (connecting_world []) = Some (1, w')
    /\ socket_writes (w_trace w') = [].
Proof.
  eexists. split; [reflexivity|].
  destruct (write_reaches_socket_only_when_complete sample_env
              show_databases (connecting_world []) _ 1 eq_refl)
    as [H|(_ & H & _)]; [exact H|discriminate H].
Defined.

(* ------------------------------------------------------------------ *)
(** ** Requests that arrive before authentication is complete *)
(* ------------------------------------------------------------------ *)

Lemma write_before_auth (E : Env) (q : GWBUF) (w : World) :
  gw_auth_is_complete (w_dcb w) = false ->
  was_persistent (w_dcb w) = false ->
  ignore_replies (w_proto w) = 0 ->
  exists w1,
    gw_MySQLWrite_backend E q w = Some (1, w1)
    /\ w_trace w1 = w_trace w
    /\ delayq (w_dcb w1) = Some (gwbuf_append (delayq (w_dcb w)) q)
    /\ gw_auth_is_complete (w_dcb w1) = false
    /\ was_persistent (w_dcb w1) = false
    /\ ignore_replies (w_proto w1) = 0
    /\ protocol_auth_state (w_proto w1) = protocol_auth_state (w_proto w).
Proof.
  unfold gw_auth_is_complete, gw_MySQLWrite_backend, w_proto.
  intros Hauth Hwp Hig. rewrite Hwp, Hig. cbn [Z.ltb Z.compare].
  assert (Hst : protocol_auth_state
                  (protocol (prepare_for_write (w_dcb w) q))
                = protocol_auth_state (protocol (w_dcb w))).
  { unfold prepare_for_write.
    destruct (session (w_dcb w)) as [s|];
      [destruct (rcap_type_required _ _);
       [destruct (negb _ && negb _)
       |destruct (client_dcb s) as [c|]; [destruct (client_protocol c)|]]|];
      destruct (GWBUF_SHOULD_COLLECT_RESULT q); reflexivity. }
  assert (Hq : delayq (prepare_for_write (w_dcb w) q) = delayq (w_dcb w)
               /\ was_persistent (prepare_for_write (w_dcb w) q)
                  = was_persistent (w_dcb w)).
  { unfold prepare_for_write. split; reflexivity. }
  destruct Hq as [Hq Hwq].
  pose proof (prepare_for_write_ignore (w_dcb w) q) as Hk.
  destruct (protocol_auth_state (protocol (w_dcb w))) eqn:Hs;
    try discriminate;
    eexists; (split; [reflexivity|]);
    cbn -[prepare_for_write]; rewrite ?Hq, ?Hst, ?Hk, ?Hwq, ?Hs;
    repeat split; auto.
Qed.

(** X11.  Requests written while the authentication of the backend is still
    under way are queued in order of arrival: every call returns, nothing is
    handed to the socket or freed, and the delay queue afterwards holds what
    it held before followed by the bytes of the requests, in the order they
    were written. *)
Theorem writes_before_auth_are_queued_in_order (E : Env) (qs : list GWBUF)
  (w : World) :
  gw_auth_is_complete (w_dcb w) = false ->
  was_persistent (w_dcb w) = false ->
  ignore_replies (w_proto w) = 0 ->
  exists w',
    write_each E qs w = Some w'
    /\ w_trace w' = w_trace w
    /\ delayq_bytes (w_dcb w')
       = delayq_bytes (w_dcb w) ++ concat (map gwbuf_data qs)
    /\ protocol_auth_state (w_proto w') = protocol_auth_state (w_proto w).
Proof.
  revert w. induction qs as [|q qs IH]; intros w Hauth Hwp Hig.
  - exists w. cbn. rewrite app_nil_r. auto.
  - destruct (write_before_auth E q w Hauth Hwp Hig)
      as (w1 & Hrun & Htr & Hdq & Hauth1 & Hwp1 & Hig1 & Hst1).
    destruct (IH w1 Hauth1 Hwp1 Hig1) as (w' & Hrest & Htr' & Hdq' & Hst').
    exists w'. cbn [write_each]. rewrite Hrun.
    split; [exact Hrest|]. split; [congruence|]. split; [|congruence].
    rewrite Hdq'. unfold delayq_bytes at 1. rewrite Hdq.
    cbn [map concat]. rewrite app_assoc. f_equal.
    unfold delayq_bytes, gwbuf_append. destruct (delayq (w_dcb w));
      reflexivity.
Qed.

Lemma writes_before_auth_are_queued_in_order_witness :
  exists w',
    write_each sample_env [show_databases; com_quit] (connecting_world [])
    = Some w'
    /\ delayq_bytes (w_dcb w')
       = gwbuf_data show_databases ++ gwbuf_data com_quit.
Proof.
  destruct (writes_before_auth_are_queued_in_order sample_env
              [show_databases; com_quit] (connecting_world [])
              eq_refl eq_refl eq_refl)
    as (w' & Hrun & _ & Hdq & _).
  exists w'. split; [exact Hrun|].
  rewrite Hdq. reflexivity.
Defined.

(* ------------------------------------------------------------------ *)
(** ** Read events before authentication is complete *)
(* ------------------------------------------------------------------ *)

Lemma do_handle_error_notifies (E : Env) (action : mxs_error_action_t)
  (errmsg : String.string) (w : World) (s : MXS_SESSION) :
  session (w_dcb w) = Some s ->
  exists w1 errbuf,
    do_handle_error E action errmsg w = Some w1
    /\ error_notifications (w_trace w1)
       = error_notifications (w_trace w) ++ [(errbuf, action)]
    /\ socket_writes (w_trace w1) = socket_writes (w_trace w)
    /\ client_replies (w_trace w1) = client_replies (w_trace w)
    /\ protocol (w_dcb w1) = protocol (w_dcb w)
    /\ delayq (w_dcb w1) = delayq (w_dcb w)
    /\ readq (w_dcb w1) = readq (w_dcb w).
Proof.
  intros Hs. unfold do_handle_error. rewrite Hs. cbv zeta.
  destruct (handleError_succp E _ action); cbn [negb];
    eexists; eexists; (split; [reflexivity|]); cbn;
    rewrite <- ?app_assoc, ?error_notifications_app, ?socket_writes_app,
      ?client_replies_app; cbn; rewrite ?app_nil_r; repeat split.
Qed.

(** X12.  A socket error on a read event of a DCB that is not in the pool:
    the call returns 0, the router's error handler is notified once, and
    nothing is handed to the socket or to the client.  When the
    authentication is COMPLETE the action is NEW_CONNECTION and the state
    is kept; before that the action is REPLY_CLIENT and the state becomes
    FAILED. *)
Theorem read_event_socket_error (E : Env) (w : World) (s : MXS_SESSION) :
  persistentstart (w_dcb w) = 0 ->
  session (w_dcb w) = Some s ->
  w_socket w = SockError ->
  let complete :=
    auth_state_eqb (auth_state_of w) MXS_AUTH_STATE_COMPLETE in
  exists w' errbuf,
    gw_read_backend_event E w = Some (0, w')
    /\ error_notifications (w_trace w')
       = error_notifications (w_trace w)
         ++ [(errbuf,
              if complete then ERRACT_NEW_CONNECTION
              else ERRACT_REPLY_CLIENT)]
    /\ auth_state_of w'
       = (if complete then MXS_AUTH_STATE_COMPLETE
          else MXS_AUTH_STATE_FAILED)
    /\ socket_writes (w_trace w') = socket_writes (w_trace w)
    /\ client_replies (w_trace w') = client_replies (w_trace w).
Proof.
  intros Hp Hs Hsock complete. unfold gw_read_backend_event.
  rewrite Hp. cbn [Z.eqb negb]. subst complete.
  destruct (auth_state_eqb (auth_state_of w) MXS_AUTH_STATE_COMPLETE)
    eqn:Hauth.
  - apply auth_state_eqb_eq in Hauth.
    unfold gw_read_and_write, dcb_read. rewrite Hs, Hsock.
    cbn [Z.ltb Z.compare].
    destruct (do_handle_error_notifies E ERRACT_NEW_CONNECTION
                "Read from backend failed"%string w s Hs)
      as (w1 & errbuf & Hrun & Hn & Hw & Hc & Hpr & _).
    rewrite Hrun. exists w1, errbuf. repeat split; auto.
    unfold auth_state_of, w_proto in *. rewrite Hpr. exact Hauth.
  - unfold read_complete_packet, dcb_read. rewrite Hsock.
    cbn [Z.leb Z.compare negb].
    set (w0 := upd_proto _ w).
    destruct (do_handle_error_notifies E ERRACT_REPLY_CLIENT
                "Authentication with backend failed. Session will be closed."%string
                w0 s Hs)
      as (w1 & errbuf & Hrun & Hn & Hw & Hc & Hpr & _).
    unfold gw_reply_on_error. rewrite Hrun.
    exists w1, errbuf. repeat split; auto.
    unfold auth_state_of, w_proto. rewrite Hpr. reflexivity.
Qed.

Lemma read_event_socket_error_witness :
  exists w',
    gw_read_backend_event sample_env
      (mkWorld (w_dcb (connecting_world [])) [] SockError) = Some (0, w')
    /\ auth_state_of w' = MXS_AUTH_STATE_FAILED.
Proof.
  destruct (read_event_socket_error sample_env
              (mkWorld (w_dcb (connecting_world [])) [] SockError)
              (sample_session caps_stmt) eq_refl eq_refl eq_refl)
    as (w' & errbuf & Hrun & _ & Hst & _).
  exists w'. split; [exact Hrun|exact Hst].
Defined.

Lemma read_complete_packet_whole (w : World) (p : list uint8) :
  w_socket w = SockBytes p ->
  readq (w_dcb w) = None ->
  is_whole_packet p = true ->
  read_complete_packet w
  = (true, Some (mkGWBUF p []),
     mkWorld (w_dcb w) (w_trace w) (SockBytes [])).
Proof.
  intros Hsock Hq Hp. unfold read_complete_packet, dcb_read.
  rewrite Hsock, Hq. cbn [gwbuf_data gwbuf_type app].
  rewrite (mk_buf_not_nil p [] (whole_packet_not_nil p Hp)).
  destruct (Z.leb_spec 0 (Z.of_nat (length p))) as [_|H]; [|lia].
  pose proof (get_complete_packets_concat [p] [] []) as H.
  cbn [concat] in H. rewrite !app_nil_r in H.
  rewrite H; [|discriminate|cbn; rewrite Hp; reflexivity|reflexivity].
  clear H. cbn [mk_buf]. destruct w as [d tr sk]. destruct d.
  cbn in Hq. subst. reflexivity.
Qed.

(** X13.  The end of the authentication: on a DCB that sent its
    authentication response, a whole reply packet of the server that is not
    an error and that the authenticator accepts moves the protocol to
    COMPLETE, and the requests held in the delay queue are handed to the
    socket as one buffer, once; the delay queue is empty afterwards, the
    call returns 1 and nothing is handed to the client. *)
Theorem delay_queue_flushed_on_completion (E : Env) (w : World)
  (s : MXS_SESSION) (p : list uint8) (dq : GWBUF) :
  persistentstart (w_dcb w) = 0 ->
  session (w_dcb w) = Some s ->
  auth_state_of w = MXS_AUTH_STATE_RESPONSE_SENT ->
  w_socket w = SockBytes p ->
  readq (w_dcb w) = None ->
  is_whole_packet p = true ->
  is_error_response (mkGWBUF p []) = false ->
  gwbuf_make_contiguous_ok E (mkGWBUF p []) = true ->
  authfunc_extract E (mkGWBUF p []) = true ->
  authfunc_authenticate E = MXS_AUTH_SUCCEEDED ->
  delayq (w_dcb w) = Some dq ->
  MYSQL_IS_CHANGE_USER E (GWBUF_DATA dq) = false ->
  MYSQL_IS_COM_QUIT E (GWBUF_DATA dq)
  && persistent_conns_enabled (server (w_dcb w)) = false ->
  dcb_write_ok E dq = true ->
  exists w',
    gw_read_backend_event E w = Some (1, w')
    /\ auth_state_of w' = MXS_AUTH_STATE_COMPLETE
    /\ delayq (w_dcb w') = None
    /\ socket_writes (w_trace w') = socket_writes (w_trace w) ++ [dq]
    /\ client_replies (w_trace w') = client_replies (w_trace w)
    /\ error_notifications (w_trace w') = error_notifications (w_trace w).
Proof.
  intros Hp Hs Hauth Hsock Hq Hwp Herr Hcont Hext Hok Hdq Hcu Hquit Hwr.
  unfold gw_read_backend_event. rewrite Hp. cbn [Z.eqb negb].
  rewrite Hauth. cbn [auth_state_eqb].
  rewrite (read_complete_packet_whole w p Hsock Hq Hwp). cbn [negb].
  unfold gwbuf_make_contiguous. rewrite Hcont.
  unfold read_auth_response. rewrite Herr.
  set (w0 := mkWorld (w_dcb w) (w_trace w) (SockBytes [])).
  assert (Ha0 : auth_state_of w0 = MXS_AUTH_STATE_RESPONSE_SENT)
    by exact Hauth.
  rewrite Ha0. cbn [auth_state_eqb].
  unfold handle_server_response. rewrite Hext, Hok.
  set (w1 := upd_proto _ _).
  assert (Ha1 : auth_state_of w1 = MXS_AUTH_STATE_COMPLETE) by reflexivity.
  rewrite Ha1. cbn [auth_state_eqb].
  assert (Hdq1 : delayq (w_dcb w1) = Some dq) by exact Hdq.
  rewrite Hdq1.
  unfold backend_write_delayqueue.
  rewrite Hcu.
  set (w2 := upd_dcb (fun d => prepare_for_write d dq) _).
  assert (Hsrv : server (w_dcb w2) = server (w_dcb w))
    by reflexivity.
  rewrite Hsrv, Hquit. unfold dcb_write. rewrite Hwr. cbn [Z.eqb].
  eexists. split; [reflexivity|].
  assert (Hst : protocol_auth_state
                  (protocol (prepare_for_write
                               (set_delayq (w_dcb w1) None) dq))
                = MXS_AUTH_STATE_COMPLETE).
  { unfold prepare_for_write. cbn [session set_delayq protocol].
    destruct (session (w_dcb w1)) as [s1|];
      [destruct (rcap_type_required _ _);
       [destruct (negb _ && negb _)
       |destruct (client_dcb s1) as [c|]; [destruct (client_protocol c)|]]|];
      destruct (GWBUF_SHOULD_COLLECT_RESULT dq); reflexivity. }
  split; [exact Hst|]. split; [reflexivity|].
  cbn [gwbuf_free emit w_trace w2 upd_dcb with_dcb].
  unfold w1. cbn [w_trace upd_proto upd_dcb with_dcb emit w0].
  rewrite <- !app_assoc. rewrite !socket_writes_app, !client_replies_app,
    !error_notifications_app. cbn. rewrite !app_nil_r. auto.
Qed.


Lemma delay_queue_flushed_on_completion_witness :
  exists w',
    gw_read_backend_event sample_env (authenticating_world ok_reply)
    = Some (1, w')
    /\ socket_writes (w_trace w') = [show_databases].
Proof.
  destruct (delay_queue_flushed_on_completion sample_env
              (authenticating_world ok_reply) (sample_session caps_stmt)
              ok_reply show_databases
              eq_refl eq_refl eq_refl eq_refl eq_refl eq_refl eq_refl
              eq_refl eq_refl eq_refl eq_refl eq_refl eq_refl eq_refl)
    as (w' & Hrun & _ & _ & Hw & _).
  exists w'. split; [exact Hrun|exact Hw].
Defined.

(** X14.  A server greeting that cannot be read: on a DCB in the state
    CONNECTED, a whole packet that is not an error and that the handshake
    decoder rejects puts the protocol in the state FAILED, not
    HANDSHAKE_FAILED.  The router's error handler is notified once with the
    action REPLY_CLIENT, the packet is freed and the call returns 0; no
    authentication response is sent, nothing is handed to the socket, and
    the requests in the delay queue stay where they are. *)
Theorem unreadable_handshake_fails (E : Env) (w : World) (s : MXS_SESSION)
  (p : list uint8) :
  persistentstart (w_dcb w) = 0 ->
  session (w_dcb w) = Some s ->
  auth_state_of w = MXS_AUTH_STATE_CONNECTED ->
  w_socket w = SockBytes p ->
  readq (w_dcb w) = None ->
  is_whole_packet p = true ->
  is_error_response (mkGWBUF p []) = false ->
  gwbuf_make_contiguous_ok E (mkGWBUF p []) = true ->
  gw_read_backend_handshake E (mkGWBUF p []) = false ->
  exists w' errbuf hangup,
    gw_read_backend_event E w = Some (0, w')
    /\ auth_state_of w' = MXS_AUTH_STATE_FAILED
    /\ w_trace w'
       = w_trace w
         ++ [EvReadHandshake (mkGWBUF p []);
             EvHandleError errbuf ERRACT_REPLY_CLIENT; EvFree errbuf]
         ++ hangup ++ [EvFree (mkGWBUF p [])]
    /\ (hangup = [] \/ hangup = [EvFakeHangup THE_CLIENT_DCB])
    /\ delayq (w_dcb w') = delayq (w_dcb w).
Proof.
  intros Hp Hs Hauth Hsock Hq Hwp Herr Hcont Hhs.
  unfold gw_read_backend_event. rewrite Hp. cbn [Z.eqb negb].
  rewrite Hauth. cbn [auth_state_eqb].
  rewrite (read_complete_packet_whole w p Hsock Hq Hwp). cbn [negb].
  unfold gwbuf_make_contiguous. rewrite Hcont.
  unfold read_auth_response. rewrite Herr.
  set (w0 := mkWorld (w_dcb w) (w_trace w) (SockBytes [])).
  assert (Ha0 : auth_state_of w0 = MXS_AUTH_STATE_CONNECTED) by exact Hauth.
  rewrite Ha0. cbn [auth_state_eqb]. rewrite Hhs.
  set (w1 := upd_proto _ _).
  assert (Ha1 : auth_state_of w1 = MXS_AUTH_STATE_FAILED) by reflexivity.
  rewrite Ha1. cbn [auth_state_eqb orb].
  unfold gw_reply_on_error, do_handle_error.
  assert (Hs1 : session (w_dcb w1) = Some s) by exact Hs.
  rewrite Hs1. cbv zeta.
  destruct (handleError_succp E _ ERRACT_REPLY_CLIENT); cbn [negb];
    eexists; eexists;
    [exists []|exists [EvFakeHangup THE_CLIENT_DCB]];
    (split; [reflexivity|]); cbn; rewrite <- ?app_assoc; cbn; auto.
Qed.

Lemma unreadable_handshake_fails_witness :
  exists w',
    gw_read_backend_event rejecting_env (connecting_world ok_reply)
    = Some (0, w')
    /\ auth_state_of w' = MXS_AUTH_STATE_FAILED.
Proof.
  destruct (unreadable_handshake_fails rejecting_env
              (connecting_world ok_reply) (sample_session caps_stmt)
              ok_reply eq_refl eq_refl eq_refl eq_refl eq_refl eq_refl
              eq_refl eq_refl eq_refl)
    as (w' & errbuf & hangup & Hrun & Hst & _).
  exists w'. split; [exact Hrun|exact Hst].
Defined.

Lemma do_handle_error_client_replies (E : Env)
  (action : mxs_error_action_t) (errmsg : String.string) (w w1 : World) :
  do_handle_error E action errmsg w = Some w1 ->
  client_replies (w_trace w1) = client_replies (w_trace w).
Proof.
  intros H. destruct (session (w_dcb w)) as [s|] eqn:Hs;
    [|unfold do_handle_error in H; rewrite Hs in H; discriminate].
  destruct (do_handle_error_notifies E action errmsg w s Hs)
    as (w2 & errbuf & Hrun & _ & _ & Hc & _).
  congruence.
Qed.

Lemma backend_write_delayqueue_client_replies (E : Env) (b : GWBUF)
  (w w' : World) (rc : Z) :
  backend_write_delayqueue E b w = Some (rc, w') ->
  client_replies (w_trace w') = client_replies (w_trace w).
Proof.
  unfold backend_write_delayqueue, dcb_write.
  destruct (if MYSQL_IS_CHANGE_USER E (GWBUF_DATA b) then _ else _)
    as [[b1 w1]|] eqn:Hre; [|discriminate].
  assert (H1 : client_replies (w_trace w1) = client_replies (w_trace w)).
  { destruct (MYSQL_IS_CHANGE_USER E (GWBUF_DATA b));
      [destruct (session (w_dcb w)) as [s|]; [|discriminate];
       destruct (client_dcb s); [|discriminate]|];
      injection Hre as _ <-; cbn; rewrite ?client_replies_app; cbn;
      rewrite ?app_nil_r; reflexivity. }
  destruct (if _ && _ then _ else _) as [rc1 w2] eqn:Hw.
  assert (H2 : client_replies (w_trace w2) = client_replies (w_trace w1)).
  { destruct (_ && _); [|destruct (dcb_write_ok E b1)];
      injection Hw as _ <-; cbn; rewrite ?client_replies_app; cbn;
      rewrite ?app_nil_r; reflexivity. }
  destruct (rc1 =? 0).
  - destruct (do_handle_error _ _ _ w2) as [w3|] eqn:He; [|discriminate].
    intros H. injection H as _ <-.
    apply do_handle_error_client_replies in He. congruence.
  - intros H. injection H as _ <-. congruence.
Qed.

Lemma read_auth_response_client_replies (E : Env) (b : GWBUF)
  (w w' : World) (rc : Z) :
  read_auth_response E b w = Some (rc, w') ->
  client_replies (w_trace w') = client_replies (w_trace w).
Proof.
  unfold read_auth_response.
  destruct (if is_error_response b then _ else Some w) as [w1|] eqn:Hw1;
    [|discriminate].
  assert (H1 : client_replies (w_trace w1) = client_replies (w_trace w)).
  { destruct (is_error_response b).
    - destruct (handle_error_response_effects _ _ _ Hw1)
        as (fx & -> & Hfx & _).
      cbn. rewrite client_replies_app, Hfx. apply app_nil_r.
    - injection Hw1 as <-. reflexivity. }
  clear Hw1.
  set (w2 := if auth_state_eqb (auth_state_of w1) MXS_AUTH_STATE_CONNECTED
             then _ else _).
  assert (H2 : client_replies (w_trace w2) = client_replies (w_trace w1)).
  { unfold w2, handle_server_response.
    destruct (auth_state_eqb (auth_state_of w1) MXS_AUTH_STATE_CONNECTED);
      [destruct (gw_read_backend_handshake E b); cbn;
       rewrite ?client_replies_app; cbn; rewrite ?app_nil_r; reflexivity|].
    destruct (auth_state_eqb (auth_state_of w1)
                MXS_AUTH_STATE_RESPONSE_SENT); [|reflexivity].
    destruct (authfunc_extract E b);
      [destruct (authfunc_authenticate E)|]; cbn;
      rewrite ?client_replies_app; cbn; rewrite ?app_nil_r; reflexivity. }
  clearbody w2.
  destruct (auth_state_eqb (auth_state_of w2) MXS_AUTH_STATE_COMPLETE).
  - destruct (delayq (w_dcb w2)) as [lq|].
    + destruct (backend_write_delayqueue E lq _) as [[rc1 w3]|] eqn:Hd;
        [|discriminate].
      intros H. injection H as _ <-.
      apply backend_write_delayqueue_client_replies in Hd.
      cbn [gwbuf_free emit w_trace]; rewrite client_replies_app; cbn [client_replies]; rewrite app_nil_r. rewrite Hd. cbn [w_trace upd_dcb with_dcb]. congruence.
    + intros H. injection H as _ <-. cbn [gwbuf_free emit w_trace]; rewrite client_replies_app; cbn [client_replies]; rewrite app_nil_r.
      cbn [w_trace upd_dcb with_dcb]. congruence.
  - destruct (_ || _).
    + unfold gw_reply_on_error.
      destruct (do_handle_error _ _ _ w2) as [w3|] eqn:He; [|discriminate].
      intros H. injection H as _ <-.
      apply do_handle_error_client_replies in He.
      cbn [gwbuf_free emit w_trace]; rewrite client_replies_app; cbn [client_replies]; rewrite app_nil_r. congruence.
    + intros H. injection H as _ <-. cbn [gwbuf_free emit w_trace]; rewrite client_replies_app; cbn [client_replies]; rewrite app_nil_r. congruence.
Qed.

Lemma read_complete_packet_trace (w : World) :
  w_trace (snd (read_complete_packet w)) = w_trace w.
Proof.
  unfold read_complete_packet, dcb_read.
  destruct (w_socket w); [reflexivity|].
  destruct (0 <=? _); [|reflexivity].
  destruct (modutil_get_complete_packets _) as [packets [l|]]; reflexivity.
Qed.

(** X15.  A read event on a DCB whose authentication is not COMPLETE never
    hands anything to the router's reply call-back, whatever the socket
    delivers and whatever the authenticator answers. *)
Theorem read_before_auth_replies_nothing (E : Env) (w w' : World) (rc : Z) :
  auth_state_of w <> MXS_AUTH_STATE_COMPLETE ->
  gw_read_backend_event E w = Some (rc, w') ->
  client_replies (w_trace w') = client_replies (w_trace w).
Proof.
  intros Hauth. unfold gw_read_backend_event.
  destruct (negb _);
    [intros H; injection H as _ <-; cbn; rewrite client_replies_app;
     apply app_nil_r|].
  destruct (auth_state_eqb (auth_state_of w) MXS_AUTH_STATE_COMPLETE)
    eqn:Ha; [apply auth_state_eqb_eq in Ha; contradiction|].
  pose proof (read_complete_packet_trace w) as Ht.
  destruct (read_complete_packet w) as [[ok rb] w0]. cbn [snd] in Ht.
  destruct ok; cbn [negb].
  - destruct rb as [b|].
    + unfold gwbuf_make_contiguous.
      destruct (gwbuf_make_contiguous_ok E b); [|discriminate].
      intros H. apply read_auth_response_client_replies in H. congruence.
    + destruct (_ && _); intros H; injection H as _ <-; cbn;
        rewrite ?client_replies_app; cbn; rewrite ?app_nil_r; congruence.
  - unfold gw_reply_on_error.
    destruct (do_handle_error _ _ _ _) as [w3|] eqn:He; [|discriminate].
    intros H. injection H as _ <-.
    apply do_handle_error_client_replies in He. rewrite He. cbn. congruence.
Qed.

Lemma read_before_auth_replies_nothing_witness :
  exists w',
    gw_read_backend_event sample_env (authenticating_world ok_reply)
    = Some (1, w')
    /\ client_replies (w_trace w') = [].
Proof.
  eexists. split; [reflexivity|].
  apply (read_before_auth_replies_nothing sample_env
           (authenticating_world ok_reply) _ 1);
    [discriminate|reflexivity].
Defined.

(* ------------------------------------------------------------------ *)
(** ** Routing replies one statement at a time *)
(* ------------------------------------------------------------------ *)


Lemma concat_whole_not_nil (ps : list (list uint8)) :
  ps <> [] -> forallb is_whole_packet ps = true -> concat ps <> [].
Proof.
  intros Hne Hwf. pose proof (concat_whole_packets_length ps Hwf) as H.
  destruct ps; [contradiction|]. cbn [length] in H.
  intros He. rewrite He in H. cbn in H. lia.
Qed.








(* ------------------------------------------------------------------ *)
(** ** Partial reads *)
(* ------------------------------------------------------------------ *)

Lemma get_complete_packets_none (d : list uint8) (t : list gwbuf_type_t) :
  d <> [] -> has_complete_packet d = false ->
  modutil_get_complete_packets (Some (mkGWBUF d t))
  = (None, Some (mkGWBUF d t)).
Proof.
  intros Hne Hno. unfold modutil_get_complete_packets. cbn [gwbuf_data].
  destruct (length d <? 3)%nat eqn:Hlen; [reflexivity|].
  apply Nat.ltb_ge in Hlen.
  destruct (length d) as [|n] eqn:Hn; [lia|].
  cbn [complete_packets_len]. rewrite Hno.
  destruct (Nat.eqb_spec 0 (S n)); [lia|]. reflexivity.
Qed.

(** X18.  A read that does not yet hold a whole packet, on a DCB whose
    replies are split into packets (packet, statement or contiguous output
    is required, a result is being collected, or a reply is to be ignored):
    the bytes read so far are kept in the read queue in arrival order,
    nothing is handed to the router, written, freed or reported, the
    protocol object is untouched and the call returns 0. *)
Theorem partial_packet_waits_in_read_queue (E : Env) (w : World)
  (s : MXS_SESSION) (bs : list uint8) :
  session (w_dcb w) = Some s ->
  w_socket w = SockBytes bs ->
  readq_bytes (w_dcb w) ++ bs <> [] ->
  has_complete_packet (readq_bytes (w_dcb w) ++ bs) = false ->
  rcap_type_required (service_capabilities s) RCAP_TYPE_PACKET_OUTPUT
  || rcap_type_required (service_capabilities s) RCAP_TYPE_STMT_OUTPUT
  || rcap_type_required (service_capabilities s) RCAP_TYPE_CONTIGUOUS_OUTPUT
  || collect_result (w_proto w)
  || negb (ignore_replies (w_proto w) =? 0) = true ->
  exists w',
    gw_read_and_write E w = Some (0, w')
    /\ w_trace w' = w_trace w
    /\ readq_bytes (w_dcb w') = readq_bytes (w_dcb w) ++ bs
    /\ protocol (w_dcb w') = protocol (w_dcb w).
Proof.
  intros Hs Hsock Hne Hno Hsplit.
  unfold gw_read_and_write. rewrite Hs.
  unfold dcb_read. rewrite Hsock.
  rewrite readq_bytes_old, readq_tags_old.
  rewrite (mk_buf_not_nil _ _ Hne).
  destruct (Z.ltb_spec (Z.of_nat (length (readq_bytes (w_dcb w) ++ bs))) 0)
    as [H|_]; [lia|].
  set (w0 := mkWorld _ _ (SockBytes [])).
  unfold read_frame_and_collect.
  assert (Hp0 : w_proto w0 = w_proto w) by reflexivity.
  rewrite Hp0, Hsplit.
  rewrite (get_complete_packets_none _ _ Hne Hno).
  eexists. split; [reflexivity|]. repeat split.
Qed.

Lemma partial_packet_waits_in_read_queue_witness :
  exists w',
    gw_read_and_write sample_env (sample_world caps_stmt [7; 0; 0; 1; 0])
    = Some (0, w')
    /\ readq_bytes (w_dcb w') = [7; 0; 0; 1; 0].
Proof.
  destruct (partial_packet_waits_in_read_queue sample_env
              (sample_world caps_stmt [7; 0; 0; 1; 0])
              (sample_session caps_stmt) [7; 0; 0; 1; 0]
              eq_refl eq_refl ltac:(discriminate) eq_refl eq_refl)
    as (w' & Hrun & _ & Hq & _).
  exists w'. split; [exact Hrun|exact Hq].
Defined.

(* ------------------------------------------------------------------ *)
(** ** Sessions that cannot be routed to *)
(* ------------------------------------------------------------------ *)

Lemma read_frame_and_collect_quiet (E : Env) (caps : capabilities_t)
  (b : GWBUF) (w : World) :
  match read_frame_and_collect E caps b w with
  | Return _ w' | Continue _ w' =>
      client_replies (w_trace w') = client_replies (w_trace w)
      /\ session (w_dcb w') = session (w_dcb w)
  end.
Proof.
  unfold read_frame_and_collect, gwbuf_make_contiguous.
  repeat match goal with
         | |- context [let '(_, _) := ?x in _] => destruct x
         | |- context [if ?c then _ else _] => destruct c
         | |- context [match ?x with Some _ => _ | None => _ end] =>
             destruct x
         end;
    cbn; rewrite ?client_replies_app; cbn; rewrite ?app_nil_r;
    try (split; reflexivity);
    destruct (readq (w_dcb w)); split; reflexivity.
Qed.

Lemma read_changing_user_quiet (E : Env) (b : GWBUF) (w : World)
  (s : MXS_SESSION) :
  session (w_dcb w) = Some s ->
  match read_changing_user E b w with
  | Some (Return _ w') | Some (Continue _ w') =>
      client_replies (w_trace w') = client_replies (w_trace w)
      /\ exists s',
          session (w_dcb w') = Some s'
          /\ session_ok_to_route s' = session_ok_to_route s
  | None => True
  end.
Proof.
  intros Hs. unfold read_changing_user, handle_auth_change_response.
  destruct (changing_user (w_proto w)); [|split; eauto].
  destruct (auth_change_requested b);
    [destruct (bytes_eqb _ _);
     [destruct (native_password_response_ok E b)|]|];
    cbn -[Nat.ltb]; rewrite ?client_replies_app; cbn -[Nat.ltb];
    rewrite ?app_nil_r;
    try (split; eauto; fail);
    (destruct (gwbuf_length b <? 4)%nat; [exact I|]);
    rewrite Hs; destruct (client_dcb s) as [c|] eqn:Hc; cbn;
    rewrite ?client_replies_app; cbn; rewrite ?app_nil_r; auto;
    (split; [reflexivity|]); eexists; (split; [reflexivity|]);
    unfold session_ok_to_route; cbn; rewrite Hc; reflexivity.
Qed.

Lemma skip_to_last_packet_quiet (fuel : nat) (reply rb : option GWBUF)
  (w : World) (reply' : option GWBUF) (w' : World) :
  skip_to_last_packet fuel reply rb w = Some (reply', w') ->
  client_replies (w_trace w') = client_replies (w_trace w).
Proof.
  revert reply rb w. induction fuel as [|fuel IH]; intros reply rb w;
    destruct rb as [b|]; cbn [skip_to_last_packet]; intros H;
    try discriminate; try (injection H as _ <-; reflexivity).
  destruct (modutil_get_next_MySQL_packet (Some b)) as [r rest].
  apply IH in H. rewrite H, gwbuf_free_trace, client_replies_app.
  destruct reply; cbn; apply app_nil_r.
Qed.

Lemma route_replies_not_routable (fuel : nat) (caps : capabilities_t)
  (collected : bool) (s : MXS_SESSION) :
  session_ok_to_route s = false ->
  forall (rb : option GWBUF) (rc0 : Z) (w : World) (rc : Z) (w' : World),
    session (w_dcb w) = Some s ->
    read_route_replies fuel caps collected rb rc0 w = Some (rc, w') ->
    client_replies (w_trace w') = client_replies (w_trace w).
Proof.
  intros Hok. induction fuel as [|fuel IH]; intros rb rc0 w rc w' Hs;
    cbn [read_route_replies]; [discriminate|].
  destruct (if collected then _ else _) as [stmt rest].
  rewrite Hs, Hok.
  assert (Hfree : client_replies (w_trace (gwbuf_free stmt w))
                  = client_replies (w_trace w)).
  { rewrite gwbuf_free_trace, client_replies_app.
    destruct stmt; cbn; apply app_nil_r. }
  destruct rest; intros H.
  - apply IH in H; [|rewrite gwbuf_free_dcb; exact Hs]. congruence.
  - injection H as _ <-. exact Hfree.
Qed.

(** X19.  Nothing is handed to the router's reply call-back by a read on a
    DCB whose session cannot be routed to (not started, client DCB not in
    the poll set, no router session, or client not authenticated), whatever
    the router requires, the state of the protocol and the bytes read. *)
Theorem read_never_replies_when_not_routable (E : Env) (w w' : World)
  (s : MXS_SESSION) (rc : Z) :
  session (w_dcb w) = Some s ->
  session_ok_to_route s = false ->
  gw_read_and_write E w = Some (rc, w') ->
  client_replies (w_trace w') = client_replies (w_trace w).
Proof.
  intros Hs Hok. unfold gw_read_and_write. rewrite Hs.
  destruct (dcb_read w) as [[n rb] w0] eqn:Hread.
  assert (H0 : w_trace w0 = w_trace w /\ session (w_dcb w0) = Some s).
  { unfold dcb_read in Hread. destruct (w_socket w);
      injection Hread as _ _ <-; split; auto. }
  destruct H0 as [Ht0 Hs0].
  destruct (n <? 0).
  - destruct (do_handle_error _ _ _ w0) as [w1|] eqn:He; [|discriminate].
    intros H. injection H as _ <-.
    apply do_handle_error_client_replies in He. congruence.
  - destruct rb as [b|]; [|intros H; injection H as _ <-; congruence].
    pose proof (read_frame_and_collect_quiet E (service_capabilities s) b w0)
      as H1.
    destruct (read_frame_and_collect _ _ b w0) as [rc1 w1|[b1 coll] w1];
      destruct H1 as [Hc1 Hs1].
    + intros H. injection H as _ <-. congruence.
    + rewrite Hs0 in Hs1.
      pose proof (read_changing_user_quiet E b1 w1 s Hs1) as H2.
      destruct (read_changing_user E b1 w1) as [[rc2 w2|b2 w2]|];
        [| |discriminate]; destruct H2 as (Hc2 & s2 & Hs2 & Hok2).
      * intros H. injection H as _ <-. congruence.
      * destruct (0 <? ignore_replies (w_proto w2)).
        -- unfold read_ignore_replies.
           destruct (modutil_get_next_MySQL_packet (Some b2)) as [r rest].
           destruct (skip_to_last_packet _ r rest _) as [[[reply|] w3]|]
             eqn:Hskip; try discriminate.
           intros H. apply skip_to_last_packet_quiet in Hskip.
           apply ignored_reply_outcome_no_client_reply in H.
           cbn [w_trace upd_proto upd_dcb with_dcb] in Hskip. congruence.
        -- intros H.
           apply (route_replies_not_routable _ _ _ s2) in H;
             [congruence|congruence|exact Hs2].
Qed.

Lemma read_never_replies_when_not_routable_witness :
  exists w',
    gw_read_and_write sample_env (stopping_world ok_reply) = Some (11, w')
    /\ client_replies (w_trace w') = [].
Proof.
  eexists. split; [reflexivity|].
  apply (read_never_replies_when_not_routable sample_env
           (stopping_world ok_reply) _
           (mkSession SESSION_STATE_STOPPING (Some sample_client)
              caps_stmt true false SESSION_CLOSE_NONE) 11);
    reflexivity.
Defined.

(* ------------------------------------------------------------------ *)
(** ** The reply to a COM_CHANGE_USER of the client *)
(* ------------------------------------------------------------------ *)

Lemma store_sequence_whole (p : list uint8) (v : uint8) :
  is_whole_packet p = true -> is_whole_packet (store_byte p 3 v) = true.
Proof.
  intros Hp. pose proof (whole_packet_spec p Hp) as [Hlen _].
  unfold MYSQL_HEADER_LEN in Hlen.
  destruct p as [|a [|b [|c [|d rest]]]]; cbn [length] in Hlen; try lia.
  exact Hp.
Qed.

Lemma read_frame_single (E : Env) (caps : capabilities_t) (p : list uint8)
  (t : list gwbuf_type_t) (w : World) :
  is_whole_packet p = true ->
  readq (w_dcb w) = None ->
  gwbuf_make_contiguous_ok E (mkGWBUF p t) = true ->
  collection_defers E (w_proto w) caps (mkGWBUF p t) = false ->
  exists coll track collect,
    read_frame_and_collect E caps (mkGWBUF p t) w
    = Continue (mkGWBUF p t, coll)
        (upd_proto (fun q => set_collect_result q collect)
           (mkWorld (w_dcb w) (w_trace w ++ track) (w_socket w)))
    /\ client_replies track = []
    /\ socket_writes track = []
    /\ error_notifications track = [].
Proof.
  intros Hp Hq Hcont Hdef.
  pose proof (get_complete_packets_concat [p] [] t) as Hget.
  cbn [concat] in Hget. rewrite !app_nil_r in Hget.
  specialize (Hget ltac:(discriminate)
                ltac:(cbn; rewrite Hp; reflexivity) eq_refl).
  assert (Hsame : forall (tr : list event) (c : bool),
             collect_result (w_proto w) = c ->
             mkWorld (w_dcb w) tr (w_socket w)
             = upd_proto (fun q => set_collect_result q c)
                 (mkWorld (w_dcb w) tr (w_socket w))).
  { intros tr c <-. destruct w as [d tr0 sk]. destruct d as [? ? ? ? ? ? ? ? ? ? ? pr].
    destruct pr. reflexivity. }
  assert (Hset : dcb_readq_set None w = w).
  { destruct w as [d tr sk]. destruct d. cbn in Hq. subst. reflexivity. }
  unfold read_frame_and_collect, collection_defers in *.
  destruct (_ || _ || _ || _ || _).
  - rewrite Hget. cbn [mk_buf]. rewrite Hset.
    unfold gwbuf_make_contiguous. rewrite Hcont.
    set (tracking := rcap_type_required caps RCAP_TYPE_SESSION_STATE_TRACKING
                     && negb (expecting_ps_response (w_proto w))
                     && track_state (w_proto w)).
    set (track := if tracking
                  then [EvSessionTrackInfo (mkGWBUF p t)] else []).
    assert (Htrack : (if tracking
                      then emit (EvSessionTrackInfo (mkGWBUF p t)) w else w)
                     = mkWorld (w_dcb w) (w_trace w ++ track) (w_socket w)).
    { unfold track. destruct tracking; [reflexivity|].
      rewrite app_nil_r. destruct w; reflexivity. }
    rewrite Htrack.
    assert (Hq3 : client_replies track = [] /\ socket_writes track = []
                  /\ error_notifications track = []).
    { unfold track. destruct tracking; repeat split. }
    clearbody track. clear Htrack. clearbody tracking.
    destruct (_ || _ || _).
    + destruct (collecting_resultset (w_proto w) caps); cbn [andb] in Hdef.
      * destruct (expecting_text_result (w_proto w)); rewrite Hdef;
          exists true, track, false; split; auto.
      * exists false, track, (collect_result (w_proto w)).
        split; [|exact Hq3]. f_equal. apply Hsame. reflexivity.
    + exists false, track, (collect_result (w_proto w)).
      split; [|exact Hq3]. f_equal. apply Hsame. reflexivity.
  - exists false, [], (collect_result (w_proto w)).
    split; [|repeat split]. f_equal. rewrite app_nil_r.
    rewrite <- Hsame by reflexivity. destruct w; reflexivity.
Qed.

(** X20.  The final reply to a COM_CHANGE_USER that the client itself sent,
    on a DCB whose session can be routed to (session_ok_to_route holds) and
    has a client DCB, with no reply to ignore: when the read queue is empty
    and the socket delivers one whole packet that is made contiguous, is
    not a request to switch the authentication method and is not kept back
    for a collected result, the packet is handed to the router with its
    sequence number set to 3 and otherwise unchanged, once; the
    changing-user marks of the backend protocol and of the client session
    are cleared; nothing is written to the socket and the call returns 1. *)
Theorem change_user_reply_gets_sequence_3 (E : Env) (w : World)
  (s : MXS_SESSION) (c : CLIENT_DCB) (p : list uint8) :
  session (w_dcb w) = Some s ->
  client_dcb s = Some c ->
  session_ok_to_route s = true ->
  changing_user (w_proto w) = true ->
  ignore_replies (w_proto w) = 0 ->
  w_socket w = SockBytes p ->
  readq (w_dcb w) = None ->
  is_whole_packet p = true ->
  auth_change_requested (mkGWBUF p []) = false ->
  gwbuf_make_contiguous_ok E (mkGWBUF p []) = true ->
  collection_defers E (w_proto w) (service_capabilities s) (mkGWBUF p [])
  = false ->
  exists w' tags s' c',
    gw_read_and_write E w = Some (1, w')
    /\ client_replies (w_trace w')
       = client_replies (w_trace w)
         ++ [Some (mkGWBUF (store_byte p 3 3) tags)]
    /\ changing_user (w_proto w') = false
    /\ session (w_dcb w') = Some s'
    /\ client_dcb s' = Some c'
    /\ mses_changing_user (client_data c') = false
    /\ socket_writes (w_trace w') = socket_writes (w_trace w).
Proof.
  intros Hs Hc Hok Hcu Hig Hsock Hq Hp Hnsw Hcont Hdef.
  pose proof (whole_packet_not_nil p Hp) as Hne.
  unfold gw_read_and_write. rewrite Hs.
  unfold dcb_read. rewrite Hsock, Hq. cbn [gwbuf_data gwbuf_type app].
  rewrite (mk_buf_not_nil p [] Hne).
  destruct (Z.ltb_spec (Z.of_nat (length p)) 0) as [H|_]; [lia|].
  set (w0 := mkWorld _ _ (SockBytes [])).
  assert (Hq0 : readq (w_dcb w0) = None) by reflexivity.
  assert (Hdef0 : collection_defers E (w_proto w0) (service_capabilities s)
                    (mkGWBUF p []) = false) by exact Hdef.
  destruct (read_frame_single E (service_capabilities s) p [] w0 Hp Hq0
              Hcont Hdef0)
    as (coll & track & collect & Hframe & Hc1 & Hw1 & He1).
  rewrite Hframe. clear Hframe.
  set (w1 := upd_proto _ _).
  assert (Hcu1 : changing_user (w_proto w1) = true) by exact Hcu.
  assert (Hs1 : session (w_dcb w1) = Some s) by exact Hs.
  unfold read_changing_user. rewrite Hcu1, Hnsw.
  assert (Hlen4 : (gwbuf_length (mkGWBUF p []) <? 4)%nat = false).
  { apply Nat.ltb_ge. pose proof (whole_packet_spec p Hp) as [H4 _].
    exact H4. }
  rewrite Hlen4.
  cbn [upd_proto upd_dcb with_dcb w_dcb set_protocol session].
  fold (session (w_dcb w1)). rewrite Hs1, Hc.
  set (b3 := mkGWBUF (store_byte (gwbuf_data (mkGWBUF p [])) 3 3) _).
  set (s3 := set_client_dcb s _).
  set (w2 := upd_dcb _ _).
  assert (Hig2 : ignore_replies (w_proto w2) = 0) by exact Hig.
  rewrite Hig2. cbn [Z.ltb Z.compare].
  assert (Hs2 : session (w_dcb w2) = Some s3) by reflexivity.
  assert (Hok3 : session_ok_to_route s3 = true).
  { rewrite <- Hok. unfold session_ok_to_route, s3. cbn. rewrite Hc.
    reflexivity. }
  assert (Htr2 : w_trace w2 = w_trace w ++ track) by reflexivity.
  assert (Hp3 : is_whole_packet (gwbuf_data b3) = true)
    by (apply store_sequence_whole; exact Hp).
  cbn [read_route_replies gwbuf_length].
  assert (Hnext : modutil_get_next_MySQL_packet (Some b3) = (Some b3, None)).
  { pose proof (get_next_packet_head (gwbuf_data b3) [] (gwbuf_type b3) Hp3)
      as Hn.
    rewrite app_nil_r in Hn. destruct b3 as [d3 t3]. exact Hn. }
  rewrite Hs2, Hok3.
  destruct coll;
    [|destruct (rcap_type_required (service_capabilities s)
                  RCAP_TYPE_STMT_OUTPUT
                && negb (rcap_type_required (service_capabilities s)
                           RCAP_TYPE_RESULTSET_OUTPUT));
      [rewrite Hnext|]];
    cbn [option_map];
    eexists; eexists; exists s3, (set_client_data c
                                    (set_mses_changing_user (client_data c)
                                       false));
    (split; [reflexivity|]);
    cbn [emit w_trace w_dcb]; rewrite Htr2;
    rewrite !client_replies_app, !socket_writes_app, Hc1, Hw1;
    cbn [client_replies socket_writes app]; rewrite ?app_nil_r;
    repeat split.
  all: unfold gwbuf_set_type;
    repeat match goal with
           | |- context [if ?c then _ else _] => destruct c
           end; reflexivity.
Qed.

Lemma change_user_reply_gets_sequence_3_witness :
  exists w',
    gw_read_and_write sample_env (changing_user_world ok_reply)
    = Some (1, w')
    /\ client_replies (w_trace w')
       = [Some (mkGWBUF [7; 0; 0; 3; 0; 0; 0; 2; 0; 0; 0] [])].
Proof.
  eexists. split; [reflexivity|].
  destruct (change_user_reply_gets_sequence_3 sample_env
              (changing_user_world ok_reply)
              (set_client_dcb (sample_session caps_stmt)
                 (Some (set_client_data sample_client
                          (set_mses_changing_user sample_mses_pw true))))
              (set_client_data sample_client
                 (set_mses_changing_user sample_mses_pw true))
              ok_reply eq_refl eq_refl eq_refl eq_refl eq_refl eq_refl
              eq_refl eq_refl eq_refl eq_refl eq_refl)
    as (w' & tags & s' & c' & Hrun & _).
  injection Hrun as <-. reflexivity.
Defined.

(* ------------------------------------------------------------------ *)
(** ** COM_CHANGE_USER: reading what the module itself writes *)
(* ------------------------------------------------------------------ *)

Lemma c_string_at_app (u rest : list uint8) :
  Forall (fun b => b <> 0) u ->
  c_string_at (u ++ 0 :: rest) = u.
Proof.
  induction 1 as [|b u Hb _ IH]; cbn; [reflexivity|].
  destruct (Z.eqb_spec b 0); [contradiction|]. now rewrite IH.
Qed.

Lemma skipn_past (u rest : list uint8) :
  skipn (length u + 1) (u ++ 0 :: rest) = rest.
Proof.
  rewrite Nat.add_1_r.
  change (0 :: rest) with ([0] ++ rest). rewrite app_assoc.
  replace (S (length u)) with (length (u ++ [0]))
    by (rewrite length_app; cbn; lia).
  rewrite skipn_app, Nat.sub_diag, skipn_all. reflexivity.
Qed.

Lemma firstn_exact_app {A} (a b : list A) (n : nat) :
  n = length a -> firstn n (a ++ b) = a.
Proof.
  intros ->. rewrite firstn_app, Nat.sub_diag, firstn_all. cbn.
  apply app_nil_r.
Qed.

Lemma skipn_exact_app {A} (a b : list A) (n : nat) :
  n = length a -> skipn n (a ++ b) = b.
Proof.
  intros ->. rewrite skipn_app, Nat.sub_diag, skipn_all. reflexivity.
Qed.

(** The parser on a packet laid out as header and command, user name, token
    length, token, database name and the rest. *)
Lemma read_change_user_request_layout (A : AuthEnv) (h0 h1 h2 h3 cmd : uint8)
  (u : list uint8) (tok_len : Z) (tok d tail : list uint8) :
  Forall (fun b => b <> 0) u ->
  Forall (fun b => b <> 0) d ->
  (length u <= MYSQL_USER_MAXLEN A)%nat ->
  (length d <= MYSQL_DATABASE_MAXLEN A)%nat ->
  0 <= tok_len -> Z.to_nat tok_len = length tok ->
  read_change_user_request A
    (h0 :: h1 :: h2 :: h3 :: cmd
        :: u ++ 0 :: tok_len :: tok ++ d ++ 0 :: tail)
  = mkChangeUserRequest u tok_len tok d
      (if negb (byte_at tail 0 =? 0) then Some (gw_mysql_get_byte4 tail)
       else None).
Proof.
  intros Hu Hd Hul Hdl Hpos Hlen.
  unfold read_change_user_request, strlen.
  change (skipn 5 (h0 :: h1 :: h2 :: h3 :: cmd :: ?x)) with x.
  cbv zeta.
  rewrite (c_string_at_app _ _ Hu), skipn_past.
  rewrite (firstn_all2 (n := MYSQL_USER_MAXLEN A) u Hul).
  change (byte_at (tok_len :: ?x) 0) with tok_len.
  change (skipn 1 (tok_len :: ?x)) with x.
  destruct (Z.ltb_spec 0 tok_len) as [Hgt|Hle].
  - rewrite (firstn_exact_app tok _ _ Hlen), (skipn_exact_app tok _ _ Hlen).
    rewrite (c_string_at_app _ _ Hd), skipn_past.
    rewrite (firstn_all2 (n := MYSQL_DATABASE_MAXLEN A) d Hdl).
    reflexivity.
  - assert (tok_len = 0) by lia. subst tok_len.
    destruct tok; [|discriminate Hlen]. cbn [app].
    rewrite (c_string_at_app _ _ Hd), skipn_past.
    rewrite (firstn_all2 (n := MYSQL_DATABASE_MAXLEN A) d Hdl).
    reflexivity.
Qed.

(** X21.  Round trip of the COM_CHANGE_USER packet: what the module builds
    for the backend from the credentials of a session, read back by the
    parser the module applies to the client's COM_CHANGE_USER, gives the
    same user name, the same database name and the token that was written
    (20 bytes when a password is set, none otherwise), provided the names
    hold no zero byte and fit the length limits.  The character set read
    back agrees with the one written in its low byte. *)
Theorem change_user_packet_round_trip (E : Env) (A : AuthEnv)
  (mses : MYSQL_session) (proto : MySQLProtocol) :
  length (client_sha1 mses) = 20%nat ->
  length (scramble proto) = 20%nat ->
  Forall (fun b => b <> 0) (user mses) ->
  Forall (fun b => b <> 0) (db mses) ->
  (length (user mses) <= MYSQL_USER_MAXLEN A)%nat ->
  (length (db mses) <= MYSQL_DATABASE_MAXLEN A)%nat ->
  let req :=
    read_change_user_request A
      (GWBUF_DATA (gw_create_change_user_packet E mses proto)) in
  cu_username req = user mses
  /\ cu_database req = db mses
  /\ cu_auth_token_len req = (if password_is_set mses then 20 else 0)
  /\ cu_auth_token req
     = (if password_is_set mses
        then spec_scramble E (client_sha1 mses) (scramble proto)
        else [])
  /\ match cu_charset req with
     | Some v => Z.land v 255 = Z.land (charset proto) 255
     | None => Z.land (charset proto) 255 = 0
     end.
Proof.
  intros Hsha Hscr Hu Hd Hul Hdl req. subst req.
  unfold GWBUF_DATA. rewrite (change_user_data_eq E mses proto Hsha Hscr).
  assert (Hxor : length (spec_scramble E (client_sha1 mses) (scramble proto))
                 = 20%nat)
    by (unfold spec_scramble; apply gw_str_xor_length;
        [exact Hsha|apply sha1_length]).
  assert (Hcs : match
                  (if negb (Z.land (charset proto) 255 =? 0)
                   then Some (gw_mysql_get_byte4
                                (Z.land (charset proto) 255 :: 0
                                 :: bytes_of_string DEFAULT_MYSQL_AUTH_PLUGIN
                                    ++ [0]))
                   else None)
                with
                | Some v => Z.land v 255 = Z.land (charset proto) 255
                | None => Z.land (charset proto) 255 = 0
                end).
  { destruct (Z.eqb_spec (Z.land (charset proto) 255) 0) as [H0|H0];
      cbn [negb]; [exact H0|].
    unfold gw_mysql_get_byte4. cbn [byte_at nth bytes_of_string].
    rewrite Z.land_lor_distr_l, <- Z.land_assoc.
    change (Z.land 255 255) with 255.
    match goal with
    | |- Z.lor _ (Z.land ?k 255) = _ =>
        replace (Z.land k 255) with 0 by reflexivity
    end.
    apply Z.lor_0_r. }
  unfold gw_mysql_set_byte3.
  set (n := Z.of_nat (length (change_user_payload E mses proto))).
  clearbody n. unfold change_user_payload.
  destruct (password_is_set mses);
    cbn [app]; rewrite <- ?app_assoc; cbn [app].
  - rewrite read_change_user_request_layout;
      [|assumption|assumption|assumption|assumption|lia
       |rewrite Hxor; reflexivity].
    cbn [cu_username cu_database cu_auth_token_len cu_auth_token cu_charset
         byte_at nth].
    repeat split. exact Hcs.
  - change (user mses ++ 0 :: 0 :: db mses ++ ?x)
      with (user mses ++ 0 :: 0 :: [] ++ db mses ++ x).
    rewrite read_change_user_request_layout;
      [|assumption|assumption|assumption|assumption|lia|reflexivity].
    cbn [cu_username cu_database cu_auth_token_len cu_auth_token cu_charset
         byte_at nth].
    repeat split. exact Hcs.
Qed.

Lemma change_user_packet_round_trip_witness :
  cu_username
    (read_change_user_request (accepting_auth [])
       (GWBUF_DATA
          (gw_create_change_user_packet sample_env sample_mses_pw
             sample_protocol)))
  = [117; 50].
Proof.
  apply (change_user_packet_round_trip sample_env (accepting_auth [])
           sample_mses_pw sample_protocol);
    try reflexivity;
    try (repeat constructor; discriminate);
    cbn; lia.
Defined.

(* ------------------------------------------------------------------ *)
(** ** COM_CHANGE_USER: re-authentication *)
(* ------------------------------------------------------------------ *)

Lemma upd_mses_run (f : MYSQL_session -> MYSQL_session) (w : World)
  (s : MXS_SESSION) (c : CLIENT_DCB) :
  session (w_dcb w) = Some s -> client_dcb s = Some c ->
  upd_mses f w
  = upd_dcb
      (fun d =>
         set_session d
           (Some (set_client_dcb s
                    (Some (set_client_data c (f (client_data c))))))) w.
Proof.
  intros Hs Hc. unfold upd_mses, upd_dcb. rewrite Hs, Hc. reflexivity.
Qed.

Lemma set_mses_db_restore (m : MYSQL_session) (x : list uint8) :
  set_mses_db (set_mses_db m x) (db m) = m.
Proof. destruct m; reflexivity. Qed.

Lemma write_keeps_session (E : Env) (q : GWBUF) (w w' : World) (rc : Z) :
  gw_MySQLWrite_backend E q w = Some (rc, w') ->
  session (w_dcb w') = session (w_dcb w).
Proof.
  unfold gw_MySQLWrite_backend, dcb_write, w_proto. intros H.
  destruct w as [d tr sk]. cbn [w_dcb] in *.
  remember (session d) as sd eqn:Hsd.
  assert (Hpw : session (prepare_for_write d q) = session d)
    by reflexivity.
  destruct (was_persistent d).
  - cbn -[prepare_for_write gw_create_change_user_packet] in H.
    rewrite <- ?Hsd in H.
    repeat match type of H with
           | context [if ?c then _ else _] => destruct c
           | context [match ?x with _ => _ end] => destruct x
           end;
      try discriminate; injection H as <- <-; cbn; congruence.
  - destruct (0 <? ignore_replies (protocol d)).
    + destruct (MYSQL_IS_COM_QUIT E (GWBUF_DATA q));
        injection H as <- <-; cbn; congruence.
    + destruct (protocol_auth_state (protocol d));
        cbn -[prepare_for_write] in H; rewrite <- ?Hsd in H;
        repeat match type of H with
               | context [if ?c then _ else _] => destruct c
               | context [match ?x with _ => _ end] => destruct x
               end;
        try discriminate; injection H as <- <-; cbn -[prepare_for_write];
        congruence.
Qed.

Lemma rejected_change_user_run (E : Env) (A : AuthEnv)
  (queue : GWBUF) (w : World) (s : MXS_SESSION) (c : CLIENT_DCB)
  (client_proto : MySQLProtocol)
  (reauth : bool -> list uint8 -> list uint8 -> Z -> list uint8 ->
            list uint8 -> Z * list uint8) :
  session (w_dcb w) = Some s ->
  client_dcb s = Some c ->
  client_protocol c = Some client_proto ->
  auth_token_alloc_ok A = true ->
  reauthenticate A = Some reauth ->
  (forall refreshed u tok len scr out,
      fst (reauth refreshed u tok len scr out) <> 0) ->
  let req := read_change_user_request A (GWBUF_DATA queue) in
  let message :=
    create_auth_fail_str A (cu_username req) (0 <? cu_auth_token_len req)
      (last_auth_ret A reauth req (scramble client_proto)) in
  exists w',
    gw_change_user E A queue w
    = Some (match message with Some _ => 1 | None => 0 end,
            match message with
            | Some m => CU_reply_auth_error m
            | None => CU_nothing
            end, w')
    /\ session (w_dcb w')
       = Some (set_client_dcb s (Some (set_client_data c (client_data c))))
    /\ w_trace w' = w_trace w ++ [EvRefreshUsers; EvFree queue]
    /\ changing_user (w_proto w') = changing_user (w_proto w).
Proof.
  intros Hs Hc Hcp Halloc Hre Hrej req message. subst message.
  unfold last_auth_ret.
  unfold gw_change_user. rewrite Hs, Hc, Halloc, Hre, Hcp.
  rewrite andb_false_r. fold req.
  set (w0 := match cu_charset req with Some _ => _ | None => w end).
  assert (Hs0 : session (w_dcb w0) = Some s)
    by (unfold w0; destruct (cu_charset req); exact Hs).
  assert (Htr0 : w_trace w0 = w_trace w)
    by (unfold w0; destruct (cu_charset req); reflexivity).
  assert (Hcu0 : changing_user (w_proto w0) = changing_user (w_proto w))
    by (unfold w0; destruct (cu_charset req); reflexivity).
  clearbody w0.
  rewrite (upd_mses_run _ w0 s c Hs0 Hc).
  set (w1 := upd_dcb _ w0).
  set (c1 := set_client_data c (set_mses_db (client_data c) [])).
  set (s1 := set_client_dcb s (Some c1)).
  assert (Hs1 : session (w_dcb w1) = Some s1) by reflexivity.
  assert (Hc1 : client_dcb s1 = Some c1) by reflexivity.
  destruct (reauth false _ _ _ _ _) as [r1 sha1] eqn:Hr1.
  pose proof (Hrej false (cu_username req) (cu_auth_token req)
                (cu_auth_token_len req) (scramble client_proto)
                (repeat 0 MYSQL_SCRAMBLE_LEN)) as Hn1.
  rewrite Hr1 in Hn1. cbn [fst] in Hn1. cbn [fst snd].
  apply Z.eqb_neq in Hn1. rewrite Hn1. cbn [negb].
  rewrite (upd_mses_run _ w1 s1 c1 Hs1 Hc1).
  set (w2 := upd_dcb _ w1).
  assert (Hs2 : session (w_dcb w2)
                = Some (set_client_dcb s
                          (Some (set_client_data c (client_data c))))).
  { unfold w2, s1, c1. cbn. rewrite set_mses_db_restore. reflexivity. }
  assert (Htr2 : w_trace w2 = w_trace w) by exact Htr0.
  assert (Hcu2 : changing_user (w_proto w2) = changing_user (w_proto w))
    by exact Hcu0.
  clearbody w2.
  destruct (service_refresh_users A =? 0).
  - set (s2 := set_client_dcb s (Some (set_client_data c (client_data c)))).
    set (c2 := set_client_data c (client_data c)).
    assert (Hs2e : session (w_dcb (emit EvRefreshUsers w2)) = Some s2)
      by exact Hs2.
    assert (Hc2 : client_dcb s2 = Some c2) by reflexivity.
    rewrite (upd_mses_run _ _ s2 c2 Hs2e Hc2).
    destruct (reauth true _ _ _ _ _) as [r2 sha2] eqn:Hr2.
    pose proof (Hrej true (cu_username req) (cu_auth_token req)
                  (cu_auth_token_len req) (scramble client_proto) sha1)
      as Hn2.
    rewrite Hr2 in Hn2. cbn [fst] in Hn2. cbn [fst snd].
    apply Z.eqb_neq in Hn2.
    set (w3 := upd_dcb _ (emit EvRefreshUsers w2)).
    set (c3 := set_client_data c2 (set_mses_db (client_data c2) [])).
    set (s3 := set_client_dcb s2 (Some c3)).
    assert (Hs3 : session (w_dcb w3) = Some s3) by reflexivity.
    assert (Hc3 : client_dcb s3 = Some c3) by reflexivity.
    rewrite (upd_mses_run _ w3 s3 c3 Hs3 Hc3).
    rewrite Hn2. cbn [negb].
    destruct (create_auth_fail_str A _ _ _) as [message|];
      eexists; (split; [reflexivity|]);
      cbn [gwbuf_free emit w_dcb w_trace upd_dcb with_dcb w_proto session
           set_session protocol];
      (split;
       [unfold s3, c3, s2, c2; cbn; rewrite set_mses_db_restore; reflexivity
       |split; [|exact Hcu2]]);
      unfold w3; cbn [upd_dcb with_dcb emit w_trace];
      rewrite Htr2, <- app_assoc; reflexivity.
  - rewrite Hn1. cbn [negb].
    destruct (create_auth_fail_str A _ _ _) as [message|];
      eexists; (split; [reflexivity|]);
      cbn [gwbuf_free emit w_dcb w_trace upd_dcb with_dcb w_proto session
           set_session protocol];
      rewrite Htr2, <- app_assoc;
      (split; [exact Hs2|split; [reflexivity|exact Hcu2]]).
Qed.

(** X22.  A COM_CHANGE_USER on a session whose client DCB has a protocol
    object, with the copy of the token allocated, that the authenticator
    rejects on every call: the credentials of the session (user, database, password digest) are
    afterwards what they were before, nothing is written to the backend and
    the changing-user mark is not set; the users are reloaded once and the
    request is freed.  The error message is created for the user name of
    the request, for whether a token was given and for the value the
    authenticator returned last: when it is created the call returns 1 and
    that message is sent to the client as an authentication error; when it
    cannot be created the call returns 0 and nothing is sent. *)
Theorem rejected_change_user_keeps_credentials (E : Env) (A : AuthEnv)
  (queue : GWBUF) (w : World) (s : MXS_SESSION) (c : CLIENT_DCB)
  (client_proto : MySQLProtocol)
  (reauth : bool -> list uint8 -> list uint8 -> Z -> list uint8 ->
            list uint8 -> Z * list uint8) :
  session (w_dcb w) = Some s ->
  client_dcb s = Some c ->
  client_protocol c = Some client_proto ->
  auth_token_alloc_ok A = true ->
  reauthenticate A = Some reauth ->
  (forall refreshed u tok len scr out,
      fst (reauth refreshed u tok len scr out) <> 0) ->
  let req := read_change_user_request A (GWBUF_DATA queue) in
  let message :=
    create_auth_fail_str A (cu_username req) (0 <? cu_auth_token_len req)
      (last_auth_ret A reauth req (scramble client_proto)) in
  exists w' s' c',
    gw_change_user E A queue w
    = Some (match message with Some _ => 1 | None => 0 end,
            match message with
            | Some m => CU_reply_auth_error m
            | None => CU_nothing
            end, w')
    /\ session (w_dcb w') = Some s'
    /\ client_dcb s' = Some c'
    /\ client_data c' = client_data c
    /\ socket_writes (w_trace w') = socket_writes (w_trace w)
    /\ w_trace w' = w_trace w ++ [EvRefreshUsers; EvFree queue]
    /\ changing_user (w_proto w') = changing_user (w_proto w).
Proof.
  intros Hs Hc Hcp Halloc Hre Hrej req message.
  destruct (rejected_change_user_run E A queue w s c client_proto reauth
              Hs Hc Hcp Halloc Hre Hrej)
    as (w' & Hrun & Hs' & Htr & Hcu).
  exists w'. eexists. eexists.
  split; [exact Hrun|]. split; [exact Hs'|].
  split; [reflexivity|]. split; [reflexivity|].
  split; [rewrite Htr, socket_writes_app; cbn; apply app_nil_r|].
  split; [exact Htr|exact Hcu].
Qed.

Lemma rejected_change_user_keeps_credentials_witness :
  exists w' s' c',
    gw_change_user sample_env rejecting_auth client_change_user
      (sample_world caps_stmt [])
    = Some (1, CU_reply_auth_error "Access denied"%string, w')
    /\ session (w_dcb w') = Some s'
    /\ client_dcb s' = Some c'
    /\ client_data c' = sample_mses_pw.
Proof.
  destruct (rejected_change_user_keeps_credentials sample_env rejecting_auth
              client_change_user (sample_world caps_stmt [])
              (sample_session caps_stmt) sample_client
              sample_client_protocol (fun _ _ _ _ _ out => (1, out))
              eq_refl eq_refl eq_refl eq_refl eq_refl
              ltac:(intros; discriminate))
    as (w' & s' & c' & Hrun & Hs' & Hc' & Hd & _).
  exists w', s', c'. auto.
Defined.

(** X23.  A COM_CHANGE_USER on a client DCB whose authenticator has no
    re-authentication entry: the call returns 0, nothing is written to the
    backend and the request is freed, but the database name of the session
    is left empty; user name and password digest are untouched. *)
Theorem change_user_without_reauthenticate (E : Env) (A : AuthEnv)
  (queue : GWBUF) (w : World) (s : MXS_SESSION) (c : CLIENT_DCB) :
  session (w_dcb w) = Some s ->
  client_dcb s = Some c ->
  auth_token_alloc_ok A = true ->
  reauthenticate A = None ->
  exists w' s' c',
    gw_change_user E A queue w = Some (0, CU_nothing, w')
    /\ session (w_dcb w') = Some s'
    /\ client_dcb s' = Some c'
    /\ db (client_data c') = []
    /\ user (client_data c') = user (client_data c)
    /\ client_sha1 (client_data c') = client_sha1 (client_data c)
    /\ w_trace w' = w_trace w ++ [EvFree queue].
Proof.
  intros Hs Hc Halloc Hre.
  unfold gw_change_user. rewrite Hs, Hc, Halloc, Hre.
  rewrite andb_false_r.
  set (req := read_change_user_request A (GWBUF_DATA queue)).
  set (w0 := match cu_charset req with Some _ => _ | None => w end).
  assert (Hs0 : session (w_dcb w0) = Some s)
    by (unfold w0; destruct (cu_charset req); exact Hs).
  assert (Htr0 : w_trace w0 = w_trace w)
    by (unfold w0; destruct (cu_charset req); reflexivity).
  clearbody w0.
  rewrite (upd_mses_run _ w0 s c Hs0 Hc).
  eexists. eexists. eexists. split; [reflexivity|].
  cbn [gwbuf_free emit w_dcb w_trace upd_dcb with_dcb session set_session].
  rewrite Htr0. repeat split.
Qed.

Lemma change_user_without_reauthenticate_witness :
  exists w' s' c',
    gw_change_user sample_env no_reauth client_change_user
      (sample_world caps_stmt []) = Some (0, CU_nothing, w')
    /\ session (w_dcb w') = Some s'
    /\ client_dcb s' = Some c'
    /\ db (client_data c') = [].
Proof.
  destruct (change_user_without_reauthenticate sample_env no_reauth
              client_change_user (sample_world caps_stmt [])
              (sample_session caps_stmt) sample_client
              eq_refl eq_refl eq_refl eq_refl)
    as (w' & s' & c' & Hrun & Hs' & Hc' & Hdb & _).
  exists w', s', c'. auto.
Defined.

(** X24.  A COM_CHANGE_USER that the authenticator accepts at once, on a
    backend DCB that is authenticated, not fresh from the pool and not
    waiting for a reply to ignore: the session takes the user name and the
    database name of the request and the digest the authenticator produced;
    exactly one buffer is handed to the socket, the COM_CHANGE_USER packet
    built from these new credentials; the changing-user mark of the backend
    protocol is set, the request is freed and the call returns 1. *)
Theorem accepted_change_user_is_forwarded (E : Env) (A : AuthEnv)
  (queue : GWBUF) (w : World) (s : MXS_SESSION) (c : CLIENT_DCB)
  (client_proto : MySQLProtocol)
  (reauth : bool -> list uint8 -> list uint8 -> Z -> list uint8 ->
            list uint8 -> Z * list uint8)
  (digest : list uint8) :
  let req := read_change_user_request A (GWBUF_DATA queue) in
  let proto :=
    match cu_charset req with
    | Some v => set_charset (w_proto w) v
    | None => w_proto w
    end in
  let mses :=
    mkMYSQL_session (cu_username req) (cu_database req) (pad20 digest)
      (mses_changing_user (client_data c)) in
  let packet := gw_create_change_user_packet E mses proto in
  session (w_dcb w) = Some s ->
  client_dcb s = Some c ->
  client_protocol c = Some client_proto ->
  auth_token_alloc_ok A = true ->
  reauthenticate A = Some reauth ->
  reauth false (cu_username req) (cu_auth_token req) (cu_auth_token_len req)
    (scramble client_proto) (repeat 0 MYSQL_SCRAMBLE_LEN) = (0, digest) ->
  was_persistent (w_dcb w) = false ->
  ignore_replies (w_proto w) = 0 ->
  protocol_auth_state (w_proto w) = MXS_AUTH_STATE_COMPLETE ->
  length (scramble (w_proto w)) = 20%nat ->
  dcb_write_ok E packet = true ->
  exists w' s' c',
    gw_change_user E A queue w = Some (1, CU_nothing, w')
    /\ session (w_dcb w') = Some s'
    /\ client_dcb s' = Some c'
    /\ client_data c' = mses
    /\ w_trace w' = w_trace w ++ [EvWrite packet; EvFree queue]
    /\ changing_user (w_proto w') = true.
Proof.
  intros req proto mses packet Hs Hc Hcp Halloc Hre Hok Hwp Hig Hauth Hscr
    Hwr.
  unfold gw_change_user. rewrite Hs, Hc, Halloc, Hre, Hcp.
  rewrite andb_false_r. fold req.
  set (w0 := match cu_charset req with Some _ => _ | None => w end).
  assert (Hs0 : session (w_dcb w0) = Some s)
    by (unfold w0; destruct (cu_charset req); exact Hs).
  assert (Htr0 : w_trace w0 = w_trace w)
    by (unfold w0; destruct (cu_charset req); reflexivity).
  assert (Hp0 : w_proto w0 = proto)
    by (unfold w0, proto; destruct (cu_charset req); reflexivity).
  assert (Hwp0 : was_persistent (w_dcb w0) = false)
    by (unfold w0; destruct (cu_charset req); exact Hwp).
  assert (Hsrv0 : server (w_dcb w0) = server (w_dcb w))
    by (unfold w0; destruct (cu_charset req); reflexivity).
  clearbody w0.
  rewrite (upd_mses_run _ w0 s c Hs0 Hc).
  set (w1 := upd_dcb _ w0).
  set (c1 := set_client_data c (set_mses_db (client_data c) [])).
  set (s1 := set_client_dcb s (Some c1)).
  assert (Hs1 : session (w_dcb w1) = Some s1) by reflexivity.
  assert (Hc1 : client_dcb s1 = Some c1) by reflexivity.
  rewrite Hok. cbn [Z.eqb negb].
  rewrite (upd_mses_run _ w1 s1 c1 Hs1 Hc1).
  set (w2 := upd_dcb _ w1).
  pose (c2 := set_client_data c1
                (set_mses_db (client_data c1) (db (client_data c)))).
  pose (s2 := set_client_dcb s1 (Some c2)).
  assert (Hs2 : session (w_dcb w2) = Some s2) by reflexivity.
  assert (Hc2 : client_dcb s2 = Some c2) by reflexivity.
  rewrite (upd_mses_run _ w2 s2 c2 Hs2 Hc2).
  set (w3 := upd_dcb _ w2).
  pose (c3 := set_client_data c2
                (mkMYSQL_session (cu_username req) (cu_database req)
                   (pad20 digest) (mses_changing_user (client_data c2)))).
  pose (s3 := set_client_dcb s2 (Some c3)).
  assert (Hd3 : client_data c3 = mses) by reflexivity.
  assert (Hs3 : session (w_dcb w3) = Some s3) by reflexivity.
  assert (Hc3 : client_dcb s3 = Some c3) by reflexivity.
  assert (Hp3 : w_proto w3 = proto) by exact Hp0.
  assert (Htr3 : w_trace w3 = w_trace w) by exact Htr0.
  unfold gw_send_change_user_to_backend.
  rewrite Hs3, Hc3, Hd3, Hp3. fold packet.
  assert (Hcmd : mxs_mysql_get_command packet = 17).
  { unfold mxs_mysql_get_command, packet.
    rewrite change_user_data_eq.
    - reflexivity.
    - unfold mses. cbn [client_sha1]. unfold pad20.
      rewrite length_map, length_seq. reflexivity.
    - unfold proto. destruct (cu_charset req); exact Hscr. }
  destruct (write_in_complete_state E packet w3) as (w4 & Hrun & Htr4 & _).
  - exact Hwp0.
  - rewrite Hp3. unfold proto. destruct (cu_charset req); exact Hig.
  - rewrite Hp3. unfold proto. destruct (cu_charset req); exact Hauth.
  - rewrite Hcmd. reflexivity.
  - exact Hwr.
  - rewrite Hrun. cbn [Z.eqb negb].
    pose proof (write_keeps_session E packet w3 w4 1 Hrun) as Hs4.
    exists (gwbuf_free (Some queue)
              (upd_proto (fun p => set_changing_user p true) w4)), s3, c3.
    split; [reflexivity|].
    split; [cbn; rewrite Hs4; exact Hs3|].
    split; [exact Hc3|]. split; [exact Hd3|].
    split; [|reflexivity].
    cbn [gwbuf_free emit w_trace upd_proto upd_dcb with_dcb].
    rewrite Htr4, Htr3, <- app_assoc. reflexivity.
Qed.

Lemma accepted_change_user_is_forwarded_witness :
  exists w' s' c',
    gw_change_user sample_env (accepting_auth (repeat 9 20))
      client_change_user (sample_world caps_stmt [])
    = Some (1, CU_nothing, w')
    /\ session (w_dcb w') = Some s'
    /\ client_dcb s' = Some c'
    /\ user (client_data c') = [98; 111; 98]
    /\ db (client_data c') = [115; 104; 111; 112].
Proof.
  destruct (accepted_change_user_is_forwarded sample_env
              (accepting_auth (repeat 9 20)) client_change_user
              (sample_world caps_stmt []) (sample_session caps_stmt)
              sample_client sample_client_protocol
              (fun _ _ _ _ _ _ => (0, repeat 9 20)) (repeat 9 20)
              eq_refl eq_refl eq_refl eq_refl eq_refl eq_refl eq_refl
              eq_refl eq_refl eq_refl eq_refl)
    as (w' & s' & c' & Hrun & Hs' & Hc' & Hd & _).
  exists w', s', c'. rewrite Hd. auto.
Defined.

(* ------------------------------------------------------------------ *)
(** ** Collecting a result *)
(* ------------------------------------------------------------------ *)

Lemma read_frame_collecting (E : Env) (caps : capabilities_t)
  (ps : list (list uint8)) (residue : list uint8) (t : list gwbuf_type_t)
  (w : World) :
  collect_result (w_proto w) = true ->
  ps <> [] ->
  forallb is_whole_packet ps = true ->
  has_complete_packet residue = false ->
  gwbuf_make_contiguous_ok E (mkGWBUF (concat ps) t) = true ->
  exists track,
    read_frame_and_collect E caps (mkGWBUF (concat ps ++ residue) t) w
    = (let w2 :=
         mkWorld (set_readq (w_dcb w) (mk_buf residue t))
           (w_trace w ++ track) (w_socket w) in
       if collection_defers E (w_proto w) caps (mkGWBUF (concat ps) t)
       then Return 0 (dcb_readq_prepend (mkGWBUF (concat ps) t) w2)
       else Continue (mkGWBUF (concat ps) t, true)
              (upd_proto (fun p => set_collect_result p false) w2))
    /\ client_replies track = []
    /\ socket_writes track = []
    /\ error_notifications track = [].
Proof.
  intros Hcoll Hne Hwf Hres Hcont.
  unfold read_frame_and_collect, collection_defers, collecting_resultset.
  rewrite Hcoll, !orb_true_r. cbn [orb andb].
  rewrite (get_complete_packets_concat ps residue t Hne Hwf Hres).
  unfold gwbuf_make_contiguous. rewrite Hcont.
  set (tracking := rcap_type_required caps RCAP_TYPE_SESSION_STATE_TRACKING
                   && negb (expecting_ps_response (w_proto w))
                   && track_state (w_proto w)).
  exists (if tracking then [EvSessionTrackInfo (mkGWBUF (concat ps) t)]
          else []).
  split; [|destruct tracking; repeat split].
  assert (Hw2 : (if tracking
                 then emit (EvSessionTrackInfo (mkGWBUF (concat ps) t))
                        (dcb_readq_set (mk_buf residue t) w)
                 else dcb_readq_set (mk_buf residue t) w)
                = mkWorld (set_readq (w_dcb w) (mk_buf residue t))
                    (w_trace w
                     ++ (if tracking
                         then [EvSessionTrackInfo (mkGWBUF (concat ps) t)]
                         else []))
                    (w_socket w)).
  { destruct tracking; [reflexivity|]. rewrite app_nil_r. reflexivity. }
  rewrite Hw2. cbv zeta.
  destruct (expecting_text_result (w_proto w)).
  - destruct (mxs_mysql_is_result_set E _ && _); reflexivity.
  - destruct (expecting_ps_response (w_proto w) && _ && _); reflexivity.
Qed.

(** X25.  A result that is being collected and is not yet complete is put
    back: when the protocol collects a result and the whole packets read so
    far are judged incomplete (a text result set whose end has not come, or
    a prepared-statement reply with packets missing), the read returns 0,
    hands nothing to the router or the socket, keeps the protocol object as
    it is, and leaves every byte read, packets first and incomplete rest
    after them, in the read queue. *)
Theorem incomplete_result_is_put_back (E : Env) (w : World)
  (s : MXS_SESSION) (bs : list uint8) (ps : list (list uint8))
  (residue : list uint8) :
  session (w_dcb w) = Some s ->
  collect_result (w_proto w) = true ->
  w_socket w = SockBytes bs ->
  readq_bytes (w_dcb w) ++ bs = concat ps ++ residue ->
  ps <> [] ->
  forallb is_whole_packet ps = true ->
  has_complete_packet residue = false ->
  gwbuf_make_contiguous_ok E (mkGWBUF (concat ps) (readq_tags (w_dcb w)))
  = true ->
  collection_defers E (w_proto w) (service_capabilities s)
    (mkGWBUF (concat ps) (readq_tags (w_dcb w))) = true ->
  exists w',
    gw_read_and_write E w = Some (0, w')
    /\ readq_bytes (w_dcb w') = readq_bytes (w_dcb w) ++ bs
    /\ protocol (w_dcb w') = protocol (w_dcb w)
    /\ client_replies (w_trace w') = client_replies (w_trace w)
    /\ socket_writes (w_trace w') = socket_writes (w_trace w)
    /\ error_notifications (w_trace w') = error_notifications (w_trace w).
Proof.
  intros Hs Hcoll Hsock Hin Hne Hwf Hres Hcont Hdef.
  pose proof (concat_whole_not_nil ps Hne Hwf) as Hcne.
  unfold gw_read_and_write. rewrite Hs.
  unfold dcb_read. rewrite Hsock.
  rewrite readq_bytes_old, readq_tags_old, Hin.
  rewrite mk_buf_not_nil
    by (intros H; apply app_eq_nil in H; destruct H; contradiction).
  destruct (Z.ltb_spec (Z.of_nat (length (concat ps ++ residue))) 0)
    as [H|_]; [lia|].
  set (w0 := mkWorld _ _ (SockBytes [])).
  destruct (read_frame_collecting E (service_capabilities s) ps residue
              (readq_tags (w_dcb w)) w0 Hcoll Hne Hwf Hres Hcont)
    as (track & Hframe & Hc & Hw & He).
  rewrite Hframe. cbv zeta.
  assert (Hp0 : w_proto w0 = w_proto w) by reflexivity.
  rewrite Hp0, Hdef.
  eexists. split; [reflexivity|].
  cbn [dcb_readq_prepend upd_dcb with_dcb w_dcb w_trace set_readq readq
       protocol].
  rewrite !client_replies_app, !socket_writes_app, !error_notifications_app,
    Hc, Hw, He, !app_nil_r.
  repeat split.
  unfold readq_bytes. cbn [readq set_readq gwbuf_append w0 w_dcb upd_dcb
                           with_dcb].
  destruct residue as [|r residue]; cbn; rewrite ?app_nil_r; reflexivity.
Qed.

Lemma incomplete_result_is_put_back_witness :
  exists w',
    gw_read_and_write deferring_env (collecting_world (ok_reply ++ [7; 0]))
    = Some (0, w')
    /\ readq_bytes (w_dcb w') = ok_reply ++ [7; 0].
Proof.
  destruct (incomplete_result_is_put_back deferring_env
              (collecting_world (ok_reply ++ [7; 0]))
              (sample_session caps_stmt) (ok_reply ++ [7; 0]) [ok_reply]
              [7; 0] eq_refl eq_refl eq_refl eq_refl ltac:(discriminate)
              eq_refl eq_refl eq_refl eq_refl)
    as (w' & Hrun & Hq & _).
  exists w'. split; [exact Hrun|exact Hq].
Defined.

(** X26.  A collected result that is complete goes to the router in one
    piece: when the protocol collects a result, no reply is to be ignored,
    no COM_CHANGE_USER of the client is under way and the whole packets
    read are judged complete, they are handed to the router's reply
    call-back as a single buffer tagged as a collected result, the
    collect-result mark is cleared, the incomplete rest stays in the read
    queue, nothing is written to the socket and the call returns 1. *)
Theorem complete_result_is_routed_whole (E : Env) (w : World)
  (s : MXS_SESSION) (bs : list uint8) (ps : list (list uint8))
  (residue : list uint8) :
  session (w_dcb w) = Some s ->
  session_ok_to_route s = true ->
  collect_result (w_proto w) = true ->
  ignore_replies (w_proto w) = 0 ->
  changing_user (w_proto w) = false ->
  w_socket w = SockBytes bs ->
  readq_bytes (w_dcb w) ++ bs = concat ps ++ residue ->
  ps <> [] ->
  forallb is_whole_packet ps = true ->
  has_complete_packet residue = false ->
  gwbuf_make_contiguous_ok E (mkGWBUF (concat ps) (readq_tags (w_dcb w)))
  = true ->
  collection_defers E (w_proto w) (service_capabilities s)
    (mkGWBUF (concat ps) (readq_tags (w_dcb w))) = false ->
  exists w' result,
    gw_read_and_write E w = Some (1, w')
    /\ client_replies (w_trace w')
       = client_replies (w_trace w) ++ [Some result]
    /\ gwbuf_data result = concat ps
    /\ gwbuf_has_type result GWBUF_TYPE_RESULT = true
    /\ collect_result (w_proto w') = false
    /\ readq_bytes (w_dcb w') = residue
    /\ socket_writes (w_trace w') = socket_writes (w_trace w).
Proof.
  intros Hs Hok Hcoll Hig Hcu Hsock Hin Hne Hwf Hres Hcont Hdef.
  pose proof (concat_whole_not_nil ps Hne Hwf) as Hcne.
  unfold gw_read_and_write. rewrite Hs.
  unfold dcb_read. rewrite Hsock.
  rewrite readq_bytes_old, readq_tags_old, Hin.
  rewrite mk_buf_not_nil
    by (intros H; apply app_eq_nil in H; destruct H; contradiction).
  destruct (Z.ltb_spec (Z.of_nat (length (concat ps ++ residue))) 0)
    as [H|_]; [lia|].
  set (w0 := mkWorld _ _ (SockBytes [])).
  destruct (read_frame_collecting E (service_capabilities s) ps residue
              (readq_tags (w_dcb w)) w0 Hcoll Hne Hwf Hres Hcont)
    as (track & Hframe & Hc & Hw & He).
  rewrite Hframe. cbv zeta.
  assert (Hp0 : w_proto w0 = w_proto w) by reflexivity.
  rewrite Hp0, Hdef.
  set (w1 := upd_proto _ _).
  assert (Hcu1 : changing_user (w_proto w1) = false) by exact Hcu.
  assert (Hig1 : ignore_replies (w_proto w1) = 0) by exact Hig.
  assert (Hs1 : session (w_dcb w1) = Some s) by exact Hs.
  unfold read_changing_user. rewrite Hcu1, Hig1. cbn [Z.ltb Z.compare].
  cbn [read_route_replies option_map]. rewrite Hs1, Hok.
  eexists. eexists. split; [reflexivity|].
  cbn [emit w_trace w_dcb w1 upd_proto upd_dcb with_dcb w_proto protocol
       set_protocol set_collect_result collect_result].
  rewrite !client_replies_app, !socket_writes_app, Hc, Hw.
  cbn [client_replies socket_writes app]. rewrite ?app_nil_r.
  repeat split.
  - unfold gwbuf_set_type.
    repeat match goal with
           | |- context [if ?c then _ else _] => destruct c
           end; reflexivity.
  - unfold gwbuf_set_type.
    destruct (gwbuf_has_type (mkGWBUF (concat ps) (readq_tags (w_dcb w)))
                GWBUF_TYPE_RESULT) eqn:Ht.
    + rewrite Ht. exact Ht.
    + cbn. reflexivity.
  - unfold readq_bytes. cbn. destruct residue; reflexivity.
Qed.

Lemma complete_result_is_routed_whole_witness :
  exists w' result,
    gw_read_and_write sample_env (collecting_world (ok_reply ++ ok_reply))
    = Some (1, w')
    /\ client_replies (w_trace w') = [Some result]
    /\ gwbuf_data result = ok_reply ++ ok_reply.
Proof.
  destruct (complete_result_is_routed_whole sample_env
              (collecting_world (ok_reply ++ ok_reply))
              (sample_session caps_stmt) (ok_reply ++ ok_reply)
              [ok_reply; ok_reply] [] eq_refl eq_refl eq_refl eq_refl
              eq_refl eq_refl eq_refl ltac:(discriminate) eq_refl eq_refl
              eq_refl eq_refl)
    as (w' & result & Hrun & Hc & Hd & _).
  exists w', result. split; [exact Hrun|]. split; [exact Hc|exact Hd].
Defined.



